(** * KursusKu backend (server.js): a shallow embedding and its properties

    The server is an Express application: a table of routes, each a stack
    of middlewares ([requireAuth], [requireAdmin]) followed by a handler
    that talks to a hosted store through a query builder and answers with
    JSON, or, for the certificate route, with a PDF buffer.

    The embedding follows the file top to bottom:
    - JavaScript values as the handlers see them (strings, numbers, JSON);
    - the store client ([from], [select], [eq], [order], [insert], ...)
      over an explicit state, with the failures a call can report;
    - the middlewares and handlers, statement by statement;
    - the properties of the routes. *)

From Stdlib Require Import ZArith List String Ascii Bool Lia.
From Stdlib Require Import DecimalString.
From Stdlib Require Import SpecFloat.
From Stdlib Require Import Sorted Permutation.
Import ListNotations.

Local Open Scope string_scope.
Local Open Scope Z_scope.

(* ===================================================================== *)
(** * JavaScript strings *)
(* ===================================================================== *)

(** Strings are UTF-8 byte strings.  [trim] knows the whole white-space
    set of the language in its UTF-8 form.  [toLowerCase] is not defined
    here: it folds letters by the Unicode tables of the engine, and is
    taken from the environment of the process (see [Server.Env]);
    [lower_ascii] is what it does on ASCII text. *)
Module JsString.

Local Open Scope nat_scope.

Definition chr (n : nat) : ascii := ascii_of_nat n.

Fixpoint of_codes (l : list nat) : string :=
  match l with
  | [] => EmptyString
  | n :: r => String (chr n) (of_codes r)
  end.

Fixpoint map_chars (f : ascii -> ascii) (s : string) : string :=
  match s with
  | EmptyString => EmptyString
  | String c r => String (f c) (map_chars f r)
  end.

Fixpoint rev_onto (s acc : string) : string :=
  match s with
  | EmptyString => acc
  | String c r => rev_onto r (String c acc)
  end.

Definition rev (s : string) : string := rev_onto s EmptyString.

Fixpoint drop (n : nat) (s : string) : string :=
  match n, s with
  | O, _ => s
  | S k, EmptyString => EmptyString
  | S k, String _ r => drop k r
  end.

Fixpoint starts (p s : string) : bool :=
  match p, s with
  | EmptyString, _ => true
  | String a p', String b s' => Ascii.eqb a b && starts p' s'
  | String _ _, EmptyString => false
  end.

(** [s.startsWith(p)] *)
Definition startsWith (s p : string) : bool := starts p s.

(** [s.slice(n)] for [0 <= n]. *)
Definition slice (n : nat) (s : string) : string := drop n s.

(** [s.slice(-n)] for [0 < n]: the last [n] characters, or all of [s]. *)
Definition slice_last (n : nat) (s : string) : string :=
  drop (String.length s - n) s.

Definition is_upper (c : ascii) : bool :=
  let n := nat_of_ascii c in (Nat.leb 65 n && Nat.leb n 90)%bool.

Definition lower_char (c : ascii) : ascii :=
  if is_upper c then chr (nat_of_ascii c + 32) else c.

(** [s.toLowerCase()] for an ASCII string [s]. *)
Definition lower_ascii (s : string) : string := map_chars lower_char s.

(** The white space and line terminators of the language, as UTF-8:
    TAB, LF, VT, FF, CR, SP, U+00A0, U+1680, U+2000..U+200A, U+2028,
    U+2029, U+202F, U+205F, U+3000, U+FEFF. *)
Definition white_space : list (list nat) :=
  [ [9]; [10]; [11]; [12]; [13]; [32];
    [194; 160];
    [225; 154; 128];
    [226; 128; 128]; [226; 128; 129]; [226; 128; 130]; [226; 128; 131];
    [226; 128; 132]; [226; 128; 133]; [226; 128; 134]; [226; 128; 135];
    [226; 128; 136]; [226; 128; 137]; [226; 128; 138];
    [226; 128; 168]; [226; 128; 169]; [226; 128; 175];
    [226; 129; 159];
    [227; 128; 128];
    [239; 187; 191] ].

(** Length of the first of [ps] that starts [s]; [0] when none does. *)
Fixpoint first_match (ps : list string) (s : string) : nat :=
  match ps with
  | [] => O
  | p :: r => if starts p s then String.length p else first_match r s
  end.

Fixpoint strip (ps : list string) (fuel : nat) (s : string) : string :=
  match fuel with
  | O => s
  | S k =>
      match first_match ps s with
      | O => s
      | n => strip ps k (drop n s)
      end
  end.

Definition ws_forward : list string := List.map of_codes white_space.
Definition ws_backward : list string :=
  List.map (fun l => of_codes (List.rev l)) white_space.

Definition trimStart (s : string) : string :=
  strip ws_forward (String.length s) s.

Definition trimEnd (s : string) : string :=
  rev (strip ws_backward (String.length s) (rev s)).

(** [s.trim()] *)
Definition trim (s : string) : string := trimEnd (trimStart s).

(** [s.split(sep)] for a one-character separator: [cur] holds, reversed,
    the piece being read. *)
Fixpoint split_go (sep : ascii) (s : string) (cur : string) : list string :=
  match s with
  | EmptyString => [rev cur]
  | String c r =>
      if Ascii.eqb c sep then rev cur :: split_go sep r EmptyString
      else split_go sep r (String c cur)
  end.

Definition split (sep : ascii) (s : string) : list string :=
  split_go sep s EmptyString.

(** [arr.includes(x)] on an array of strings. *)
Definition includes (l : list string) (x : string) : bool :=
  existsb (String.eqb x) l.

End JsString.

(* ===================================================================== *)
(** * JavaScript numbers *)
(* ===================================================================== *)

(** Numbers are IEEE 754 binary64 values. *)
Module JsNumber.

Definition number := spec_float.

Definition prec : Z := 53.
Definition emax : Z := 1024.

Definition NaN : number := S754_nan.
Definition zero : number := S754_zero false.
Definition Infinity : number := S754_infinity false.

Definition is_nan (x : number) : bool :=
  match x with S754_nan => true | _ => false end.

Definition is_zero (x : number) : bool :=
  match x with S754_zero _ => true | _ => false end.

Definition is_finite (x : number) : bool :=
  match x with S754_zero _ | S754_finite _ _ _ => true | _ => false end.

(** [x < 0] *)
Definition is_negative (x : number) : bool :=
  match x with
  | S754_finite true _ _ | S754_infinity true => true
  | _ => false
  end.

(** The number nearest to an integer. *)
Definition of_Z (z : Z) : number := binary_normalize prec emax z 0 false.

(** The number nearest to [m * 10^e], ties to even, for [0 <= m]. *)
Definition of_decimal (neg : bool) (m : Z) (e : Z) : number :=
  match m with
  | Zpos p =>
      if 0 <=? e then binary_round prec emax neg (Pos.mul p (Z.to_pos (10 ^ e))) 0
      else
        let '(q, e2, l) :=
          SFdiv_core_binary prec emax (Zpos p) 0 (10 ^ (- e)) 0 in
        binary_round_aux prec emax neg q e2 l
  | _ => S754_zero neg
  end.

(** The integer a number denotes, when it denotes one. *)
Definition to_Z (x : number) : option Z :=
  match x with
  | S754_zero _ => Some 0
  | S754_finite s m e =>
      let v :=
        if 0 <=? e then Some (Zpos m * 2 ^ e)
        else if Zpos m mod 2 ^ (- e) =? 0 then Some (Zpos m / 2 ^ (- e))
        else None in
      option_map (fun z => if s then - z else z) v
  | _ => None
  end.

Definition Z_to_string (z : Z) : string := NilZero.string_of_int (Z.to_int z).

End JsNumber.

(* ===================================================================== *)
(** * JavaScript values *)
(* ===================================================================== *)

(** The values a handler meets: what [express.json()] parses out of a
    request body, what the store client hands back, and [undefined] for a
    property that is not there. *)
Module JsValue.

Import JsString JsNumber.

#[local] Set Warnings "-register-all".

Inductive jsval :=
| JUndefined
| JNull
| JBool (b : bool)
| JNum (n : number)
| JStr (s : string)
| JArr (items : list jsval)
| JObj (fields : list (string * jsval)).

(** [o.k] on the fields of an object. *)
Fixpoint get (fields : list (string * jsval)) (k : string) : jsval :=
  match fields with
  | [] => JUndefined
  | (k', v) :: r => if String.eqb k' k then v else get r k
  end.

(** [v.k] where [v] is known to be an object; [undefined] otherwise. *)
Definition prop (v : jsval) (k : string) : jsval :=
  match v with
  | JObj fields => get fields k
  | _ => JUndefined
  end.

(** ** [Number(string)] *)

Definition digit (c : ascii) : option Z :=
  let n := nat_of_ascii c in
  if (Nat.leb 48 n && Nat.leb n 57)%bool then Some (Z.of_nat n - 48) else None.

Definition hex_digit (c : ascii) : option Z :=
  let n := nat_of_ascii c in
  if (Nat.leb 48 n && Nat.leb n 57)%bool then Some (Z.of_nat n - 48)
  else if (Nat.leb 97 n && Nat.leb n 102)%bool then Some (Z.of_nat n - 87)
  else if (Nat.leb 65 n && Nat.leb n 70)%bool then Some (Z.of_nat n - 55)
  else None.

(** Reads the longest run of digits below [base] at the head of [s],
    adding them to [acc]; returns the value, the number of digits read and
    what is left. *)
Fixpoint digits (base : Z) (s : string) (acc : Z) (n : Z) : Z * Z * string :=
  match s with
  | EmptyString => (acc, n, s)
  | String c r =>
      match hex_digit c with
      | Some d => if d <? base then digits base r (base * acc + d) (n + 1)
                  else (acc, n, s)
      | None => (acc, n, s)
      end
  end.

(** An optional sign: [true] for [-]. *)
Definition sign (s : string) : bool * string :=
  match s with
  | String "-" r => (true, r)
  | String "+" r => (false, r)
  | _ => (false, s)
  end.

(** StrUnsignedDecimalLiteral: [Infinity], or digits with an optional
    fraction and an optional exponent, at least one digit before the
    exponent. *)
Definition unsigned_decimal (neg : bool) (s : string) : number :=
  if String.eqb s "Infinity" then S754_infinity neg else
  let '(m1, n1, r1) := digits 10 s 0 0 in
  let '(m2, n2, r2) :=
    match r1 with
    | String "." r => digits 10 r m1 0
    | _ => (m1, 0, r1)
    end in
  if n1 + n2 =? 0 then NaN else
  match r2 with
  | EmptyString => of_decimal neg m2 (- n2)
  | String c r3 =>
      if (Ascii.eqb c "e" || Ascii.eqb c "E")%bool then
        let '(eneg, r4) := sign r3 in
        let '(e, ne, r5) := digits 10 r4 0 0 in
        if ((ne =? 0) || negb (String.eqb r5 ""))%bool then NaN
        else of_decimal neg m2 ((if eneg then - e else e) - n2)
      else NaN
  end.

(** NonDecimalIntegerLiteral: [0x], [0o], [0b] and one digit at least. *)
Definition non_decimal (s : string) : option Z :=
  match s with
  | String "0" (String p r) =>
      let base :=
        if (Ascii.eqb p "x" || Ascii.eqb p "X")%bool then Some 16
        else if (Ascii.eqb p "o" || Ascii.eqb p "O")%bool then Some 8
        else if (Ascii.eqb p "b" || Ascii.eqb p "B")%bool then Some 2
        else None in
      match base with
      | Some b =>
          let '(v, n, rest) := digits b r 0 0 in
          if ((0 <? n) && String.eqb rest "")%bool then Some v else None
      | None => None
      end
  | _ => None
  end.

(** StringToNumber: white space around a numeric literal; the empty
    string is [+0]; anything else is [NaN]. *)
Definition StringToNumber (s : string) : number :=
  let t := trim s in
  if String.eqb t "" then zero else
  match non_decimal t with
  | Some v => of_Z v
  | None => let '(neg, r) := sign t in unsigned_decimal neg r
  end.

(** ** [Number(v)], [Boolean(v)], [a || b] *)

(** [k in o] for an own property [k]. *)
Definition has_key (fields : list (string * jsval)) (k : string) : bool :=
  existsb (fun kv => String.eqb (fst kv) k) fields.

(** Turning an object into a primitive calls its [valueOf] and its
    [toString].  A parsed object inherits both; [valueOf] hands back the
    object itself, so the text decides.  An own property named [toString]
    hides the inherited method, and no parsed value can be called: the
    conversion then throws a [TypeError].  The text of an array joins the
    texts of its items, so an array throws when one of its items does. *)
Fixpoint raises (v : jsval) : bool :=
  match v with
  | JObj fields => has_key fields "toString"
  | JArr items =>
      (fix any (l : list jsval) : bool :=
         match l with
         | [] => false
         | x :: r => raises x || any r
         end) items
  | _ => false
  end.

(** The number a value converts to, when the conversion does not throw.
    An array goes through its text, the comma-joined texts of its items
    with [null] and [undefined] as the empty text: with two items or more
    the text has a comma and is no number; with one item it is the text of
    that item, and the text of a number reads back as that number ([-0]
    prints as [0]).  The text of an object is [[object Object]]. *)
Fixpoint number_value (v : jsval) : number :=
  match v with
  | JUndefined => NaN
  | JNull => zero
  | JBool b => if b then of_Z 1 else zero
  | JNum n => n
  | JStr s => StringToNumber s
  | JArr [] => zero
  | JArr [x] =>
      match x with
      | JUndefined | JNull => zero
      | JBool _ => NaN
      | JNum n => if is_zero n then zero else n
      | JStr s => StringToNumber s
      | JArr _ => number_value x
      | JObj _ => NaN
      end
  | JArr (_ :: _ :: _) => NaN
  | JObj _ => NaN
  end.

(** [Number(v)]: [None] when the conversion throws. *)
Definition ToNumber (v : jsval) : option number :=
  if raises v then None else Some (number_value v).

Definition ToBoolean (v : jsval) : bool :=
  match v with
  | JUndefined | JNull => false
  | JBool b => b
  | JNum n => negb (is_zero n || is_nan n)
  | JStr s => negb (String.eqb s "")
  | JArr _ | JObj _ => true
  end.

(** [a || b] *)
Definition or (a b : jsval) : jsval := if ToBoolean a then a else b.

(** [v === s] for a string [s] *)
Definition strict_eq_string (v : jsval) (s : string) : bool :=
  match v with
  | JStr t => String.eqb t s
  | _ => false
  end.

(** ** What crosses the wire *)

(** [JSON.stringify] as the store client applies it to a request body:
    a property whose value is [undefined] is left out, [undefined] in an
    array and the numbers that are not finite become [null], [-0] is
    written [0]. *)
Fixpoint wire (v : jsval) : jsval :=
  match v with
  | JUndefined => JNull
  | JNum n => if is_finite n then (if is_zero n then JNum zero else JNum n)
              else JNull
  | JArr items => JArr (List.map wire items)
  | JObj fields =>
      JObj ((fix go (l : list (string * jsval)) : list (string * jsval) :=
               match l with
               | [] => []
               | (k, JUndefined) :: r => go r
               | (k, x) :: r => (k, wire x) :: go r
               end) fields)
  | _ => v
  end.

Definition wire_fields (fields : list (string * jsval)) : list (string * jsval) :=
  match wire (JObj fields) with
  | JObj l => l
  | _ => []
  end.

(** The text of a value as the client writes it into a filter
    ([`eq.${value}`]: [eq.5], [eq.abc]) and as the store compares it with a
    column; integers below [10^21] print in plain decimal.  The text of an
    array is the comma-joined texts of its items, [null] and [undefined]
    counting as the empty text, so [[5]] reads [5].  Other values have no
    text the store takes for an identifier. *)
Fixpoint scalar_text (v : jsval) : option string :=
  match v with
  | JStr s => Some s
  | JBool b => Some (if b then "true" else "false")
  | JNum n =>
      match to_Z n with
      | Some z => if Z.abs z <? 10 ^ 21 then Some (Z_to_string z) else None
      | None => None
      end
  | JArr items =>
      (fix join (l : list jsval) : option string :=
         match l with
         | [] => Some ""
         | x :: r =>
             match match x with
                   | JUndefined | JNull => Some ""
                   | _ => scalar_text x
                   end with
             | Some a =>
                 match r with
                 | [] => Some a
                 | _ :: _ => option_map (fun b => a ++ "," ++ b) (join r)
                 end
             | None => None
             end
         end) items
  | _ => None
  end.

End JsValue.

(* ===================================================================== *)
(** * The store and its client *)
(* ===================================================================== *)

(** The hosted database behind [supabaseAdmin], seen through the calls the
    handlers make.  Two tables, [courses] and [enrollments]; a record has
    the two columns the store assigns ([id], [created_at]) and the columns
    the handlers send, kept as they crossed the wire.  The store enforces
    no constraint of its own.  A call can fail upstream: the world carries
    the outcomes of the calls to come, and a journal of every error the
    client has reported. *)
Module Store.

Import JsString JsNumber JsValue.

Record row := {
  r_id : Z;
  r_created_at : Z;
  r_cols : list (string * jsval)
}.

Record World := {
  courses : list row;
  enrollments : list row;
  next_id : Z;                     (* the next [id] the store assigns *)
  now : Z;                         (* [Date.now()], milliseconds *)
  faults : list (option string);   (* upstream outcome of the calls to come *)
  errors : list string             (* journal of reported errors, newest first *)
}.

(** A computation against the world. *)
Definition M (A : Type) : Type := World -> A * World.

Definition ret {A} (a : A) : M A := fun w => (a, w).

Definition bind {A B} (c : M A) (k : A -> M B) : M B :=
  fun w => let '(a, w') := c w in k a w'.

Declare Scope store_scope.
Delimit Scope store_scope with store.
Notation "x <- c ;; k" := (bind c (fun x => k))
  (at level 61, c at next level, right associativity) : store_scope.

(** ** The query builder *)

Inductive table := Courses | Enrollments.

(** One item of a [select("...")] list: a column, [*], or a related
    record with some of its columns ([courses(title)]). *)
Inductive column :=
| Col (name : string)
| Star
| Embed (relation : string) (cols : list string).

Inductive verb :=
| Select
| Insert (record : list (string * jsval))
| Update (patch : list (string * jsval))
| Delete.

Inductive shape := Many | Single | MaybeSingle.

Record query := {
  q_table : table;
  q_verb : verb;
  q_columns : option (list column);
  q_filters : list (string * jsval);
  q_order : option (string * bool);
  q_shape : shape
}.

Definition from (t : table) : query :=
  {| q_table := t; q_verb := Select; q_columns := None; q_filters := [];
     q_order := None; q_shape := Many |}.

Definition select (cols : list column) (q : query) : query :=
  {| q_table := q_table q; q_verb := q_verb q; q_columns := Some cols;
     q_filters := q_filters q; q_order := q_order q; q_shape := q_shape q |}.

Definition with_verb (v : verb) (q : query) : query :=
  {| q_table := q_table q; q_verb := v; q_columns := q_columns q;
     q_filters := q_filters q; q_order := q_order q; q_shape := q_shape q |}.

Definition insert (record : list (string * jsval)) : query -> query :=
  with_verb (Insert record).
Definition update (patch : list (string * jsval)) : query -> query :=
  with_verb (Update patch).
Definition delete : query -> query := with_verb Delete.

Definition eq (col : string) (v : jsval) (q : query) : query :=
  {| q_table := q_table q; q_verb := q_verb q; q_columns := q_columns q;
     q_filters := q_filters q ++ [(col, v)]; q_order := q_order q;
     q_shape := q_shape q |}.

Definition order (col : string) (ascending : bool) (q : query) : query :=
  {| q_table := q_table q; q_verb := q_verb q; q_columns := q_columns q;
     q_filters := q_filters q; q_order := Some (col, ascending);
     q_shape := q_shape q |}.

Definition with_shape (s : shape) (q : query) : query :=
  {| q_table := q_table q; q_verb := q_verb q; q_columns := q_columns q;
     q_filters := q_filters q; q_order := q_order q; q_shape := s |}.

Definition single : query -> query := with_shape Single.
Definition maybeSingle : query -> query := with_shape MaybeSingle.

(** What [await query] resolves to: [{ data, error }]. *)
Record result := {
  data : jsval;
  error : option string     (* [error.message] *)
}.

Definition ok (d : jsval) : result := {| data := d; error := None |}.
Definition failed (msg : string) : result := {| data := JNull; error := Some msg |}.

(** ** Running a query *)

(** A column of a record as the client reads it, [null] for SQL NULL. *)
Definition cell (r : row) (col : string) : jsval :=
  if String.eqb col "id" then JNum (of_Z (r_id r))
  else if String.eqb col "created_at" then JNum (of_Z (r_created_at r))
  else match get (r_cols r) col with JUndefined => JNull | v => v end.

(** The text of a column of a record, [None] for SQL NULL. *)
Definition cell_text (r : row) (col : string) : option string :=
  if String.eqb col "id" then Some (Z_to_string (r_id r))
  else if String.eqb col "created_at" then Some (Z_to_string (r_created_at r))
  else scalar_text (get (r_cols r) col).

(** [col = v]: NULL equals nothing. *)
Definition satisfies (r : row) (f : string * jsval) : bool :=
  match cell_text r (fst f), scalar_text (snd f) with
  | Some a, Some b => String.eqb a b
  | _, _ => false
  end.

Definition matches (filters : list (string * jsval)) (r : row) : bool :=
  forallb (satisfies r) filters.

(** A filter value the store cannot read is an error of the call. *)
Definition filters_ok (filters : list (string * jsval)) : bool :=
  forallb (fun f => match scalar_text (snd f) with Some _ => true | None => false end)
          filters.

Definition sort_key (col : string) (r : row) : Z :=
  if String.eqb col "created_at" then r_created_at r
  else if String.eqb col "id" then r_id r
  else 0.

(** Ordering: insertion of each record before the first one it may
    precede. *)
Fixpoint place (before : row -> row -> bool) (x : row) (l : list row) : list row :=
  match l with
  | [] => [x]
  | y :: r => if before x y then x :: l else y :: place before x r
  end.

Fixpoint sort (before : row -> row -> bool) (l : list row) : list row :=
  match l with
  | [] => []
  | x :: r => place before x (sort before r)
  end.

Definition ordered (o : option (string * bool)) (l : list row) : list row :=
  match o with
  | None => l
  | Some (col, ascending) =>
      sort (fun a b => if ascending then sort_key col a <=? sort_key col b
                       else sort_key col b <=? sort_key col a) l
  end.

Definition rows_of (t : table) (w : World) : list row :=
  match t with Courses => courses w | Enrollments => enrollments w end.

(** The course an enrollment refers to, for [courses(...)]. *)
Definition related_course (w : World) (r : row) : option row :=
  match cell_text r "course_id" with
  | Some t => find (fun c => String.eqb (Z_to_string (r_id c)) t) (courses w)
  | None => None
  end.

Definition all_columns (r : row) : list (string * jsval) :=
  ("id", cell r "id") :: ("created_at", cell r "created_at")
  :: List.map (fun kv => (fst kv, cell r (fst kv))) (r_cols r).

Definition project_column (w : World) (r : row) (c : column) : list (string * jsval) :=
  match c with
  | Col name => [(name, cell r name)]
  | Star => all_columns r
  | Embed relation cols =>
      [(relation,
        match related_course w r with
        | Some c => JObj (List.map (fun k => (k, cell c k)) cols)
        | None => JNull
        end)]
  end.

Definition project (w : World) (cols : list column) (r : row) : jsval :=
  JObj (List.flat_map (project_column w r) cols).

Definition no_rows_message : string :=
  "JSON object requested, multiple (or no) rows returned".

Definition shaped (s : shape) (records : list jsval) : result :=
  match s, records with
  | Many, _ => ok (JArr records)
  | Single, [x] => ok x
  | Single, _ => failed no_rows_message
  | MaybeSingle, [] => ok JNull
  | MaybeSingle, [x] => ok x
  | MaybeSingle, _ => failed no_rows_message
  end.

(** The answer of a write: nothing, unless [.select()] asked for the
    records written. *)
Definition returning (w : World) (q : query) (written : list row) : result :=
  match q_columns q with
  | Some cols => shaped (q_shape q) (List.map (project w cols) written)
  | None => ok JNull
  end.

Definition set_rows (t : table) (l : list row) (w : World) : World :=
  match t with
  | Courses =>
      {| courses := l; enrollments := enrollments w; next_id := next_id w;
         now := now w; faults := faults w; errors := errors w |}
  | Enrollments =>
      {| courses := courses w; enrollments := l; next_id := next_id w;
         now := now w; faults := faults w; errors := errors w |}
  end.

Definition bump_id (w : World) : World :=
  {| courses := courses w; enrollments := enrollments w;
     next_id := next_id w + 1; now := now w; faults := faults w;
     errors := errors w |}.

(** [patch] laid over the columns of a record. *)
Fixpoint set_col (cols : list (string * jsval)) (k : string) (v : jsval)
  : list (string * jsval) :=
  match cols with
  | [] => [(k, v)]
  | (k', v') :: r =>
      if String.eqb k' k then (k, v) :: r else (k', v') :: set_col r k v
  end.

Definition patched (patch : list (string * jsval)) (r : row) : row :=
  {| r_id := r_id r; r_created_at := r_created_at r;
     r_cols := fold_left (fun cols kv => set_col cols (fst kv) (snd kv))
                         patch (r_cols r) |}.

(** The columns the store assigns cannot be written. *)
Definition writable (patch : list (string * jsval)) : bool :=
  forallb (fun kv => negb (String.eqb (fst kv) "id" || String.eqb (fst kv) "created_at"))
          patch.

(** The query against the tables, upstream failures apart. *)
Definition execute (q : query) (w : World) : result * World :=
  if negb (filters_ok (q_filters q)) then (failed "invalid input syntax", w) else
  let t := q_table q in
  match q_verb q with
  | Select =>
      let found := ordered (q_order q) (filter (matches (q_filters q)) (rows_of t w)) in
      let cols := match q_columns q with Some c => c | None => [Star] end in
      (shaped (q_shape q) (List.map (project w cols) found), w)
  | Insert record =>
      let r := {| r_id := next_id w; r_created_at := now w;
                  r_cols := wire_fields record |} in
      let w' := bump_id (set_rows t (rows_of t w ++ [r]) w) in
      (returning w' q [r], w')
  | Update patch =>
      let p := wire_fields patch in
      if negb (writable p) then (failed "column cannot be updated", w) else
      let hit := matches (q_filters q) in
      let w' := set_rows t (List.map (fun r => if hit r then patched p r else r)
                                     (rows_of t w)) w in
      (returning w' q (List.map (patched p) (filter hit (rows_of t w))), w')
  | Delete =>
      let hit := matches (q_filters q) in
      let w' := set_rows t (filter (fun r => negb (hit r)) (rows_of t w)) w in
      (returning w' q (filter hit (rows_of t w)), w')
  end.

Definition next_fault (w : World) : option string * World :=
  (match faults w with Some msg :: _ => Some msg | _ => None end,
   {| courses := courses w; enrollments := enrollments w; next_id := next_id w;
      now := now w; faults := tl (faults w); errors := errors w |}).

Definition report (r : result) (w : World) : World :=
  match error r with
  | Some msg =>
      {| courses := courses w; enrollments := enrollments w;
         next_id := next_id w; now := now w; faults := faults w;
         errors := msg :: errors w |}
  | None => w
  end.

(** [await query]: the call fails upstream, or runs against the tables;
    either way it resolves, with the error, if any, in the result. *)
Definition await (q : query) : M result :=
  fun w =>
    let '(fault, w1) := next_fault w in
    let '(r, w2) :=
      match fault with
      | Some msg => (failed msg, w1)
      | None => execute q w1
      end in
    (r, report r w2).

End Store.

(* ===================================================================== *)
(** * Express: requests, responses, middleware stacks *)
(* ===================================================================== *)

Module Express.

Import JsString JsNumber JsValue Store.
Local Open Scope store_scope.

(** The principal the identity service resolves a token to.  The
    handlers call string methods on [email] and on
    [user_metadata?.full_name] when it is there, so the record gives them
    those types: every user has an email, and a full name is a string. *)
Record Metadata := { full_name : option string }.
Record User := { email : string; user_metadata : option Metadata }.

Record Request := {
  authorization : option string;       (* [req.headers.authorization] *)
  body : list (string * jsval);        (* [req.body], a parsed JSON object *)
  user : option User                   (* [req.user], set by [requireAuth] *)
}.

Inductive Body :=
| Json (v : jsval)
| Text (s : string)
| Buffer (bytes : list Byte.byte).

Record Response := {
  status : Z;
  headers : list (string * string);
  content : Body
}.

(** [res.status(code).json(v)] *)
Definition status_json (code : Z) (v : jsval) : Response :=
  {| status := code;
     headers := [("Content-Type", "application/json; charset=utf-8")];
     content := Json v |}.

(** [res.json(v)] *)
Definition json (v : jsval) : Response := status_json 200 v.

(** [res.send(text)] *)
Definition send (s : string) : Response :=
  {| status := 200;
     headers := [("Content-Type", "text/html; charset=utf-8")];
     content := Text s |}.

(** [{ message: m }] *)
Definition message (m : string) : jsval := JObj [("message", JStr m)].

(** How a middleware or a handler leaves: it calls [next()], it sends the
    response, or it throws. *)
Inductive outcome :=
| Next (req : Request)
| Send (res : Response)
| Throw (err : string).

Definition middleware := Request -> M outcome.

(** What the client gets from a route. *)
Inductive reply :=
| Sent (res : Response)
| Thrown (err : string)
| Unanswered.                          (* the stack ran out on [next()] *)

(** [app.METHOD(path, m1, m2, ..., handler)]: the members run in order,
    each one only when the one before called [next()]. *)
Fixpoint run (stack : list middleware) (req : Request) : M reply :=
  match stack with
  | [] => ret Unanswered
  | m :: rest =>
      o <- m req ;;
      match o with
      | Next req' => run rest req'
      | Send res => ret (Sent res)
      | Throw err => ret (Thrown err)
      end
  end.

End Express.

(* ===================================================================== *)
(** * server.js *)
(* ===================================================================== *)

Module Server.

Import JsString JsNumber JsValue Store Express.
Local Open Scope store_scope.

(** ** The certificate document *)

(** The drawing calls made on a [PDFDocument], in order. *)
Inductive pdf_op :=
| LineWidth (w : Z)
| Rect (x y w h : Z)
| Stroke (color : string)
| Font (name : string)
| FontSize (n : Z)
| FillColor (color : string)
| TextAt (s : jsval) (x y : Z) (align : string)
| TextLine (s : jsval) (align : string)
| MoveDown (n : Z)
| MoveTo (x y : Z)
| LineTo (x y : Z).

Record PDFDocument := {
  size : string;
  margin : Z;
  ops : list pdf_op
}.

Definition draw (o : pdf_op) (doc : PDFDocument) : PDFDocument :=
  {| size := size doc; margin := margin doc; ops := ops doc ++ [o] |}.

Definition lineWidth w := draw (LineWidth w).
Definition rect x y w h := draw (Rect x y w h).
Definition stroke color := draw (Stroke color).
Definition font name := draw (Font name).
Definition fontSize n := draw (FontSize n).
Definition fillColor color := draw (FillColor color).
Definition text_at s x y align := draw (TextAt s x y align).
Definition text s align := draw (TextLine s align).
Definition moveDown n := draw (MoveDown n).
Definition moveTo x y := draw (MoveTo x y).
Definition lineTo x y := draw (LineTo x y).

Notation "doc |> f" := (f doc) (at level 45, left associativity, only parsing).

(** ** The environment of the process *)

(** What [supabasePublic.auth.getUser(token)] resolves to. *)
Record AuthReply := {
  data_user : option User;             (* [data?.user] *)
  auth_error : option string           (* [error] *)
}.

(** The collaborators the server does not own: the identity service, the
    process environment, the letter-case folding and the date formatting
    of the runtime, and PDFKit, which turns the drawing calls into the
    chunks of the file.  [toLowerCase] follows the Unicode tables of the
    engine; the one fact about it kept here is that it gives the empty
    string for the empty string only. *)
Record Env := {
  getUser : string -> AuthReply;
  ADMIN_EMAILS : option string;
  toLowerCase : string -> string;
  toLowerCase_empty : forall s, toLowerCase s = "" <-> s = "";
  toLocaleDateString : Z -> string;
  pdfkit : PDFDocument -> list (list Byte.byte)
}.

Definition type_error : string := "TypeError".

(** ** Auth middleware *)

Definition getBearerToken (req : Request) : option string :=
  let h := match authorization req with Some h => h | None => "" end in
  if negb (startsWith h "Bearer ") then None
  else Some (slice 7 h).

Definition requireAuth (E : Env) : middleware :=
  fun req =>
    match getBearerToken req with
    | None | Some "" => ret (Send (status_json 401 (message "Missing token")))
    | Some token =>
        let r := getUser E token in
        match auth_error r, data_user r with
        | None, Some u =>
            ret (Next {| authorization := authorization req;
                         body := body req;
                         user := Some u |})
        | _, _ => ret (Send (status_json 401 (message "Invalid token")))
        end
    end.

(** [(process.env.ADMIN_EMAILS || "").split(",").map(e => e.trim().toLowerCase())] *)
Definition admins (E : Env) : list string :=
  List.map (fun e => toLowerCase E (trim e))
           (split "," (match ADMIN_EMAILS E with Some s => s | None => "" end)).

Definition requireAdmin (E : Env) : middleware :=
  fun req =>
    match user req with
    | None => ret (Throw type_error)
    | Some u =>
        if negb (includes (admins E) (toLowerCase E (email u)))
        then ret (Send (status_json 403 (message "Admin only")))
        else ret (Next req)
    end.

(** ** Health *)

Definition get_root : middleware :=
  fun _ => ret (Send (send "API KursusKu berjalan ✅")).

(** ** Courses *)

Definition get_courses : middleware :=
  fun _ =>
    r <- await (order "created_at" false (select [Star] (from Courses))) ;;
    match error r with
    | Some msg => ret (Send (status_json 500 (message msg)))
    | None => ret (Send (json (data r)))
    end.

(** [Number(price) || 0]: [None] when [Number] throws. *)
Definition coerce_price (price : jsval) : option jsval :=
  option_map (fun n => or (JNum n) (JNum zero)) (ToNumber price).

(** The record is built before the store is called: when [Number(price)]
    throws, the handler throws with it and no call is made. *)
Definition post_courses : middleware :=
  fun req =>
    let title := get (body req) "title" in
    let description := get (body req) "description" in
    let level := get (body req) "level" in
    let price := get (body req) "price" in
    let image_url := get (body req) "image_url" in
    match coerce_price price with
    | None => ret (Throw type_error)
    | Some p =>
        r <- await (single (select [Star] (insert
               [ ("title", title);
                 ("description", description);
                 ("level", level);
                 ("price", p);
                 ("image_url", or image_url JNull) ]
               (from Courses)))) ;;
        match error r with
        | Some msg => ret (Send (status_json 500 (message msg)))
        | None => ret (Send (json (data r)))
        end
    end.

Definition put_course (id : string) : middleware :=
  fun req =>
    r <- await (eq "id" (JStr id) (update (body req) (from Courses))) ;;
    match error r with
    | Some msg => ret (Send (status_json 500 (message msg)))
    | None => ret (Send (json (message "Updated")))
    end.

Definition delete_course (id : string) : middleware :=
  fun _ =>
    r <- await (eq "id" (JStr id) (delete (from Courses))) ;;
    match error r with
    | Some msg => ret (Send (status_json 500 (message msg)))
    | None => ret (Send (json (message "Deleted")))
    end.

(** ** Enrollment *)

(** The existence check of [POST /api/enroll]. *)
Definition existing_enrollment (course_id : jsval) (user_email : string) : query :=
  maybeSingle
    (eq "user_email" (JStr user_email)
    (eq "course_id" course_id
    (select [Col "id"] (from Enrollments)))).

(** The record [POST /api/enroll] inserts. *)
Definition new_enrollment (course_id : jsval) (user_email : string)
  : list (string * jsval) :=
  [ ("course_id", course_id);
    ("user_email", JStr user_email);
    ("status", JStr "terdaftar") ].

(** [.eq("course_id", course_id)] writes the text of [course_id] into the
    filter as the query is built: a value whose text throws makes the
    handler throw before any call. *)
Definition post_enroll : middleware :=
  fun req =>
    let course_id := get (body req) "course_id" in
    if raises course_id then ret (Throw type_error) else
    match user req with
    | None => ret (Throw type_error)
    | Some u =>
        existing <- await (existing_enrollment course_id (email u)) ;;
        if ToBoolean (data existing)
        then ret (Send (status_json 400 (message "Sudah terdaftar")))
        else
          r <- await (insert (new_enrollment course_id (email u))
                             (from Enrollments)) ;;
          match error r with
          | Some msg => ret (Send (status_json 500 (message msg)))
          | None => ret (Send (json (message "Pendaftaran berhasil")))
          end
    end.

(** [v.k]: a [TypeError] when [v] is [null] or [undefined]. *)
Definition member (v : jsval) (k : string) : option jsval :=
  match v with
  | JUndefined | JNull => None
  | _ => Some (prop v k)
  end.

(** [data.map(f)], where [f] may throw; [data] must be an array. *)
Fixpoint map_items (f : jsval -> option jsval) (l : list jsval) : option (list jsval) :=
  match l with
  | [] => Some []
  | x :: r =>
      match f x with
      | Some y => option_map (cons y) (map_items f r)
      | None => None
      end
  end.

Definition array_map (f : jsval -> option jsval) (v : jsval) : option jsval :=
  match v with
  | JArr items => option_map JArr (map_items f items)
  | _ => None
  end.

Definition get_my_enrollments : middleware :=
  fun req =>
    match user req with
    | None => ret (Throw type_error)
    | Some u =>
        r <- await (eq "user_email" (JStr (email u))
               (select [Col "course_id"; Col "status"; Embed "courses" ["title"]]
               (from Enrollments))) ;;
        match error r with
        | Some msg => ret (Send (status_json 500 (message msg)))
        | None =>
            match array_map (fun e =>
                    option_map (fun t =>
                      JObj [ ("course_id", prop e "course_id");
                             ("course_title", t);
                             ("status", prop e "status") ])
                      (member (prop e "courses") "title")) (data r) with
            | Some out => ret (Send (json out))
            | None => ret (Throw type_error)
            end
        end
    end.

(** ** Admin verification *)

Definition get_enrollments : middleware :=
  fun _ =>
    r <- await (select [Col "id"; Col "user_email"; Col "status";
                        Embed "courses" ["title"]] (from Enrollments)) ;;
    match array_map (fun e =>
            option_map (fun t =>
              JObj [ ("id", prop e "id");
                     ("user_email", prop e "user_email");
                     ("course_title", t);
                     ("status", prop e "status") ])
              (member (prop e "courses") "title")) (data r) with
    | Some out => ret (Send (json out))
    | None => ret (Throw type_error)
    end.

(** The update of [PUT /api/enrollments/:id]. *)
Definition status_update (id : string) (status : jsval) : query :=
  eq "id" (JStr id) (update [("status", status)] (from Enrollments)).

Definition put_enrollment (id : string) : middleware :=
  fun req =>
    _ <- await (status_update id (get (body req) "status")) ;;
    ret (Send (json (message "Status updated"))).

(** ** Certificate *)

Definition quote : string := String (chr 34) EmptyString.

(** [a || b] on a string that may be missing: the empty string is falsy. *)
Definition or_string (a : option string) (b : string) : string :=
  match a with
  | Some s => if String.eqb s "" then b else s
  | None => b
  end.

(** [req.user.user_metadata?.full_name?.trim() || req.user.email || "Peserta"] *)
Definition recipient (u : User) : string :=
  or_string
    (match user_metadata u with
     | Some m => option_map trim (full_name m)
     | None => None
     end)
    (or_string (Some (email u)) "Peserta").

(** [`KK-${Date.now().toString().slice(-6)}`] *)
Definition certificate_number (ms : Z) : string :=
  "KK-" ++ slice_last 6 (Z_to_string ms).

Definition certificate_doc (nama : string) (courseTitle : jsval)
    (tanggal nomorSertifikat : string) : PDFDocument :=
  {| size := "A4"; margin := 50; ops := [] |}
  (* border *)
  |> lineWidth 3 |> rect 20 20 555 802 |> stroke "#1E3A8A"
  |> lineWidth 1 |> rect 30 30 535 782 |> stroke "#CBD5E1"
  (* header *)
  |> font "Helvetica-Bold" |> fontSize 28 |> fillColor "#1E3A8A"
  |> text_at (JStr "SERTIFIKAT") 0 110 "center"
  |> fontSize 20 |> fillColor "#000000" |> text (JStr "KELULUSAN") "center"
  |> moveDown 1
  |> moveTo 150 200 |> lineTo 450 200 |> stroke "#1E3A8A"
  (* body *)
  |> moveDown 3
  |> font "Helvetica" |> fontSize 12 |> fillColor "#000000"
  |> text (JStr "Diberikan kepada:") "center"
  |> moveDown 1
  |> font "Helvetica-Bold" |> fontSize 22 |> text (JStr nama) "center"
  |> moveDown 2
  |> font "Helvetica" |> fontSize 12
  |> text (JStr "Atas keberhasilannya menyelesaikan kursus:") "center"
  |> moveDown 1
  |> font "Helvetica-Bold" |> fontSize 18 |> text courseTitle "center"
  |> moveDown 3
  |> fontSize 12 |> font "Helvetica"
  |> text (JStr ("Tanggal: " ++ tanggal)) "center"
  (* footer *)
  |> moveDown 4
  |> fontSize 10 |> fillColor "#374151"
  |> text (JStr ("Nomor Sertifikat: " ++ nomorSertifikat)) "center"
  |> moveDown 1
  |> fontSize 10 |> fillColor "#374151"
  |> text (JStr "KursusKu — Platform Pembelajaran Bahasa Indonesia") "center".

(** The response sent when the document ends: the chunks gathered from
    its [data] events, concatenated. *)
Definition pdf_response (chunks : list (list Byte.byte)) : Response :=
  {| status := 200;
     headers := [ ("Content-Type", "application/pdf");
                  ("Content-Disposition",
                   "inline; filename=" ++ quote ++ "sertifikat.pdf" ++ quote) ];
     content := Buffer (List.concat chunks) |}.

Definition Date_now : M Z := fun w => (now w, w).

(** The enrollment lookup of [GET /api/certificates/:courseId]. *)
Definition enrollment_lookup (courseId : string) (user_email : string) : query :=
  single
    (eq "user_email" (JStr user_email)
    (eq "course_id" (JStr courseId)
    (select [Col "status"; Embed "courses" ["title"]]
    (from Enrollments)))).

Definition get_certificate (E : Env) (courseId : string) : middleware :=
  fun req =>
    match user req with
    | None => ret (Throw type_error)
    | Some u =>
        r <- await (enrollment_lookup courseId (email u)) ;;
        let enrollment := data r in
        if (match error r with Some _ => true | None => false end
            || negb (ToBoolean enrollment)
            || negb (strict_eq_string (prop enrollment "status") "lulus"))%bool
        then ret (Send (status_json 403 (message "Belum lulus")))
        else
          let nama := recipient u in
          let courseTitle := or (prop (prop enrollment "courses") "title") (JStr "Kursus") in
          ms <- Date_now ;;
          let tanggal := toLocaleDateString E ms in
          let nomorSertifikat := certificate_number ms in
          let doc := certificate_doc nama courseTitle tanggal nomorSertifikat in
          ret (Send (pdf_response (pdfkit E doc)))
    end.

(** ** The routes *)

Inductive route :=
| GET_root                               (* GET / *)
| GET_courses                            (* GET /api/courses *)
| POST_courses                           (* POST /api/courses *)
| PUT_courses (id : string)              (* PUT /api/courses/:id *)
| DELETE_courses (id : string)           (* DELETE /api/courses/:id *)
| POST_enroll                            (* POST /api/enroll *)
| GET_my_enrollments                     (* GET /api/my-enrollments *)
| GET_enrollments                        (* GET /api/enrollments *)
| PUT_enrollments (id : string)          (* PUT /api/enrollments/:id *)
| GET_certificates (courseId : string).  (* GET /api/certificates/:courseId *)

(** The handler of a route. *)
Definition handler (E : Env) (r : route) : middleware :=
  match r with
  | GET_root => get_root
  | GET_courses => get_courses
  | POST_courses => post_courses
  | PUT_courses id => put_course id
  | DELETE_courses id => delete_course id
  | POST_enroll => post_enroll
  | GET_my_enrollments => get_my_enrollments
  | GET_enrollments => get_enrollments
  | PUT_enrollments id => put_enrollment id
  | GET_certificates courseId => get_certificate E courseId
  end.

(** The gates of a route, in the order the route lists them. *)
Inductive gate := Auth | Admin.

Definition gates (r : route) : list gate :=
  match r with
  | GET_root | GET_courses => []
  | POST_courses | PUT_courses _ | DELETE_courses _
  | GET_enrollments | PUT_enrollments _ => [Auth; Admin]
  | POST_enroll | GET_my_enrollments | GET_certificates _ => [Auth]
  end.

Definition gate_middleware (E : Env) (g : gate) : middleware :=
  match g with
  | Auth => requireAuth E
  | Admin => requireAdmin E
  end.

Definition stack (E : Env) (r : route) : list middleware :=
  List.map (gate_middleware E) (gates r) ++ [handler E r].

Definition app (E : Env) (r : route) (req : Request) : M reply :=
  run (stack E r) req.

(** A request as it arrives: nothing has set [req.user] yet. *)
Definition incoming (auth : option string) (b : list (string * jsval)) : Request :=
  {| authorization := auth; body := b; user := None |}.

End Server.

(* ===================================================================== *)
(** * Facts about strings *)
(* ===================================================================== *)

Module StringFacts.

Import JsString.

Lemma lower_ascii_empty s : lower_ascii s = "" <-> s = "".
Proof.
  split; [|now intros ->]. destruct s; [reflexivity|discriminate].
Qed.

(** Some runs of the string functions and of [Number]. *)
Example split_trim_lower :
  List.map (fun e => lower_ascii (trim e)) (split "," " Admin@KursusKu.id ,boss@x.com,")
  = ["admin@kursusku.id"; "boss@x.com"; ""].
Proof. reflexivity. Qed.

Example split_empty : split "," "" = [""].
Proof. reflexivity. Qed.

Example number_of_text :
  List.map JsValue.StringToNumber
    ["abc"; ""; "  12  "; "1.5"; "-0"; "1e3"; "0x1F"; "-0x1F"; "12abc"; "1e400";
     "Infinity"; "."; "1,5"]
  = [ JsNumber.NaN; JsNumber.zero; JsNumber.of_Z 12;
      S754_finite false 6755399441055744 (-52); S754_zero true;
      JsNumber.of_Z 1000; JsNumber.of_Z 31; JsNumber.NaN; JsNumber.NaN;
      JsNumber.Infinity; JsNumber.Infinity; JsNumber.NaN; JsNumber.NaN ].
Proof. reflexivity. Qed.

Example number_one_tenth :
  JsValue.StringToNumber "0.1" = S754_finite false 7205759403792794 (-56).
Proof. reflexivity. Qed.

(** [Number] and the filter text on arrays and objects. *)
Example number_of_values :
  List.map JsValue.ToNumber
    [ JsValue.JArr [JsValue.JNum (JsNumber.of_Z 5)];
      JsValue.JArr [JsValue.JStr "5"];
      JsValue.JArr [];
      JsValue.JArr [JsValue.JNum (JsNumber.of_Z 1); JsValue.JNum (JsNumber.of_Z 2)];
      JsValue.JObj [];
      JsValue.JObj [("valueOf", JsValue.JNum (JsNumber.of_Z 1))];
      JsValue.JObj [("toString", JsValue.JNum (JsNumber.of_Z 1))];
      JsValue.JArr [JsValue.JObj [("toString", JsValue.JNull)]] ]
  = [ Some (JsNumber.of_Z 5); Some (JsNumber.of_Z 5); Some JsNumber.zero;
      Some JsNumber.NaN; Some JsNumber.NaN; Some JsNumber.NaN; None; None ].
Proof. reflexivity. Qed.

Example text_of_values :
  List.map JsValue.scalar_text
    [ JsValue.JArr [JsValue.JNum (JsNumber.of_Z 5)];
      JsValue.JArr [JsValue.JNum (JsNumber.of_Z 1); JsValue.JNum (JsNumber.of_Z 2)];
      JsValue.JArr [];
      JsValue.JArr [JsValue.JNull; JsValue.JStr "a"];
      JsValue.JArr [JsValue.JArr [JsValue.JNum (JsNumber.of_Z 5)]];
      JsValue.JNull;
      JsValue.JObj [] ]
  = [ Some "5"; Some "1,2"; Some ""; Some ",a"; Some "5"; None; None ].
Proof. reflexivity. Qed.

Lemma includes_In l x : includes l x = true <-> In x l.
Proof.
  unfold includes. rewrite existsb_exists. split.
  - intros [y [Hy E]]. apply String.eqb_eq in E. now subst.
  - intros H. exists x. split; [assumption|apply String.eqb_refl].
Qed.

End StringFacts.

(* ===================================================================== *)
(** * The gates *)
(* ===================================================================== *)

Module Gates.

Import JsString JsValue Store Express Server StringFacts.

(** The request carries the bearer token [t]. *)
Definition bearer (req : Request) (t : string) : Prop :=
  authorization req = Some ("Bearer " ++ t) /\ t <> "".

(** The identity service rejects the token: it reports an error, or no
    user. *)
Definition rejects (E : Env) (t : string) : Prop :=
  auth_error (getUser E t) <> None \/ data_user (getUser E t) = None.

(** The request carries a token that the identity service resolves to
    the principal [u]. *)
Definition resolves (E : Env) (req : Request) (u : User) : Prop :=
  exists t, bearer req t /\
            auth_error (getUser E t) = None /\
            data_user (getUser E t) = Some u.

(** The request as the handlers behind [requireAuth] see it. *)
Definition authed (req : Request) (u : User) : Request :=
  {| authorization := authorization req; body := body req; user := Some u |}.

(** [process.env.ADMIN_EMAILS || ""] *)
Definition admin_config (E : Env) : string :=
  match ADMIN_EMAILS E with Some s => s | None => "" end.

(** The configured allowlist: the comma-separated entries, trimmed. *)
Definition allowlist (E : Env) : list string :=
  List.map trim (split "," (admin_config E)).

(** The email of [u] is on the allowlist, letter case apart: it has the
    lower-cased form of one of the entries. *)
Definition listed (E : Env) (u : User) : Prop :=
  exists entry, In entry (allowlist E) /\
                toLowerCase E entry = toLowerCase E (email u).

Lemma starts_app p s : starts p s = true -> s = p ++ drop (String.length p) s.
Proof.
  revert s. induction p as [|a p IH]; intros s H; [reflexivity|].
  destruct s as [|b s]; simpl in H; [discriminate|].
  apply andb_true_iff in H. destruct H as [Hab H].
  apply Ascii.eqb_eq in Hab. subst b. simpl. f_equal. now apply IH.
Qed.

Lemma getBearerToken_bearer req t : bearer req t -> getBearerToken req = Some t.
Proof.
  intros [H _]. unfold getBearerToken. rewrite H.
  change (startsWith ("Bearer " ++ t) "Bearer ") with true.
  reflexivity.
Qed.

Lemma getBearerToken_absent req :
  (forall t, ~ bearer req t) ->
  getBearerToken req = None \/ getBearerToken req = Some "".
Proof.
  intros Hno. unfold getBearerToken.
  destruct (authorization req) as [h|] eqn:Hh; [|left; reflexivity].
  unfold startsWith. destruct (starts "Bearer " h) eqn:Hs; [|left; reflexivity].
  right. simpl. unfold slice. f_equal.
  destruct (string_dec (drop 7 h) "") as [|Hne]; [assumption|].
  exfalso. apply (Hno (drop 7 h)). split; [|assumption].
  rewrite Hh. f_equal. exact (starts_app _ _ Hs).
Qed.

Lemma requireAuth_pass E req u w :
  resolves E req u -> requireAuth E req w = (Next (authed req u), w).
Proof.
  intros (t & Hb & He & Hu). unfold requireAuth.
  rewrite (getBearerToken_bearer _ _ Hb).
  destruct Hb as [_ Hne]. destruct t as [|c t]; [congruence|].
  now rewrite He, Hu.
Qed.

Lemma requireAuth_fail E req w :
  (forall t, ~ bearer req t) \/ (exists t, bearer req t /\ rejects E t) ->
  exists res, status res = 401 /\ requireAuth E req w = (Send res, w).
Proof.
  intros [Hno | (t & Hb & Hrej)]; unfold requireAuth.
  - destruct (getBearerToken_absent _ Hno) as [-> | ->]; eexists; split;
      try reflexivity; reflexivity.
  - rewrite (getBearerToken_bearer _ _ Hb).
    destruct Hb as [_ Hne]. destruct t as [|c t]; [congruence|].
    destruct Hrej as [Hrej | Hrej].
    + destruct (auth_error (getUser E (String c t))); [|congruence].
      eexists; split; try reflexivity; reflexivity.
    + rewrite Hrej.
      destruct (auth_error (getUser E (String c t)));
        eexists; split; try reflexivity; reflexivity.
Qed.

Lemma admins_allowlist E : admins E = List.map (toLowerCase E) (allowlist E).
Proof. unfold admins, allowlist, admin_config. now rewrite List.map_map. Qed.

Lemma requireAdmin_listed E u :
  includes (admins E) (toLowerCase E (email u)) = true <-> listed E u.
Proof.
  rewrite includes_In, admins_allowlist, in_map_iff. unfold listed.
  split; intros (e & H1 & H2); exists e; tauto.
Qed.

(** Every request leaves the auth gate in one of two ways. *)
Lemma requireAuth_cases E req w :
  (exists res, status res = 401 /\ requireAuth E req w = (Send res, w)) \/
  (exists u, requireAuth E req w = (Next (authed req u), w)).
Proof.
  unfold requireAuth. destruct (getBearerToken req) as [[|c t]|].
  - left. eexists. split; [|reflexivity]. reflexivity.
  - destruct (auth_error (getUser E (String c t))).
    + left. eexists. split; [|reflexivity]. reflexivity.
    + destruct (data_user (getUser E (String c t))) as [u|].
      * right. now exists u.
      * left. eexists. split; [|reflexivity]. reflexivity.
  - left. eexists. split; [|reflexivity]. reflexivity.
Qed.

(** A stack of one handler. *)
Definition reply_of (o : outcome) : reply :=
  match o with
  | Next _ => Unanswered
  | Send res => Sent res
  | Throw err => Thrown err
  end.

Lemma run_handler h req w :
  run [h] req w = (reply_of (fst (h req w)), snd (h req w)).
Proof.
  cbn [run]. unfold bind. destruct (h req w) as [o w']. now destruct o.
Qed.

(** Behind the auth gate alone. *)
Lemma run_auth E h req u w :
  resolves E req u ->
  run (List.map (gate_middleware E) [Auth] ++ [h]) req w = run [h] (authed req u) w.
Proof.
  intros Hres. cbn [List.map Datatypes.app gate_middleware run]. unfold bind at 1.
  now rewrite (requireAuth_pass _ _ _ _ Hres).
Qed.

(** Behind both gates. *)
Lemma run_auth_admin E h req u w :
  resolves E req u ->
  run (List.map (gate_middleware E) [Auth; Admin] ++ [h]) req w
  = if includes (admins E) (toLowerCase E (email u))
    then run [h] (authed req u) w
    else (Sent (status_json 403 (message "Admin only")), w).
Proof.
  intros Hres. cbn [List.map Datatypes.app gate_middleware run]. unfold bind at 1.
  rewrite (requireAuth_pass _ _ _ _ Hres).
  cbn [run]. unfold bind at 1. unfold requireAdmin. cbn [user authed].
  destruct (includes (admins E) (toLowerCase E (email u))); reflexivity.
Qed.

Lemma gates_auth_first r : In Auth (gates r) -> exists rest, gates r = Auth :: rest.
Proof. destruct r; simpl; intros H; try tauto; eexists; reflexivity. Qed.

Lemma gates_admin r : In Admin (gates r) -> gates r = [Auth; Admin].
Proof.
  destruct r; simpl; intros H; try reflexivity; try tauto;
    destruct H as [H|[]]; discriminate.
Qed.

(** Behind both gates a request is turned away, the world untouched, or
    reaches the handler as the principal the auth gate resolved. *)
Lemma admin_route_cases E r req w :
  In Admin (gates r) ->
  (exists res, app E r req w = (Sent res, w)) \/
  (exists u, app E r req w = run [handler E r] (authed req u) w).
Proof.
  intros Hin.
  assert (app E r req w = run [requireAuth E; requireAdmin E; handler E r] req w) as Hx.
  { unfold app, stack. now rewrite (gates_admin _ Hin). }
  destruct (requireAuth_cases E req w) as [(res & _ & Hr) | (u & Hr)].
  - left. exists res. rewrite Hx. cbn [run]. unfold bind at 1. now rewrite Hr.
  - destruct (includes (admins E) (toLowerCase E (email u))) eqn:Hi;
      [right; exists u | left; eexists];
      rewrite Hx; cbn [run]; unfold bind at 1; rewrite Hr;
      unfold bind at 1; unfold requireAdmin; cbn [user authed]; rewrite Hi;
      reflexivity.
Qed.

(** C3.  On every route behind the auth gate, a request that carries no
    bearer token, or whose token the identity service rejects, is answered
    with status 401 and the handler is not reached: the world is left as it
    was, and the answer is the same whatever handler stands behind the
    gates (that of the route included). *)
Theorem auth_gate_rejects (E : Env) (r : route) (req : Request) (w : World) :
  In Auth (gates r) ->
  (forall t, ~ bearer req t) \/ (exists t, bearer req t /\ rejects E t) ->
  exists res,
    status res = 401 /\
    app E r req w = (Sent res, w) /\
    forall h : middleware,
      run (List.map (gate_middleware E) (gates r) ++ [h]) req w = (Sent res, w).
Proof.
  intros Hin Hbad.
  destruct (gates_auth_first _ Hin) as [rest Hg].
  destruct (requireAuth_fail E req w Hbad) as (res & Hs & Hr).
  exists res. split; [assumption|].
  assert (forall h, run (List.map (gate_middleware E) (gates r) ++ [h]) req w
                    = (Sent res, w)) as Hall.
  { intros h. rewrite Hg. cbn [List.map Datatypes.app gate_middleware run].
    unfold bind at 1. now rewrite Hr. }
  split; [apply Hall | exact Hall].
Qed.


End Gates.

(* ===================================================================== *)
(** * Facts about the store client *)
(* ===================================================================== *)

Module StoreFacts.

Import JsString JsNumber JsValue Store Express Server Gates.

(** The upstream outcome of the next call, and the world once the call
    has been made. *)
Definition upstream (w : World) : option string := fst (next_fault w).
Definition called (w : World) : World := snd (next_fault w).

Lemma await_unfold q w :
  await q w =
  match upstream w with
  | Some msg => (failed msg, report (failed msg) (called w))
  | None => (fst (execute q (called w)),
             report (fst (execute q (called w))) (snd (execute q (called w))))
  end.
Proof.
  unfold await, upstream, called. destruct (next_fault w) as [f w1]. simpl.
  destruct f; [reflexivity|]. now destruct (execute q w1).
Qed.

Lemma enrollments_called w : enrollments (called w) = enrollments w.
Proof. reflexivity. Qed.

Lemma courses_called w : courses (called w) = courses w.
Proof. reflexivity. Qed.

Lemma enrollments_report r w : enrollments (report r w) = enrollments w.
Proof. unfold report. now destruct (error r). Qed.

Lemma courses_report r w : courses (report r w) = courses w.
Proof. unfold report. now destruct (error r). Qed.

(** The journal grows by one entry exactly when a call reports an error. *)
Lemma errors_report r w :
  errors (report r w) = match error r with Some m => m :: errors w | None => errors w end.
Proof. unfold report. now destruct (error r). Qed.

Lemma errors_called w : errors (called w) = errors w.
Proof. reflexivity. Qed.

Lemma errors_execute q w : errors (snd (execute q w)) = errors w.
Proof.
  unfold execute. destruct (filters_ok (q_filters q)); [|reflexivity]. simpl.
  destruct (q_verb q); simpl; try reflexivity.
  - now destruct (q_table q).
  - destruct (writable (wire_fields patch)); simpl; [|reflexivity].
    now destruct (q_table q).
  - now destruct (q_table q).
Qed.

Lemma errors_await q w :
  errors (snd (await q w)) =
  match error (fst (await q w)) with
  | Some m => m :: errors w
  | None => errors w
  end.
Proof.
  rewrite await_unfold. destruct (upstream w); simpl.
  - reflexivity.
  - now rewrite errors_report, errors_execute, errors_called.
Qed.

(** The two filters of the enrollment queries. *)
Definition pair_filters (course_id : jsval) (user_email : string)
  : list (string * jsval) :=
  [("course_id", course_id); ("user_email", JStr user_email)].

Lemma matches_pair v e r :
  matches (pair_filters v e) r = true <->
  (exists t, scalar_text v = Some t /\ cell_text r "course_id" = Some t) /\
  cell_text r "user_email" = Some e.
Proof.
  unfold matches, pair_filters. cbn [forallb]. rewrite andb_true_r, andb_true_iff.
  unfold satisfies. cbn [fst snd scalar_text].
  split.
  - intros [H1 H2]. split.
    + destruct (cell_text r "course_id") as [a|]; [|discriminate].
      destruct (scalar_text v) as [b|]; [|discriminate].
      apply String.eqb_eq in H1. subst. now exists b.
    + destruct (cell_text r "user_email") as [a|]; [|discriminate].
      apply String.eqb_eq in H2. now subst.
  - intros [(t & Hv & Hc) He]. rewrite Hv, Hc, He, !String.eqb_refl. tauto.
Qed.

(** The status a client reads from a record is the status stored. *)
Lemma cell_status r s :
  cell r "status" = JStr s <-> get (r_cols r) "status" = JStr s.
Proof.
  unfold cell. cbn [String.eqb Ascii.eqb Bool.eqb].
  destruct (get (r_cols r) "status"); split; intros H; try discriminate; assumption.
Qed.

End StoreFacts.

(* ===================================================================== *)
(** * Certificates *)
(* ===================================================================== *)

Module Certificate.

Import JsString JsNumber JsValue Store Express Server Gates StoreFacts.

(** [r] is an enrollment of [user_email] in the course [courseId]. *)
Definition enrolled (w : World) (courseId user_email : string) (r : row) : Prop :=
  In r (enrollments w) /\
  cell_text r "course_id" = Some courseId /\
  cell_text r "user_email" = Some user_email.

Definition has_status (r : row) (s : string) : Prop :=
  get (r_cols r) "status" = JStr s.

(** PDFKit emits at least one byte for every document. *)
Definition pdfkit_emits (E : Env) : Prop :=
  forall doc, List.concat (pdfkit E doc) <> [].

Definition is_pdf (res : Response) : Prop :=
  In ("Content-Type", "application/pdf") (headers res).

(** The answer of the route to ineligible principals. *)
Definition not_eligible : Response := status_json 403 (message "Belum lulus").

(** The rule of the certificate route for a principal [u], with [passed]
    the status that makes eligible: without an enrollment in that status
    the answer is 403 with a JSON message and no PDF; with one, and the
    lookup succeeding, the answer is a PDF that is not empty. *)
Definition certificate_rule (passed : string)
    (E : Env) (courseId : string) (req : Request) (w : World) (u : User) : Prop :=
  ((~ exists r, enrolled w courseId (email u) r /\ has_status r passed) ->
   exists res w',
     app E (GET_certificates courseId) req w = (Sent res, w') /\
     status res = 403 /\
     (exists m, content res = Json (message m)) /\
     ~ is_pdf res)
  /\
  ((exists r, enrolled w courseId (email u) r /\ has_status r passed) ->
   error (fst (await (enrollment_lookup courseId (email u)) w)) = None ->
   exists res w' bytes,
     app E (GET_certificates courseId) req w = (Sent res, w') /\
     is_pdf res /\
     content res = Buffer bytes /\
     bytes <> []).

(** The enrollments the lookup finds. *)
Definition found (courseId user_email : string) (w : World) : list row :=
  filter (matches (pair_filters (JStr courseId) user_email)) (enrollments w).

Definition lookup_columns : list column :=
  [Col "status"; Embed "courses" ["title"]].

Lemma execute_lookup c e w :
  execute (enrollment_lookup c e) w
  = (shaped Single (List.map (project w lookup_columns) (found c e w)), w).
Proof. reflexivity. Qed.

Lemma found_enrolled c e w r :
  In r (found c e w) <-> enrolled w c e r.
Proof.
  unfold found, enrolled. rewrite filter_In, matches_pair. cbn [scalar_text].
  split.
  - intros (Hin & (t & Ht & Hc) & He). injection Ht as <-. tauto.
  - intros (Hin & Hc & He). split; [assumption|]. split; [|assumption].
    now exists c.
Qed.

(** What the handler decides on. *)
Definition eligible (r : result) : bool :=
  match error r with
  | Some _ => false
  | None => ToBoolean (data r) && strict_eq_string (prop (data r) "status") "lulus"
  end.

Lemma get_certificate_run E c req u w :
  get_certificate E c (authed req u) w =
  let r := fst (await (enrollment_lookup c (email u)) w) in
  let w' := snd (await (enrollment_lookup c (email u)) w) in
  if eligible r
  then (Send (pdf_response (pdfkit E
          (certificate_doc (recipient u)
             (or (prop (prop (data r) "courses") "title") (JStr "Kursus"))
             (toLocaleDateString E (now w'))
             (certificate_number (now w'))))), w')
  else (Send not_eligible, w').
Proof.
  unfold get_certificate, eligible. cbn [user authed]. unfold bind.
  destruct (await (enrollment_lookup c (email u)) w) as [r w']. cbn [fst snd].
  destruct (error r); cbn [orb]; [reflexivity|].
  destruct (ToBoolean (data r)); cbn [negb orb andb]; [|reflexivity].
  destruct (strict_eq_string (prop (data r) "status") "lulus"); reflexivity.
Qed.

Lemma app_certificate E c req u w :
  resolves E req u ->
  app E (GET_certificates c) req w
  = (reply_of (fst (get_certificate E c (authed req u) w)),
     snd (get_certificate E c (authed req u) w)).
Proof.
  intros Hres. unfold app, stack. cbn [gates handler].
  rewrite (run_auth _ _ _ _ _ Hres). apply run_handler.
Qed.

(** The result of the lookup, by the enrollments it finds. *)
Lemma lookup_result c e w :
  upstream w = None ->
  fst (await (enrollment_lookup c e) w)
  = shaped Single (List.map (project (called w) lookup_columns) (found c e w)).
Proof.
  intros Hup. rewrite await_unfold, Hup, execute_lookup. reflexivity.
Qed.

Lemma project_status w r :
  prop (project w lookup_columns r) "status" = cell r "status".
Proof. reflexivity. Qed.

(** The lookup is eligible exactly when it finds one enrollment, in
    status "lulus". *)
Lemma eligible_iff c e w :
  eligible (fst (await (enrollment_lookup c e) w)) = true <->
  upstream w = None /\ exists r, found c e w = [r] /\ has_status r "lulus".
Proof.
  rewrite await_unfold. destruct (upstream w) as [msg|] eqn:Hup.
  - cbn. split; [intros H; discriminate H|]. intros [H _]. discriminate.
  - cbn [fst]. rewrite execute_lookup. cbn [fst].
    change (found c e (called w)) with (found c e w).
    destruct (found c e w) as [|r [|r' l]]; cbn [List.map shaped].
    + cbn. split; [intros H; discriminate H|]. intros [_ (r & H & _)]. discriminate.
    + unfold eligible. cbn [error data ok]. rewrite project_status.
      cbn [ToBoolean project andb]. unfold has_status, strict_eq_string.
      split.
      * intros H. split; [reflexivity|]. exists r. split; [reflexivity|].
        apply cell_status. destruct (cell r "status"); try discriminate.
        apply String.eqb_eq in H. now subst.
      * intros [_ (r0 & Hr & Hs)]. injection Hr as <-.
        apply cell_status in Hs. rewrite Hs. apply String.eqb_refl.
    + cbn. split; [intros H; discriminate H|]. intros [_ (r0 & H & _)]. discriminate.
Qed.

Lemma lookup_success c e w :
  error (fst (await (enrollment_lookup c e) w)) = None ->
  upstream w = None /\ exists r, found c e w = [r].
Proof.
  rewrite await_unfold. destruct (upstream w) as [msg|] eqn:Hup.
  - cbn. intros H; discriminate H.
  - cbn [fst]. rewrite execute_lookup. cbn [fst].
    change (found c e (called w)) with (found c e w).
    destruct (found c e w) as [|r [|r' l]]; cbn; try (intros H; discriminate H).
    intros _. split; [reflexivity|]. now exists r.
Qed.

(** C1, as amended.  For a principal the auth gate has resolved, with
    PDFKit emitting at least one byte per document: without an enrollment
    for (courseId, email) in status "lulus" the answer is 403 with a JSON
    message and no PDF; with one, and the lookup succeeding, the answer has
    content type application/pdf and a body that is not empty. *)
Theorem certificate_lulus (E : Env) (courseId : string) (req : Request)
    (w : World) (u : User) :
  resolves E req u ->
  pdfkit_emits E ->
  certificate_rule "lulus" E courseId req w u.
Proof.
  intros Hres Hpdf. split.
  - intros Hnone.
    rewrite (app_certificate _ _ _ _ _ Hres), get_certificate_run. cbv zeta.
    destruct (eligible _) eqn:Hel.
    + exfalso. apply eligible_iff in Hel. destruct Hel as [_ (r & Hf & Hs)].
      apply Hnone. exists r. split; [|assumption].
      apply found_enrolled. rewrite Hf. now left.
    + cbn [fst snd reply_of]. do 2 eexists. split; [reflexivity|].
      split; [reflexivity|]. split; [now eexists|].
      unfold is_pdf. cbn. intros [H|[]]. discriminate.
  - intros (r & Hr & Hs) Hok.
    rewrite (app_certificate _ _ _ _ _ Hres), get_certificate_run. cbv zeta.
    assert (eligible (fst (await (enrollment_lookup courseId (email u)) w)) = true) as ->.
    { apply eligible_iff. destruct (lookup_success _ _ _ Hok) as [Hup (r0 & Hf)].
      split; [assumption|]. exists r0. split; [assumption|].
      apply found_enrolled in Hr. rewrite Hf in Hr.
      destruct Hr as [->|[]]. assumption. }
    cbn [fst snd reply_of]. do 3 eexists. split; [reflexivity|].
    split; [now left|]. split; [reflexivity|]. apply Hpdf.
Qed.

(** C10.  When the enrollment lookup reports an error, the answer is the
    403 of an ineligible principal, not a 500, whatever the store holds:
    it is the very answer the same request gets from a store that holds
    no enrollment at all. *)
Theorem certificate_lookup_error (E : Env) (courseId : string) (req : Request)
    (w : World) (u : User) (msg : string) :
  resolves E req u ->
  error (fst (await (enrollment_lookup courseId (email u)) w)) = Some msg ->
  fst (app E (GET_certificates courseId) req w) = Sent not_eligible /\
  status not_eligible = 403 /\
  content not_eligible = Json (message "Belum lulus") /\
  enrollments (snd (app E (GET_certificates courseId) req w)) = enrollments w /\
  forall w0, enrollments w0 = [] ->
    fst (app E (GET_certificates courseId) req w0)
    = fst (app E (GET_certificates courseId) req w).
Proof.
  intros Hres Herr.
  assert (forall w1, eligible (fst (await (enrollment_lookup courseId (email u)) w1)) = false ->
            app E (GET_certificates courseId) req w1
            = (Sent not_eligible, snd (await (enrollment_lookup courseId (email u)) w1))) as Hno.
  { intros w1 H. rewrite (app_certificate _ _ _ _ _ Hres), get_certificate_run.
    cbv zeta. now rewrite H. }
  assert (eligible (fst (await (enrollment_lookup courseId (email u)) w)) = false) as Hw.
  { unfold eligible. now rewrite Herr. }
  rewrite (Hno w Hw). cbn [fst snd].
  split; [reflexivity|]. split; [reflexivity|]. split; [reflexivity|]. split.
  - rewrite await_unfold. destruct (upstream w); cbn [snd].
    + now rewrite enrollments_report.
    + now rewrite enrollments_report, execute_lookup.
  - intros w0 He. rewrite Hno; [reflexivity|].
    destruct (eligible (fst (await (enrollment_lookup courseId (email u)) w0)))
      eqn:Hel; [|reflexivity].
    apply eligible_iff in Hel. destruct Hel as [_ (r & Hr & _)].
    unfold found in Hr. rewrite He in Hr. discriminate.
Qed.

End Certificate.

(* ===================================================================== *)
(** * Enrollment *)
(* ===================================================================== *)

Module Enrollment.

Import JsString JsNumber JsValue Store Express Server Gates StoreFacts.
Local Open Scope list_scope.

Definition enroll_success : Response := json (message "Pendaftaran berhasil").
Definition already_enrolled : Response := status_json 400 (message "Sudah terdaftar").

Lemma post_enroll_run req u w :
  post_enroll (authed req u) w =
  let cid := get (body req) "course_id" in
  let r1 := fst (await (existing_enrollment cid (email u)) w) in
  let w1 := snd (await (existing_enrollment cid (email u)) w) in
  if raises cid then (Throw type_error, w)
  else if ToBoolean (data r1) then (Send already_enrolled, w1)
  else
    let q := insert (new_enrollment cid (email u)) (from Enrollments) in
    match error (fst (await q w1)) with
    | Some msg => (Send (status_json 500 (message msg)), snd (await q w1))
    | None => (Send enroll_success, snd (await q w1))
    end.
Proof.
  unfold post_enroll. cbn [user authed body]. unfold bind. cbv zeta.
  destruct (raises _); [reflexivity|].
  destruct (await (existing_enrollment _ _) w) as [r1 w1]. cbn [fst snd].
  destruct (ToBoolean (data r1)); [reflexivity|].
  destruct (await _ w1) as [r2 w2]. cbn [fst snd].
  now destruct (error r2).
Qed.

(** The route, once the auth gate has let the request through. *)
Lemma app_enroll_authed E req u w :
  requireAuth E req w = (Next (authed req u), w) ->
  app E POST_enroll req w
  = (reply_of (fst (post_enroll (authed req u) w)),
     snd (post_enroll (authed req u) w)).
Proof.
  intros H. unfold app, stack. cbn [gates handler List.map Datatypes.app gate_middleware].
  cbn [run]. unfold bind at 1. rewrite H. apply run_handler.
Qed.

(** The enrollments the existence check finds. *)
Definition existing (course_id : jsval) (user_email : string) (w : World) : list row :=
  filter (matches (pair_filters course_id user_email)) (enrollments w).

Lemma execute_existing v e w :
  execute (existing_enrollment v e) w
  = if filters_ok (pair_filters v e)
    then (shaped MaybeSingle (List.map (project w [Col "id"]) (existing v e w)), w)
    else (failed "invalid input syntax", w).
Proof.
  unfold execute, existing_enrollment. cbn [q_filters q_verb q_table q_order
    q_columns q_shape maybeSingle with_shape eq select from Datatypes.app].
  fold (pair_filters v e).
  destruct (filters_ok (pair_filters v e)); reflexivity.
Qed.

(** The record a successful insert adds. *)
Definition inserted (record : list (string * jsval)) (w : World) : row :=
  {| r_id := next_id w; r_created_at := now w; r_cols := wire_fields record |}.

Lemma await_insert_ok record w :
  error (fst (await (insert record (from Enrollments)) w)) = None ->
  enrollments (snd (await (insert record (from Enrollments)) w))
  = enrollments w ++ [inserted record w].
Proof.
  rewrite await_unfold. destruct (upstream w); cbn [fst snd].
  - intros H; discriminate H.
  - intros _. rewrite enrollments_report. reflexivity.
Qed.

Lemma enrollments_await_existing v e w :
  enrollments (snd (await (existing_enrollment v e) w)) = enrollments w.
Proof.
  rewrite await_unfold. destruct (upstream w); cbn [snd];
    rewrite enrollments_report; [reflexivity|].
  rewrite execute_existing. now destruct (filters_ok _).
Qed.

Lemma next_id_now_await_existing v e w :
  next_id (snd (await (existing_enrollment v e) w)) = next_id w /\
  now (snd (await (existing_enrollment v e) w)) = now w.
Proof.
  rewrite await_unfold. destruct (upstream w); cbn [snd]; unfold report.
  - now destruct (error _).
  - rewrite execute_existing. destruct (filters_ok _); cbn [fst snd];
      now destruct (error _).
Qed.

Lemma status_of_new_enrollment v e :
  get (wire_fields (new_enrollment v e)) "status" = JStr "terdaftar".
Proof. destruct v; reflexivity. Qed.

(** The status a successful enrollment is inserted with, [status] being
    the status expected: the record is added at the end of the table, with
    that status. *)
Definition inserted_status_rule (status : string)
    (E : Env) (req : Request) (w : World) : Prop :=
  forall w',
    app E POST_enroll req w = (Sent enroll_success, w') ->
    exists r, enrollments w' = enrollments w ++ [r] /\
              get (r_cols r) "status" = JStr status.

(** C5, as amended.  Every successful POST /api/enroll inserts one
    enrollment, and its status is "terdaftar". *)
Theorem enroll_inserts_terdaftar (E : Env) (req : Request) (w : World) :
  inserted_status_rule "terdaftar" E req w.
Proof.
  intros w' Happ.
  destruct (requireAuth_cases E req w) as [(res & Hs & Hr) | (u & Hr)].
  - exfalso. unfold app, stack in Happ.
    cbn [gates handler List.map Datatypes.app gate_middleware run] in Happ.
    unfold bind at 1 in Happ. rewrite Hr in Happ.
    injection Happ as -> _. discriminate Hs.
  - rewrite (app_enroll_authed _ _ _ _ Hr), post_enroll_run in Happ.
    cbv zeta in Happ.
    destruct (raises _); [discriminate Happ|].
    destruct (ToBoolean _); [discriminate Happ|].
    destruct (error _) eqn:Herr; [discriminate Happ|].
    cbn [fst snd reply_of] in Happ. injection Happ as <-.
    rewrite (await_insert_ok _ _ Herr), enrollments_await_existing.
    eexists. split; [reflexivity|]. apply status_of_new_enrollment.
Qed.

Lemma cons_neq {A} (x : A) (l : list A) : x :: l <> l.
Proof.
  intros H. apply (f_equal (@List.length A)) in H. simpl in H. lia.
Qed.

(** A call reported no error exactly when the journal did not grow. *)
Lemma quiet_await q w :
  errors (snd (await q w)) = errors w <-> error (fst (await q w)) = None.
Proof.
  rewrite errors_await. destruct (error (fst (await q w))); split; intros H;
    try reflexivity; try discriminate H.
  exfalso. exact (cons_neq _ _ H).
Qed.

Lemma length_errors_await q w :
  (List.length (errors w) <= List.length (errors (snd (await q w))))%nat.
Proof. rewrite errors_await. destruct (error _); simpl; lia. Qed.

(** Induction on a value, its items and its fields. *)
Lemma jsval_induction (P : jsval -> Prop) :
  P JUndefined -> P JNull -> (forall b, P (JBool b)) -> (forall n, P (JNum n)) ->
  (forall s, P (JStr s)) ->
  (forall items, Forall P items -> P (JArr items)) ->
  (forall fields, Forall (fun kv => P (snd kv)) fields -> P (JObj fields)) ->
  forall v, P v.
Proof.
  intros HU HN HB HNum HS HA HO.
  fix IH 1. intros [| |b|n|s|items|fields].
  - exact HU.
  - exact HN.
  - apply HB.
  - apply HNum.
  - apply HS.
  - apply HA. induction items as [|x r IHr]; constructor; [apply IH|exact IHr].
  - apply HO. induction fields as [|[k x] r IHr]; constructor; [apply IH|exact IHr].
Qed.

(** The text of an item of an array. *)
Definition item_text (x : jsval) : option string :=
  match x with
  | JUndefined | JNull => Some ""
  | _ => scalar_text x
  end.

Lemma scalar_text_items x r :
  scalar_text (JArr (x :: r))
  = match item_text x with
    | Some a =>
        match r with
        | [] => Some a
        | _ :: _ => option_map (fun b => a ++ "," ++ b)%string (scalar_text (JArr r))
        end
    | None => None
    end.
Proof. destruct x; reflexivity. Qed.

Lemma scalar_text_number_wire n t :
  scalar_text (JNum n) = Some t -> wire (JNum n) <> JNull /\ scalar_text (wire (JNum n)) = Some t.
Proof.
  destruct n as [s| | |s m e]; cbn; intros H; try discriminate H;
    (split; [discriminate|exact H]).
Qed.

(** Crossing the wire keeps the text of a value. *)
Lemma scalar_text_wire v t : scalar_text v = Some t -> scalar_text (wire v) = Some t.
Proof.
  revert t. induction v as [| |b|n|s|items IH|fields _] using jsval_induction;
    intros t; try (intros H; exact H).
  - intros H. exact (proj2 (scalar_text_number_wire _ _ H)).
  - change (wire (JArr items)) with (JArr (List.map wire items)).
    revert t. induction IH as [|x r Hx Hr IHr]; intros t; [intros H; exact H|].
    cbn [List.map]. rewrite !scalar_text_items.
    assert (forall a, item_text x = Some a -> item_text (wire x) = Some a) as Hitem.
    { intros a. destruct x; try (intros H; exact H).
      - intros H. destruct (scalar_text_number_wire _ _ H) as [Hne Hw].
        cbn [item_text] in H. unfold item_text.
        destruct (wire (JNum n)) eqn:E; try exact Hw; try discriminate Hw.
      - intros H. exact (Hx _ H). }
    destruct (item_text x) as [a|]; [|intros H; discriminate H].
    rewrite (Hitem a eq_refl).
    destruct r as [|y r]; [intros H; exact H|].
    cbn [List.map]. change (wire y :: List.map wire r) with (List.map wire (y :: r)).
    destruct (scalar_text (JArr (y :: r))) as [b|]; [|intros H; discriminate H].
    now rewrite (IHr b eq_refl).
Qed.

(** A value that has a text is one whose conversion does not throw. *)
Lemma text_never_raises v t : scalar_text v = Some t -> raises v = false.
Proof.
  revert t. induction v as [| |b|n|s|items IH|fields _] using jsval_induction;
    intros t; try reflexivity; [|intros H; discriminate H].
  revert t. induction IH as [|x r Hx Hr IHr]; intros t; [reflexivity|].
  rewrite scalar_text_items.
  change (raises (JArr (x :: r))) with (raises x || raises (JArr r))%bool.
  destruct (item_text x) as [a|] eqn:Ha; [|intros H; discriminate H].
  assert (raises x = false) as ->.
  { destruct x; try reflexivity; exact (Hx _ Ha). }
  destruct r as [|y r]; [reflexivity|].
  destruct (scalar_text (JArr (y :: r))) as [b|]; [|intros H; discriminate H].
  intros _. exact (IHr b eq_refl).
Qed.

Lemma course_of_new_enrollment v e t :
  scalar_text v = Some t ->
  scalar_text (get (wire_fields (new_enrollment v e)) "course_id") = Some t.
Proof.
  intros H. pose proof (scalar_text_wire _ _ H) as Hw.
  destruct v; try discriminate H; exact Hw.
Qed.

Lemma email_of_new_enrollment v e t :
  scalar_text v = Some t ->
  get (wire_fields (new_enrollment v e)) "user_email" = JStr e.
Proof. intros H. destruct v; try discriminate H; reflexivity. Qed.

(** The record a successful enrollment adds is one the existence check
    finds. *)
Lemma inserted_matches v e w t :
  scalar_text v = Some t ->
  matches (pair_filters v e) (inserted (new_enrollment v e) w) = true.
Proof.
  intros H. apply matches_pair. split.
  - exists t. split; [assumption|]. exact (course_of_new_enrollment v e t H).
  - unfold cell_text. cbn [String.eqb Ascii.eqb Bool.eqb inserted r_cols].
    now rewrite (email_of_new_enrollment v e t H).
Qed.

Lemma filters_ok_pair v e :
  filters_ok (pair_filters v e) = true <-> exists t, scalar_text v = Some t.
Proof.
  unfold filters_ok, pair_filters. cbn [forallb snd scalar_text].
  destruct (scalar_text v) as [t|]; cbn; split; intros H; try reflexivity.
  - now exists t.
  - discriminate H.
  - destruct H as [t H]. discriminate H.
Qed.

(** A check that reports no error and returns nothing found nothing, and
    its course identifier was one the store could read. *)
Lemma check_found_nothing v e w :
  error (fst (await (existing_enrollment v e) w)) = None ->
  ToBoolean (data (fst (await (existing_enrollment v e) w))) = false ->
  (exists t, scalar_text v = Some t) /\ existing v e w = [].
Proof.
  rewrite await_unfold. destruct (upstream w); cbn [fst].
  - intros H; discriminate H.
  - rewrite execute_existing.
    change (existing v e (called w)) with (existing v e w).
    destruct (filters_ok (pair_filters v e)) eqn:Hf; cbn [fst].
    + apply filters_ok_pair in Hf.
      destruct (existing v e w) as [|r [|r' l]]; cbn; intros H1 H2;
        try discriminate H1; try discriminate H2.
      now split.
    + intros H; discriminate H.
Qed.

(** A check that reports no error over a table where exactly one record
    matches returns that record. *)
Lemma check_found_one v e w r :
  error (fst (await (existing_enrollment v e) w)) = None ->
  existing v e w = [r] ->
  ToBoolean (data (fst (await (existing_enrollment v e) w))) = true.
Proof.
  rewrite await_unfold. destruct (upstream w); cbn [fst].
  - intros H; discriminate H.
  - rewrite execute_existing.
    change (existing v e (called w)) with (existing v e w).
    destruct (filters_ok (pair_filters v e)); cbn [fst].
    + intros _ ->. reflexivity.
    + intros H; discriminate H.
Qed.

(** C2.  Two calls of POST /api/enroll in sequence, by principals with
    the same email and for the same course_id, with no error reported by the
    store during either: when the first call has succeeded, the second,
    made on a world whose enrollments are those the first call left, is
    answered 400 with the message "Sudah terdaftar", and leaves the
    enrollments as they were. *)
Theorem enroll_twice (E1 E2 : Env) (req1 req2 : Request) (u1 u2 : User)
    (w0 w1 w2 : World) :
  resolves E1 req1 u1 ->
  resolves E2 req2 u2 ->
  email u2 = email u1 ->
  get (body req2) "course_id" = get (body req1) "course_id" ->
  app E1 POST_enroll req1 w0 = (Sent enroll_success, w1) ->
  errors w1 = errors w0 ->
  enrollments w2 = enrollments w1 ->
  errors (snd (app E2 POST_enroll req2 w2)) = errors w2 ->
  fst (app E2 POST_enroll req2 w2) = Sent already_enrolled /\
  status already_enrolled = 400 /\
  content already_enrolled = Json (message "Sudah terdaftar") /\
  enrollments (snd (app E2 POST_enroll req2 w2)) = enrollments w1.
Proof.
  intros Hr1 Hr2 Hmail Hcid Happ Hq1 Hsame Hq2.
  (* the first call *)
  rewrite (app_enroll_authed _ _ _ _ (requireAuth_pass _ _ _ w0 Hr1)),
    post_enroll_run in Happ.
  cbv zeta in Happ.
  set (v := get (body req1) "course_id") in *.
  set (e := email u1) in *.
  set (wa := snd (await (existing_enrollment v e) w0)) in *.
  destruct (raises v) eqn:Hraise; [discriminate Happ|].
  destruct (ToBoolean (data (fst (await (existing_enrollment v e) w0)))) eqn:Hfalsy;
    [discriminate Happ|].
  set (q := insert (new_enrollment v e) (from Enrollments)) in *.
  destruct (error (fst (await q wa))) eqn:Hins; [discriminate Happ|].
  cbn [fst snd reply_of] in Happ. injection Happ as Hw1.
  assert (error (fst (await (existing_enrollment v e) w0)) = None) as Hcheck.
  { apply quiet_await. fold wa.
    apply quiet_await in Hins. rewrite Hw1 in Hins. congruence. }
  destruct (check_found_nothing _ _ _ Hcheck Hfalsy) as [(t & Ht) Hnone].
  assert (enrollments w1 = enrollments w0 ++ [inserted (new_enrollment v e) wa]) as Hrows.
  { rewrite <- Hw1. unfold q. rewrite (await_insert_ok _ _ Hins).
    unfold wa. now rewrite enrollments_await_existing. }
  (* the second call *)
  rewrite (app_enroll_authed _ _ _ _ (requireAuth_pass _ _ _ w2 Hr2)),
    post_enroll_run in *.
  cbv zeta in *. rewrite Hcid, Hmail in *. fold v e in Hq2 |- *.
  rewrite Hraise in Hq2 |- *.
  set (wb := snd (await (existing_enrollment v e) w2)) in *.
  assert (error (fst (await (existing_enrollment v e) w2)) = None) as Hcheck2.
  { apply quiet_await. fold wb.
    destruct (ToBoolean (data (fst (await (existing_enrollment v e) w2)))).
    - cbn [fst snd] in Hq2. exact Hq2.
    - pose proof (length_errors_await (insert (new_enrollment v e) (from Enrollments)) wb) as L2.
      assert (errors (snd (await (insert (new_enrollment v e) (from Enrollments)) wb))
              = errors w2) as Hend.
      { cbn [snd] in Hq2.
        destruct (error (fst (await (insert (new_enrollment v e) (from Enrollments)) wb)));
          cbn [snd] in Hq2; exact Hq2. }
      rewrite Hend in L2. clear Hend Hq2. subst wb.
      rewrite errors_await in L2 |- *.
      destruct (error (fst (await (existing_enrollment v e) w2))); [|reflexivity].
      simpl in L2. lia. }
  assert (existing v e w2 = [inserted (new_enrollment v e) wa]) as Hone.
  { unfold existing in *. rewrite Hsame, Hrows, filter_app, Hnone. cbn [filter].
    now rewrite (inserted_matches v e wa t Ht). }
  rewrite (check_found_one _ _ _ _ Hcheck2 Hone). cbn [fst snd reply_of].
  split; [reflexivity|]. split; [reflexivity|]. split; [reflexivity|].
  unfold wb. now rewrite enrollments_await_existing.
Qed.

End Enrollment.

(* ===================================================================== *)
(** * Courses *)
(* ===================================================================== *)

Module Courses.

Import JsString JsNumber JsValue Store Express Server Gates StoreFacts.
Local Open Scope list_scope.

(** ** Listing *)

Section Ordering.

Variable key : row -> Z.

(** Larger keys first. *)
Definition descending (a b : row) : Prop := key b <= key a.
Definition before (a b : row) : bool := key b <=? key a.

Lemma place_perm x l : Permutation (place before x l) (x :: l).
Proof.
  induction l as [|y l IH]; simpl; [reflexivity|].
  destruct (before x y); [reflexivity|].
  rewrite IH. apply perm_swap.
Qed.

Lemma sort_perm l : Permutation (sort before l) l.
Proof.
  induction l as [|x l IH]; simpl; [reflexivity|].
  rewrite place_perm. now constructor.
Qed.

Lemma place_sorted x l :
  StronglySorted descending l -> StronglySorted descending (place before x l).
Proof.
  induction 1 as [|y l Hl IH Hy]; simpl.
  - repeat constructor.
  - unfold before at 1. destruct (key y <=? key x) eqn:Hc.
    + apply Z.leb_le in Hc. constructor; [now constructor|].
      constructor; [exact Hc|].
      rewrite Forall_forall in *. intros z Hz. specialize (Hy z Hz).
      unfold descending in *. lia.
    + apply Z.leb_gt in Hc. constructor; [exact IH|].
      rewrite Forall_forall in *. intros z Hz.
      apply (Permutation_in _ (place_perm x l)) in Hz.
      destruct Hz as [<-|Hz]; [unfold descending; lia|now apply Hy].
Qed.

Lemma sort_sorted l : StronglySorted descending (sort before l).
Proof.
  induction l as [|x l IH]; simpl; [constructor|now apply place_sorted].
Qed.

End Ordering.

Lemma filter_all {A} (l : list A) : filter (fun _ => true) l = l.
Proof. induction l; simpl; congruence. Qed.

(** A course record as [select("*")] returns it. *)
Definition course_json (r : row) : jsval := JObj (all_columns r).

Definition listing : query := order "created_at" false (select [Star] (from Courses)).

(** The courses, newest first. *)
Definition newest_first (w : World) : list row :=
  sort (before r_created_at) (courses w).

Lemma execute_listing w :
  execute listing w = (ok (JArr (List.map course_json (newest_first w))), w).
Proof.
  unfold execute, listing. cbn [q_filters q_verb q_table q_order q_columns
    q_shape order select from filters_ok forallb negb rows_of ordered shaped].
  unfold matches. cbn [forallb]. rewrite filter_all.
  f_equal. f_equal. f_equal. apply List.map_ext. intros r.
  unfold project, course_json. cbn [flat_map project_column].
  now rewrite app_nil_r.
Qed.

(** C8.  GET /api/courses always answers; with the store up the answer is
    200, and every answer with status 200 carries all course records, each
    once, ordered by creation time, newest first. *)
Theorem list_courses (E : Env) (req : Request) (w : World) :
  exists res,
    fst (app E GET_courses req w) = Sent res /\
    (upstream w = None -> status res = 200) /\
    (status res = 200 ->
     exists rows,
       content res = Json (JArr (List.map course_json rows)) /\
       Permutation rows (courses w) /\
       StronglySorted (descending r_created_at) rows).
Proof.
  unfold app, stack. cbn [gates handler List.map Datatypes.app].
  rewrite run_handler. cbn [fst]. unfold get_courses, bind.
  fold listing. rewrite await_unfold.
  destruct (upstream w) as [msg|].
  - cbn. eexists. split; [reflexivity|]. split; [intros H; discriminate H|].
    intros H; discriminate H.
  - rewrite execute_listing. cbn [fst snd error ok data reply_of].
    eexists. split; [reflexivity|]. split; [reflexivity|]. intros _.
    exists (newest_first (called w)). split; [reflexivity|]. split.
    + apply sort_perm.
    + apply sort_sorted.
Qed.

(** ** Creation *)

(** [Number(price) || 0] when [Number] does not throw. *)
Definition price_value (price : jsval) : jsval :=
  or (JNum (number_value price)) (JNum zero).

Lemma coerce_price_value price :
  coerce_price price = if raises price then None else Some (price_value price).
Proof. unfold coerce_price, ToNumber. now destruct (raises price). Qed.

(** The record [POST /api/courses] hands to the store. *)
Definition course_record (b : list (string * jsval)) : list (string * jsval) :=
  [ ("title", get b "title");
    ("description", get b "description");
    ("level", get b "level");
    ("price", price_value (get b "price"));
    ("image_url", or (get b "image_url") JNull) ].

Definition creation (b : list (string * jsval)) : query :=
  single (select [Star] (insert (course_record b) (from Courses))).

(** The record the store writes for it. *)
Definition written (record : list (string * jsval)) (w : World) : row :=
  {| r_id := next_id w; r_created_at := now w; r_cols := wire_fields record |}.

Lemma await_creation b w :
  await (creation b) w =
  match upstream w with
  | Some msg => (failed msg, report (failed msg) (called w))
  | None =>
      (ok (course_json (written (course_record b) w)),
       bump_id (set_rows Courses (courses w ++ [written (course_record b) w]) (called w)))
  end.
Proof.
  rewrite await_unfold. destruct (upstream w); [reflexivity|].
  unfold execute, creation. cbn [q_filters q_verb q_table q_order q_columns
    q_shape single with_shape select insert with_verb from filters_ok forallb
    negb rows_of returning shaped List.map fst snd].
  unfold project. cbn [flat_map project_column]. rewrite app_nil_r.
  reflexivity.
Qed.

Lemma post_courses_run req u w :
  post_courses (authed req u) w =
  if raises (get (body req) "price") then (Throw type_error, w) else
  match error (fst (await (creation (body req)) w)) with
  | Some msg => (Send (status_json 500 (message msg)), snd (await (creation (body req)) w))
  | None => (Send (json (data (fst (await (creation (body req)) w)))),
             snd (await (creation (body req)) w))
  end.
Proof.
  unfold post_courses. cbn [body authed]. rewrite coerce_price_value.
  destruct (raises _); [reflexivity|]. unfold bind.
  fold (course_record (body req)). fold (creation (body req)).
  destruct (await (creation (body req)) w) as [r w']. cbn [fst snd].
  now destruct (error r).
Qed.

Lemma app_neq {A} (l : list A) (x : A) : l <> l ++ [x].
Proof.
  intros H. apply (f_equal (@List.length A)) in H.
  rewrite length_app in H. simpl in H. lia.
Qed.

(** [r] is the course record the request creates. *)
Definition created (E : Env) (req : Request) (w : World) (r : row) : Prop :=
  courses (snd (app E POST_courses req w)) = courses w ++ [r].

(** The only record a request can create is the one written from its
    body, and none is created when [Number(price)] throws. *)
Lemma created_written E req w r :
  created E req w r ->
  raises (get (body req) "price") = false /\
  r = written (course_record (body req)) w.
Proof.
  unfold created. intros H.
  destruct (admin_route_cases E POST_courses req w) as [(res & Ha) | (u & Ha)];
    [simpl; auto | |]; rewrite Ha in H.
  - cbn [snd] in H. now apply app_neq in H.
  - rewrite run_handler in H. cbn [snd handler] in H.
    rewrite post_courses_run in H.
    destruct (raises _); [cbn [snd] in H; now apply app_neq in H|].
    split; [reflexivity|]. rewrite await_creation in H.
    destruct (upstream w); cbn [fst snd error failed ok] in H.
    + rewrite courses_report, courses_called in H. now apply app_neq in H.
    + cbn in H. apply app_inv_head in H. now injection H as <-.
Qed.

(** When [Number(price)] throws, the request leaves the world as it was. *)
Lemma post_courses_raises E req w :
  raises (get (body req) "price") = true ->
  snd (app E POST_courses req w) = w.
Proof.
  intros Hraise.
  destruct (admin_route_cases E POST_courses req w) as [(res & Ha) | (u & Ha)];
    [simpl; auto | |]; rewrite Ha; [reflexivity|].
  rewrite run_handler. cbn [snd handler]. now rewrite post_courses_run, Hraise.
Qed.

Lemma wire_fields_cons k v l :
  wire_fields ((k, v) :: l)
  = match v with
    | JUndefined => wire_fields l
    | _ => (k, wire v) :: wire_fields l
    end.
Proof. destruct v; reflexivity. Qed.

Lemma get_wire_skip k' k v l :
  String.eqb k' k = false ->
  get (wire_fields ((k', v) :: l)) k = get (wire_fields l) k.
Proof.
  intros H. rewrite wire_fields_cons. destruct v; cbn [get]; now rewrite ?H.
Qed.

Definition stored_price (r : row) : jsval := get (r_cols r) "price".

(** [Number(price) || 0], then the wire. *)
Lemma stored_price_written b w :
  stored_price (written (course_record b) w)
  = let n := number_value (get b "price") in
    if (is_zero n || is_nan n)%bool then JNum zero
    else if is_finite n then JNum n else JNull.
Proof.
  unfold stored_price, written, course_record. cbn [r_cols].
  rewrite !get_wire_skip by reflexivity.
  unfold price_value, or. cbn [ToBoolean]. cbv zeta.
  destruct (number_value (get b "price")) as [s| | |s m e]; reflexivity.
Qed.

Lemma ToNumber_value v n :
  ToNumber v = Some n <-> raises v = false /\ number_value v = n.
Proof.
  unfold ToNumber. destruct (raises v); split.
  - intros H; discriminate H.
  - intros [H _]; discriminate H.
  - intros H. injection H as <-. now split.
  - intros [_ <-]. reflexivity.
Qed.

(** The price is no number: [Number(price)] is [NaN], or throws. *)
Definition not_a_number (price : jsval) : Prop :=
  ToNumber price = Some NaN \/ ToNumber price = None.

(** C6.  When the price of a POST /api/courses request is no number,
    every course record the request creates has price 0.  When
    [Number(price)] is [NaN], for an admin and with the store up, a record
    is created and returned.  When [Number(price)] throws, the request
    leaves the world as it was, and for an admin the handler throws. *)
Theorem unparsable_price_stored_as_zero (E : Env) (req : Request) (w : World) :
  not_a_number (get (body req) "price") ->
  (forall r, created E req w r -> stored_price r = JNum zero) /\
  (ToNumber (get (body req) "price") = Some NaN ->
   forall u, resolves E req u -> listed E u -> upstream w = None ->
     exists r, created E req w r /\
               fst (app E POST_courses req w) = Sent (json (course_json r))) /\
  (ToNumber (get (body req) "price") = None ->
   snd (app E POST_courses req w) = w /\
   forall u, resolves E req u -> listed E u ->
     fst (app E POST_courses req w) = Thrown type_error).
Proof.
  intros Hnan. split; [|split].
  - intros r Hr. destruct (created_written _ _ _ _ Hr) as [Hraise ->].
    rewrite stored_price_written.
    destruct Hnan as [Hnan | Hnan].
    + apply ToNumber_value in Hnan. destruct Hnan as [_ ->]. reflexivity.
    + unfold ToNumber in Hnan. rewrite Hraise in Hnan. discriminate Hnan.
  - intros Hn u Hres Hl Hup. exists (written (course_record (body req)) w).
    apply ToNumber_value in Hn. destruct Hn as [Hraise _].
    unfold created, app, stack. cbn [gates handler].
    rewrite (run_auth_admin _ _ _ _ _ Hres).
    apply requireAdmin_listed in Hl. rewrite Hl.
    rewrite run_handler, post_courses_run, Hraise, await_creation, Hup.
    cbn [fst snd error ok data reply_of]. split; reflexivity.
  - intros Hn.
    assert (raises (get (body req) "price") = true) as Hraise.
    { unfold ToNumber in Hn. destruct (raises _); [reflexivity|discriminate Hn]. }
    split; [exact (post_courses_raises E req w Hraise)|].
    intros u Hres Hl. unfold app, stack. cbn [gates handler].
    rewrite (run_auth_admin _ _ _ _ _ Hres).
    apply requireAdmin_listed in Hl. rewrite Hl.
    now rewrite run_handler, post_courses_run, Hraise.
Qed.

(** A number that is at least 0. *)
Definition nonnegative_number (v : jsval) : Prop :=
  exists n, v = JNum n /\ is_nan n = false /\ is_negative n = false.

(** The claim that every created course has a non-negative price. *)
Definition price_nonnegative_rule (E : Env) (req : Request) (w : World) (r : row) : Prop :=
  created E req w r -> nonnegative_number (stored_price r).

(** C7, as amended.  A course record is created only when [Number(price)]
    gives a number, and its price is
    [Number(price) || 0] as it crosses the wire: 0 when the supplied price
    converts to NaN or to zero, the converted number when that is finite
    and not zero, null when it is infinite.  So it is a non-negative number
    whenever the supplied price does not convert to a negative number or to
    an infinity, and it is the negative number the supplied price converts
    to otherwise. *)
Theorem stored_price_of_created (E : Env) (req : Request) (w : World) (r : row) :
  created E req w r ->
  exists n,
  ToNumber (get (body req) "price") = Some n /\
  stored_price r
  = (if (is_zero n || is_nan n)%bool then JNum zero
     else if is_finite n then JNum n else JNull) /\
  (is_negative n = false -> is_finite n = true \/ is_nan n = true ->
   nonnegative_number (stored_price r)) /\
  (is_negative n = true -> is_finite n = true -> stored_price r = JNum n).
Proof.
  intros Hr. destruct (created_written _ _ _ _ Hr) as [Hraise ->].
  exists (number_value (get (body req) "price")).
  split; [now apply ToNumber_value|].
  rewrite stored_price_written. cbv zeta.
  set (n := number_value (get (body req) "price")).
  split; [reflexivity|]. split.
  - intros Hneg Hfin. destruct n as [s| | |s m e]; cbn in *.
    + exists zero. now repeat split.
    + destruct Hfin as [H|H]; discriminate H.
    + exists zero. now repeat split.
    + exists (S754_finite s m e). now repeat split.
  - intros Hneg Hfin. destruct n as [s| | |s m e]; cbn in *;
      try discriminate Hneg; try discriminate Hfin. reflexivity.
Qed.

End Courses.

(* ===================================================================== *)
(** * Admin verification *)
(* ===================================================================== *)

Module Verification.

Import JsString JsNumber JsValue Store Express Server Gates StoreFacts.
Local Open Scope list_scope.

Definition status_updated : Response := json (message "Status updated").

(** The record carries the identifier [id]. *)
Definition has_id (id : string) (r : row) : bool :=
  String.eqb (Z_to_string (r_id r)) id.

(** The record with its status set. *)
Definition with_status (s : jsval) (r : row) : row :=
  patched [("status", s)] r.

Lemma get_set_col cols k v : get (set_col cols k v) k = v.
Proof.
  induction cols as [|[k' v'] cols IH]; cbn [set_col get].
  - now rewrite String.eqb_refl.
  - destruct (String.eqb k' k) eqn:Hk; cbn [get].
    + now rewrite String.eqb_refl.
    + now rewrite Hk.
Qed.

Lemma status_with_status s r : get (r_cols (with_status s r)) "status" = s.
Proof. unfold with_status, patched. cbn [r_cols fold_left fst snd]. apply get_set_col. Qed.

Lemma matches_id id r : matches [("id", JStr id)] r = has_id id r.
Proof.
  unfold matches, satisfies, has_id. cbn [forallb fst snd scalar_text cell_text].
  cbn [String.eqb Ascii.eqb Bool.eqb]. apply andb_true_r.
Qed.

Lemma put_enrollment_run id req w :
  put_enrollment id req w
  = (Send status_updated, snd (await (status_update id (get (body req) "status")) w)).
Proof.
  unfold put_enrollment, bind. now destruct (await _ w).
Qed.

(** The update of a status that is a string, against the tables. *)
Lemma execute_status_update id s w :
  execute (status_update id (JStr s)) w
  = (ok JNull,
     set_rows Enrollments
       (List.map (fun r => if has_id id r then with_status (JStr s) r else r)
                 (enrollments w)) w).
Proof.
  unfold execute, status_update. cbn [q_filters q_verb q_table q_order q_columns
    q_shape eq update with_verb from Datatypes.app filters_ok forallb snd
    scalar_text negb].
  change (wire_fields [("status", JStr s)]) with [("status", JStr s)].
  cbn [writable forallb fst String.eqb Ascii.eqb Bool.eqb orb negb andb
       returning q_columns rows_of].
  f_equal. f_equal. apply List.map_ext. intros r. now rewrite matches_id.
Qed.

(** C9.  For an admin, PUT /api/enrollments/:id is answered 200 with the
    message "Status updated" whatever the status sent and whatever becomes
    of the update: when the store reports an error the answer is the same
    and no enrollment has changed; with the store up, any string sent as
    status is written, unchecked, to the enrollments with that id. *)
Theorem status_update_unchecked (E : Env) (id : string) (req : Request)
    (w : World) (u : User) :
  resolves E req u ->
  listed E u ->
  let after := snd (app E (PUT_enrollments id) req w) in
  fst (app E (PUT_enrollments id) req w) = Sent status_updated /\
  status status_updated = 200 /\
  content status_updated = Json (message "Status updated") /\
  (forall msg,
     error (fst (await (status_update id (get (body req) "status")) w)) = Some msg ->
     enrollments after = enrollments w /\ errors after = msg :: errors w) /\
  (forall s,
     get (body req) "status" = JStr s ->
     upstream w = None ->
     enrollments after
     = List.map (fun r => if has_id id r then with_status (JStr s) r else r)
                (enrollments w) /\
     forall r, In r (enrollments after) -> has_id id r = true ->
               get (r_cols r) "status" = JStr s).
Proof.
  intros Hres Hl after.
  assert (app E (PUT_enrollments id) req w
          = (Sent status_updated,
             snd (await (status_update id (get (body req) "status")) w))) as Happ.
  { unfold app, stack. cbn [gates handler].
    rewrite (run_auth_admin _ _ _ _ _ Hres).
    apply requireAdmin_listed in Hl. rewrite Hl.
    rewrite run_handler, put_enrollment_run. reflexivity. }
  subst after. rewrite Happ. cbn [fst snd].
  split; [reflexivity|]. split; [reflexivity|]. split; [reflexivity|]. split.
  - intros msg Herr. split.
    + revert Herr. rewrite await_unfold. destruct (upstream w); cbn [fst snd].
      * intros _. now rewrite enrollments_report.
      * unfold execute, status_update. cbn [q_filters q_verb q_table q_order
          q_columns q_shape eq update with_verb from Datatypes.app filters_ok
          forallb snd scalar_text negb].
        destruct (writable _); cbn [negb fst snd returning q_columns error ok failed].
        -- intros H; discriminate H.
        -- intros _. now rewrite enrollments_report.
    + now rewrite errors_await, Herr.
  - intros s Hs Hup. rewrite Hs, await_unfold, Hup, execute_status_update.
    cbn [fst snd]. rewrite enrollments_report. cbn [set_rows enrollments].
    split; [reflexivity|].
    intros r Hin Hid. apply in_map_iff in Hin. destruct Hin as (r0 & Hr & _).
    destruct (has_id id r0) eqn:H0.
    + subst r. apply status_with_status.
    + subst r. congruence.
Qed.

End Verification.

(* ===================================================================== *)
(** * Scenarios *)
(* ===================================================================== *)

(** A small deployment on which the statements above are run: one
    learner, one admin, course 5, and the requests of the scenarios.  Its
    emails and its allowlist are ASCII text, which [lower_ascii] folds as
    the engine does. *)
Module Scenario.

Import JsString JsNumber JsValue Store Express Server Gates StoreFacts.
Import Certificate Enrollment Courses Verification.
Local Open Scope list_scope.

Definition siti : User :=
  {| email := "siti@example.com";
     user_metadata := Some {| full_name := Some "  Siti Rahma " |} |}.

Definition admin : User :=
  {| email := "Admin@KursusKu.id"; user_metadata := None |}.

Definition env : Env :=
  {| getUser := fun token =>
       if String.eqb token "siti-token"
       then {| data_user := Some siti; auth_error := None |}
       else if String.eqb token "admin-token"
       then {| data_user := Some admin; auth_error := None |}
       else {| data_user := None; auth_error := Some "invalid JWT" |};
     ADMIN_EMAILS := Some "owner@kursusku.id, admin@kursusku.ID ";
     toLowerCase := lower_ascii;
     toLowerCase_empty := StringFacts.lower_ascii_empty;
     toLocaleDateString := fun _ => "3 November 2026";
     pdfkit := fun doc =>
       [ list_byte_of_string "%PDF-1.3";
         list_byte_of_string (size doc);
         list_byte_of_string "%%EOF" ] |}.

Definition as_siti (b : list (string * jsval)) : Request :=
  incoming (Some "Bearer siti-token") b.

Definition as_admin (b : list (string * jsval)) : Request :=
  incoming (Some "Bearer admin-token") b.

Definition course5 : row :=
  {| r_id := 5; r_created_at := 1762128000000;
     r_cols := [("title", JStr "Bahasa A1"); ("price", JNum zero)] |}.

Definition enrollment_of_siti (status : string) : row :=
  {| r_id := 6; r_created_at := 1762128060000;
     r_cols := [ ("course_id", JNum (of_Z 5));
                 ("user_email", JStr "siti@example.com");
                 ("status", JStr status) ] |}.

(** Course 5 and nobody enrolled. *)
Definition open_course : World :=
  {| courses := [course5]; enrollments := []; next_id := 6;
     now := 1762128060000; faults := []; errors := [] |}.

(** Course 5 with the learner enrolled in the given status. *)
Definition enrolled_world (status : string) (upstream : list (option string)) : World :=
  {| courses := [course5]; enrollments := [enrollment_of_siti status];
     next_id := 7; now := 1762128120000; faults := upstream; errors := [] |}.

Definition enroll_in_5 : Request := as_siti [("course_id", JNum (of_Z 5))].

Definition create_course (price : jsval) : Request :=
  as_admin [("title", JStr "Bahasa A1"); ("price", price)].

Lemma siti_resolves b : resolves env (as_siti b) siti.
Proof.
  exists "siti-token". split; [split; [reflexivity|discriminate]|].
  split; reflexivity.
Qed.

Lemma admin_resolves b : resolves env (as_admin b) admin.
Proof.
  exists "admin-token". split; [split; [reflexivity|discriminate]|].
  split; reflexivity.
Qed.

Lemma admin_listed : listed env admin.
Proof.
  exists "admin@kursusku.ID". split; [|reflexivity].
  vm_compute. right. left. reflexivity.
Qed.

Lemma siti_not_listed : ~ listed env siti.
Proof.
  intros (entry & Hin & He). vm_compute in Hin.
  destruct Hin as [<-|[<-|[]]]; vm_compute in He; discriminate He.
Qed.

Lemma env_pdfkit_emits : pdfkit_emits env.
Proof. intros doc. cbn. discriminate. Qed.

(** ** C3 on a request without a token *)

Lemma auth_gate_rejects_witness :
  In Auth (gates POST_enroll) /\
  exists res,
    status res = 401 /\
    app env POST_enroll (incoming None []) open_course = (Sent res, open_course) /\
    forall h : middleware,
      run (List.map (gate_middleware env) (gates POST_enroll) ++ [h])
          (incoming None []) open_course = (Sent res, open_course).
Proof.
  split; [simpl; auto|].
  apply (auth_gate_rejects env POST_enroll (incoming None []) open_course).
  - simpl. auto.
  - left. intros t [H _]. discriminate H.
Defined.

(** ** C4 on the admin and on the learner *)


(** ** C1 *)

Lemma certificate_lulus_witness :
  resolves env (as_siti []) siti /\
  pdfkit_emits env /\
  certificate_rule "lulus" env "5" (as_siti []) (enrolled_world "lulus" []) siti.
Proof.
  split; [apply siti_resolves|]. split; [apply env_pdfkit_emits|].
  apply (certificate_lulus env "5" (as_siti []) (enrolled_world "lulus" []) siti).
  - apply siti_resolves.
  - apply env_pdfkit_emits.
Defined.

Example certificate_served :
  fst (app env (GET_certificates "5") (as_siti []) (enrolled_world "lulus" []))
  = Sent (pdf_response (pdfkit env
            (certificate_doc "Siti Rahma" (JStr "Bahasa A1")
                             "3 November 2026" "KK-120000"))).
Proof. reflexivity. Qed.

(** An enrollment in status "passed" does not make eligible: the answer
    is 403, not a PDF. *)
Lemma certificate_passed_counterexample :
  resolves env (as_siti []) siti /\
  pdfkit_emits env /\
  ~ certificate_rule "passed" env "5" (as_siti []) (enrolled_world "passed" []) siti.
Proof.
  split; [apply siti_resolves|]. split; [apply env_pdfkit_emits|].
  intros [_ H].
  destruct H as (res & w' & bytes & Happ & _ & Hc & _).
  - exists (enrollment_of_siti "passed"). split; [|reflexivity].
    split; [now left|]. split; reflexivity.
  - reflexivity.
  - vm_compute in Happ. injection Happ as <- _. discriminate Hc.
Qed.

(** ** C10: the lookup fails upstream although the learner has passed *)

Lemma certificate_lookup_error_witness :
  resolves env (as_siti []) siti /\
  error (fst (await (enrollment_lookup "5" (email siti))
                    (enrolled_world "lulus" [Some "upstream timeout"])))
  = Some "upstream timeout" /\
  fst (app env (GET_certificates "5") (as_siti [])
           (enrolled_world "lulus" [Some "upstream timeout"]))
  = Sent not_eligible.
Proof.
  split; [apply siti_resolves|]. split; [reflexivity|].
  refine (proj1 (certificate_lookup_error env "5" (as_siti [])
           (enrolled_world "lulus" [Some "upstream timeout"]) siti
           "upstream timeout" _ _)).
  - apply siti_resolves.
  - reflexivity.
Defined.

(** ** C2 and C5: the learner enrolls in course 5, twice *)

Definition after_first_enroll : World :=
  snd (app env POST_enroll enroll_in_5 open_course).

Lemma enroll_twice_witness :
  app env POST_enroll enroll_in_5 open_course = (Sent enroll_success, after_first_enroll) /\
  errors after_first_enroll = errors open_course /\
  errors (snd (app env POST_enroll enroll_in_5 after_first_enroll))
  = errors after_first_enroll /\
  fst (app env POST_enroll enroll_in_5 after_first_enroll) = Sent already_enrolled /\
  enrollments (snd (app env POST_enroll enroll_in_5 after_first_enroll))
  = enrollments after_first_enroll.
Proof.
  assert (app env POST_enroll enroll_in_5 open_course
          = (Sent enroll_success, after_first_enroll)) as H1 by reflexivity.
  assert (errors after_first_enroll = errors open_course) as H2 by reflexivity.
  assert (errors (snd (app env POST_enroll enroll_in_5 after_first_enroll))
          = errors after_first_enroll) as H3 by reflexivity.
  split; [exact H1|]. split; [exact H2|]. split; [exact H3|].
  pose proof (enroll_twice env env enroll_in_5 enroll_in_5 siti siti
                open_course after_first_enroll after_first_enroll
                (siti_resolves _) (siti_resolves _) eq_refl eq_refl
                H1 H2 eq_refl H3) as (Ha & _ & _ & Hb).
  split; [exact Ha | exact Hb].
Defined.

Lemma enroll_inserts_terdaftar_witness :
  app env POST_enroll enroll_in_5 open_course = (Sent enroll_success, after_first_enroll) /\
  exists r, enrollments after_first_enroll = enrollments open_course ++ [r] /\
            get (r_cols r) "status" = JStr "terdaftar".
Proof.
  assert (app env POST_enroll enroll_in_5 open_course
          = (Sent enroll_success, after_first_enroll)) as H1 by reflexivity.
  split; [exact H1|].
  exact (enroll_inserts_terdaftar env enroll_in_5 open_course after_first_enroll H1).
Defined.

(** A course identifier sent as the array [[5]] reads [5] in the filter:
    the learner enrolled in course 5 is found. *)
Example enroll_by_array :
  app env POST_enroll (as_siti [("course_id", JArr [JNum (of_Z 5)])])
      (enrolled_world "terdaftar" [])
  = (Sent already_enrolled,
     called (enrolled_world "terdaftar" [])).
Proof. reflexivity. Qed.

(** A course identifier whose text throws: the handler throws before any
    call. *)
Example enroll_without_text :
  app env POST_enroll (as_siti [("course_id", JObj [("toString", JNum (of_Z 1))])])
      open_course
  = (Thrown type_error, open_course).
Proof. reflexivity. Qed.

(** The status inserted is not "registered". *)
Lemma enroll_registered_counterexample :
  ~ inserted_status_rule "registered" env enroll_in_5 open_course.
Proof.
  intros H. destruct (H after_first_enroll eq_refl) as (r & Hrows & Hs).
  vm_compute in Hrows. injection Hrows as <-. vm_compute in Hs. discriminate Hs.
Qed.

(** ** C6 and C7: the admin creates courses *)

Lemma unparsable_price_witness :
  not_a_number (get (body (create_course (JStr "abc"))) "price") /\
  exists r, created env (create_course (JStr "abc")) open_course r /\
            stored_price r = JNum zero.
Proof.
  assert (not_a_number (get (body (create_course (JStr "abc"))) "price")) as Hnan
    by (left; reflexivity).
  split; [exact Hnan|].
  destruct (unparsable_price_stored_as_zero env (create_course (JStr "abc"))
              open_course Hnan) as [Hzero [Hmade _]].
  destruct (Hmade eq_refl admin (admin_resolves _) admin_listed eq_refl) as (r & Hr & _).
  exists r. split; [exact Hr | exact (Hzero r Hr)].
Defined.

(** A price whose conversion throws: the handler throws, nothing is
    stored. *)
Example price_without_text :
  app env POST_courses (create_course (JObj [("toString", JNum (of_Z 1))])) open_course
  = (Thrown type_error, open_course).
Proof. reflexivity. Qed.

Definition course_priced_minus5 : row :=
  {| r_id := 6; r_created_at := 1762128060000;
     r_cols := [ ("title", JStr "Bahasa A1");
                 ("price", JNum (of_Z (-5)));
                 ("image_url", JNull) ] |}.

(** A price of -5 is stored as -5. *)
Lemma negative_price_counterexample :
  ~ price_nonnegative_rule env (create_course (JNum (of_Z (-5)))) open_course
      course_priced_minus5.
Proof.
  intros H. destruct (H eq_refl) as (n & Hn & _ & Hneg).
  vm_compute in Hn. injection Hn as <-. discriminate Hneg.
Qed.

Lemma stored_price_of_created_witness :
  created env (create_course (JNum (of_Z (-5)))) open_course course_priced_minus5 /\
  stored_price course_priced_minus5 = JNum (of_Z (-5)).
Proof.
  assert (created env (create_course (JNum (of_Z (-5)))) open_course
            course_priced_minus5) as Hc by reflexivity.
  split; [exact Hc|].
  destruct (stored_price_of_created env (create_course (JNum (of_Z (-5))))
              open_course course_priced_minus5 Hc) as (n & Hn & _ & _ & Hneg).
  vm_compute in Hn. injection Hn as <-.
  exact (Hneg eq_refl eq_refl).
Defined.

(** ** C8: two courses, listed newest first *)

Definition course3 : row :=
  {| r_id := 3; r_created_at := 1762041600000;
     r_cols := [("title", JStr "Bahasa A0")] |}.

Example listing_newest_first :
  fst (app env GET_courses (incoming None [])
         {| courses := [course3; course5]; enrollments := []; next_id := 6;
            now := 1762128060000; faults := []; errors := [] |})
  = Sent (json (JArr [course_json course5; course_json course3])).
Proof. reflexivity. Qed.

(** ** C9: the admin sets a status nobody checks, the store being down *)

Lemma status_update_unchecked_witness :
  resolves env (as_admin [("status", JStr "???")]) admin /\
  listed env admin /\
  fst (app env (PUT_enrollments "6") (as_admin [("status", JStr "???")])
           (enrolled_world "terdaftar" [Some "upstream timeout"]))
  = Sent status_updated /\
  enrollments (snd (app env (PUT_enrollments "6") (as_admin [("status", JStr "???")])
                        (enrolled_world "terdaftar" [Some "upstream timeout"])))
  = enrollments (enrolled_world "terdaftar" [Some "upstream timeout"]).
Proof.
  split; [apply admin_resolves|]. split; [apply admin_listed|].
  pose proof (status_update_unchecked env "6" (as_admin [("status", JStr "???")])
                (enrolled_world "terdaftar" [Some "upstream timeout"]) admin
                (admin_resolves _) admin_listed) as H.
  cbv zeta in H. destruct H as (Ha & _ & _ & Hfail & _).
  split; [exact Ha|].
  exact (proj1 (Hfail "upstream timeout" eq_refl)).
Defined.

End Scenario.

(* ===================================================================== *)
(** * More on the gates *)
(* ===================================================================== *)

Module Tokens.

Import JsString JsValue Store Express Server StringFacts Gates.

(** X1.  [getBearerToken] returns the token [t] exactly when the
    authorization header is the text "Bearer " followed by [t]; for any
    other header, or none, it returns null.  The prefix is matched as
    written, capital B and one space. *)
Theorem bearer_token_round_trip (req : Request) (t : string) :
  getBearerToken req = Some t <-> authorization req = Some ("Bearer " ++ t).
Proof.
  unfold getBearerToken. split.
  - destruct (authorization req) as [h|]; cbn [negb].
    + unfold startsWith. destruct (starts "Bearer " h) eqn:Hs; cbn [negb];
        [|intros H; discriminate H].
      intros H. injection H as <-. f_equal. exact (starts_app _ _ Hs).
    + intros H; discriminate H.
  - intros ->. reflexivity.
Qed.

(** X2.  The auth gate lets a request through only when it carries a
    token, not empty, that the identity service resolves without error to
    a user; the request handed on is the same request with exactly that
    user attached, and the world is left as it was. *)
Theorem auth_gate_admits (E : Env) (req req' : Request) (w w' : World) :
  requireAuth E req w = (Next req', w') ->
  w' = w /\ exists u, resolves E req u /\ req' = authed req u.
Proof.
  unfold requireAuth.
  destruct (getBearerToken req) as [[|c t]|] eqn:Ht;
    try (intros H; discriminate H).
  destruct (auth_error (getUser E (String c t))) eqn:He;
    try (intros H; discriminate H).
  destruct (data_user (getUser E (String c t))) as [u|] eqn:Hu;
    try (intros H; discriminate H).
  intros H. injection H as <- <-. split; [reflexivity|].
  exists u. split; [|reflexivity].
  exists (String c t). split; [split|split]; try assumption.
  - unfold getBearerToken in Ht.
    destruct (authorization req) as [h|]; [|discriminate Ht].
    unfold startsWith in Ht.
    destruct (starts "Bearer " h) eqn:Hs; [|discriminate Ht].
    cbn [negb] in Ht. injection Ht as Ht. rewrite <- Ht. f_equal.
    exact (starts_app _ _ Hs).
  - discriminate.
Qed.

(** X3.  When ADMIN_EMAILS is unset or empty the allowlist is the single
    empty entry: the admin gate answers 403 to every principal whose email
    is not empty, and lets through a principal whose email is empty. *)
Theorem admin_gate_unconfigured (E : Env) (req : Request) (u : User) (w : World) :
  admin_config E = "" ->
  requireAdmin E (authed req u) w
  = (if String.eqb (email u) ""
     then Next (authed req u)
     else Send (status_json 403 (message "Admin only")), w).
Proof.
  intros Hc. unfold requireAdmin. cbn [user authed].
  assert (admins E = [""]) as ->.
  { unfold admins. fold (admin_config E). rewrite Hc.
    change (List.map (fun e => toLowerCase E (trim e)) (split "," ""))
      with [toLowerCase E ""].
    now rewrite (proj2 (toLowerCase_empty E "") eq_refl). }
  unfold includes. cbn [existsb]. rewrite orb_false_r.
  destruct (String.eqb (email u) "") eqn:He.
  - apply String.eqb_eq in He. rewrite He.
    now rewrite (proj2 (toLowerCase_empty E "") eq_refl).
  - assert (String.eqb (toLowerCase E (email u)) "" = false) as ->; [|reflexivity].
    apply String.eqb_neq. intros H. apply (proj1 (toLowerCase_empty E _)) in H.
    rewrite H in He. discriminate He.
Qed.

End Tokens.

(* ===================================================================== *)
(** * More on the course routes *)
(* ===================================================================== *)

Module CourseAdmin.

Import JsString JsNumber JsValue Store Express Server Gates StoreFacts.
Import Courses Verification.
Local Open Scope list_scope.

(** A route behind both gates, called by an admin. *)
Lemma admin_passes E r req u w :
  In Admin (gates r) -> resolves E req u -> listed E u ->
  app E r req w
  = (reply_of (fst (handler E r (authed req u) w)),
     snd (handler E r (authed req u) w)).
Proof.
  intros Hin Hres Hl. unfold app, stack. rewrite (gates_admin _ Hin).
  rewrite (run_auth_admin _ _ _ _ _ Hres).
  apply requireAdmin_listed in Hl. rewrite Hl. apply run_handler.
Qed.

(** A route behind the auth gate alone. *)
Lemma auth_passes E r req u w :
  gates r = [Auth] -> resolves E req u ->
  app E r req w
  = (reply_of (fst (handler E r (authed req u) w)),
     snd (handler E r (authed req u) w)).
Proof.
  intros Hg Hres. unfold app, stack. rewrite Hg.
  rewrite (run_auth _ _ _ _ _ Hres). apply run_handler.
Qed.

Lemma public_passes E r req w :
  gates r = [] ->
  app E r req w
  = (reply_of (fst (handler E r req w)), snd (handler E r req w)).
Proof.
  intros Hg. unfold app, stack. rewrite Hg. apply run_handler.
Qed.

Lemma await_upstream_failure q w msg :
  upstream w = Some msg -> await q w = (failed msg, report (failed msg) (called w)).
Proof. intros H. now rewrite await_unfold, H. Qed.

(** The routes whose handler makes one call and tests its error. *)
Definition reports_failure (r : route) : bool :=
  match r with
  | GET_courses | POST_courses | PUT_courses _ | DELETE_courses _
  | GET_my_enrollments => true
  | _ => false
  end.

Lemma handler_upstream_failure E r req w msg :
  reports_failure r = true ->
  (r = GET_my_enrollments -> user req <> None) ->
  (r = POST_courses -> raises (get (body req) "price") = false) ->
  upstream w = Some msg ->
  handler E r req w
  = (Send (status_json 500 (message msg)), report (failed msg) (called w)).
Proof.
  intros Hr Hu Hp Hup. destruct r; try discriminate Hr; cbn [handler].
  - unfold get_courses, bind. now rewrite (await_upstream_failure _ _ _ Hup).
  - unfold post_courses, bind. rewrite coerce_price_value, (Hp eq_refl).
    now rewrite (await_upstream_failure _ _ _ Hup).
  - unfold put_course, bind. now rewrite (await_upstream_failure _ _ _ Hup).
  - unfold delete_course, bind. now rewrite (await_upstream_failure _ _ _ Hup).
  - unfold get_my_enrollments, bind.
    destruct (user req) as [u|]; [|now exfalso; apply Hu].
    now rewrite (await_upstream_failure _ _ _ Hup).
Qed.

Local Ltac side :=
  first [assumption | intros H; discriminate H | intros _; discriminate].

(** X4.  On the routes that test the error of their call (list, create,
    update and delete courses, my-enrollments), an upstream failure of the
    call is answered 500 with the message of the store, unchanged; no
    table changes, and the error is journalled.  The creation of a course
    makes its call when [Number(price)] does not throw. *)
Theorem upstream_failure_answered_500 (E : Env) (r : route) (req : Request)
    (w : World) (u : User) (msg : string) :
  reports_failure r = true ->
  (gates r <> [] -> resolves E req u) ->
  (In Admin (gates r) -> listed E u) ->
  (r = POST_courses -> raises (get (body req) "price") = false) ->
  upstream w = Some msg ->
  let after := snd (app E r req w) in
  fst (app E r req w) = Sent (status_json 500 (message msg)) /\
  courses after = courses w /\
  enrollments after = enrollments w /\
  errors after = msg :: errors w.
Proof.
  intros Hr Hres Hl Hp Hup after.
  assert (app E r req w
          = (Sent (status_json 500 (message msg)), report (failed msg) (called w))) as Happ.
  { destruct r; try discriminate Hr.
    - rewrite public_passes by reflexivity.
      now rewrite (handler_upstream_failure _ _ _ _ msg Hr) by side.
    - rewrite (admin_passes _ _ _ u); [|simpl; auto|apply Hres; simpl; intros H; discriminate H|apply Hl; simpl; auto].
      now rewrite (handler_upstream_failure _ _ _ _ msg Hr) by side.
    - rewrite (admin_passes _ _ _ u); [|simpl; auto|apply Hres; simpl; intros H; discriminate H|apply Hl; simpl; auto].
      now rewrite (handler_upstream_failure _ _ _ _ msg Hr) by side.
    - rewrite (admin_passes _ _ _ u); [|simpl; auto|apply Hres; simpl; intros H; discriminate H|apply Hl; simpl; auto].
      now rewrite (handler_upstream_failure _ _ _ _ msg Hr) by side.
    - rewrite (auth_passes _ _ _ u); [|reflexivity|apply Hres; simpl; intros H; discriminate H].
      now rewrite (handler_upstream_failure _ _ _ _ msg Hr)
        by side. }
  subst after. rewrite Happ. cbn [fst snd].
  split; [reflexivity|]. rewrite courses_report, enrollments_report, errors_report.
  repeat split; reflexivity.
Qed.

(** ** Create, then list *)

Lemma in_sorted key l r : In r (sort (before key) l) <-> In r l.
Proof.
  split; intros H.
  - exact (Permutation_in _ (sort_perm key l) H).
  - exact (Permutation_in _ (Permutation_sym (sort_perm key l)) H).
Qed.

Lemma length_sorted key l : List.length (sort (before key) l) = List.length l.
Proof. exact (Permutation_length (sort_perm key l)). Qed.

Lemma app_listing E req w :
  upstream w = None ->
  fst (app E GET_courses req w)
  = Sent (json (JArr (List.map course_json (newest_first w)))).
Proof.
  intros Hup. rewrite public_passes by reflexivity. cbn [fst handler].
  unfold get_courses, bind. fold listing. rewrite await_unfold, Hup.
  now rewrite execute_listing.
Qed.

(** X5.  For an admin, with the store up, POST /api/courses accepts
    every body whose price [Number] converts without throwing: the record
    is added at the end of the table under the next id of the store and
    returned with status 200; a listing made afterwards, the store still
    up, contains it, among one course more than before. *)
Theorem create_then_list (E : Env) (req req' : Request) (w : World) (u : User) :
  resolves E req u ->
  listed E u ->
  raises (get (body req) "price") = false ->
  upstream w = None ->
  let after := snd (app E POST_courses req w) in
  let r := written (course_record (body req)) w in
  r_id r = next_id w /\
  fst (app E POST_courses req w) = Sent (json (course_json r)) /\
  courses after = courses w ++ [r] /\
  next_id after = next_id w + 1 /\
  (upstream after = None ->
   exists rows,
     fst (app E GET_courses req' after) = Sent (json (JArr (List.map course_json rows))) /\
     In r rows /\
     List.length rows = S (List.length (courses w))).
Proof.
  intros Hres Hl Hraise Hup after r.
  assert (app E POST_courses req w
          = (Sent (json (course_json r)),
             bump_id (set_rows Courses (courses w ++ [r]) (called w)))) as Happ.
  { rewrite (admin_passes _ _ _ u) by (simpl; auto || assumption).
    cbn [handler]. rewrite post_courses_run, Hraise, await_creation, Hup. reflexivity. }
  subst after. rewrite Happ. cbn [fst snd].
  split; [reflexivity|]. split; [reflexivity|]. split; [reflexivity|].
  split; [reflexivity|]. intros Hup'.
  eexists. split; [apply (app_listing E req' _ Hup')|].
  unfold newest_first. cbn [courses bump_id set_rows].
  rewrite in_sorted, length_sorted, length_app, in_app_iff. cbn. split; [auto|lia].
Qed.

(** ** Update and delete *)

Definition course_update (id : string) (b : list (string * jsval)) : query :=
  eq "id" (JStr id) (update b (from Courses)).

Definition course_removal (id : string) : query :=
  eq "id" (JStr id) (delete (from Courses)).

Lemma put_course_run id req w :
  put_course id req w
  = match error (fst (await (course_update id (body req)) w)) with
    | Some msg => (Send (status_json 500 (message msg)),
                   snd (await (course_update id (body req)) w))
    | None => (Send (json (message "Updated")),
               snd (await (course_update id (body req)) w))
    end.
Proof.
  unfold put_course, bind. fold (course_update id (body req)).
  destruct (await _ w) as [r w']. cbn [fst snd]. now destruct (error r).
Qed.

Lemma delete_course_run id req w :
  delete_course id req w
  = match error (fst (await (course_removal id) w)) with
    | Some msg => (Send (status_json 500 (message msg)),
                   snd (await (course_removal id) w))
    | None => (Send (json (message "Deleted")), snd (await (course_removal id) w))
    end.
Proof.
  unfold delete_course, bind. fold (course_removal id).
  destruct (await _ w) as [r w']. cbn [fst snd]. now destruct (error r).
Qed.

Lemma execute_course_update id b w :
  writable (wire_fields b) = true ->
  execute (course_update id b) w
  = (ok JNull,
     set_rows Courses
       (List.map (fun r => if has_id id r then patched (wire_fields b) r else r)
                 (courses w)) w).
Proof.
  intros Hw. unfold execute, course_update. cbn [q_filters q_verb q_table q_order
    q_columns q_shape eq update with_verb from Datatypes.app filters_ok forallb
    snd scalar_text negb andb].
  rewrite Hw. cbn [negb returning q_columns rows_of].
  f_equal. f_equal. apply List.map_ext. intros r. now rewrite matches_id.
Qed.

Lemma execute_course_removal id w :
  execute (course_removal id) w
  = (ok JNull,
     set_rows Courses (filter (fun r => negb (has_id id r)) (courses w)) w).
Proof.
  unfold execute, course_removal. cbn [q_filters q_verb q_table q_order
    q_columns q_shape eq delete with_verb from Datatypes.app filters_ok forallb
    snd scalar_text negb andb returning rows_of].
  f_equal. f_equal. apply filter_ext. intros r. now rewrite matches_id.
Qed.

Lemma get_set_col_other cols k k' v :
  String.eqb k' k = false -> get (set_col cols k' v) k = get cols k.
Proof.
  intros Hk. induction cols as [|[k0 v0] cols IH]; cbn [set_col get].
  - now rewrite Hk.
  - destruct (String.eqb k0 k') eqn:H0; cbn [get].
    + apply String.eqb_eq in H0. subst k0. now rewrite Hk.
    + now rewrite IH.
Qed.

Definition lay (cols : list (string * jsval)) (kv : string * jsval) :=
  set_col cols (fst kv) (snd kv).

Lemma get_fold_other p cols k :
  ~ In k (List.map fst p) -> get (fold_left lay p cols) k = get cols k.
Proof.
  revert cols. induction p as [|[k' v'] p IH]; intros cols Hn; [reflexivity|].
  cbn [fold_left]. rewrite IH by (intros H; apply Hn; now right).
  unfold lay. cbn [fst snd]. apply get_set_col_other.
  apply String.eqb_neq. intros ->. apply Hn. now left.
Qed.

(** A patch with distinct keys leaves each of its values under its key. *)
Lemma get_patched p r k v :
  NoDup (List.map fst p) -> In (k, v) p -> get (r_cols (patched p r)) k = v.
Proof.
  unfold patched. cbn [r_cols]. fold lay. generalize (r_cols r) as cols.
  induction p as [|[k' v'] p IH]; intros cols Hnd Hin; [destruct Hin|].
  cbn [List.map fst] in Hnd. inversion Hnd as [|? ? Hk' Hnd']; subst.
  cbn [fold_left]. destruct Hin as [Heq|Hin].
  - injection Heq as -> ->. rewrite get_fold_other by assumption.
    unfold lay. cbn [fst snd]. apply get_set_col.
  - now apply IH.
Qed.

Lemma wire_fields_keys b k :
  In k (List.map fst (wire_fields b)) -> In k (List.map fst b).
Proof.
  induction b as [|[k' v] b IH]; [intros H; exact H|].
  rewrite wire_fields_cons. cbn [List.map fst]. intros H. cbn.
  destruct v; try (destruct H as [H|H]; [now left | right; now apply IH]).
  right. now apply IH.
Qed.

Lemma wire_fields_nodup b :
  NoDup (List.map fst b) -> NoDup (List.map fst (wire_fields b)).
Proof.
  induction b as [|[k v] b IH]; intros H; [exact H|].
  cbn [List.map fst] in H. inversion H as [|? ? Hk Hb]; subst.
  rewrite wire_fields_cons.
  assert (NoDup (k :: List.map fst (wire_fields b))) as Hc.
  { constructor; [|now apply IH]. intros Hin. apply Hk.
    now apply wire_fields_keys. }
  destruct v; try exact Hc. now apply IH.
Qed.

Lemma wire_fields_in b k v :
  In (k, v) b -> v <> JUndefined -> In (k, wire v) (wire_fields b).
Proof.
  induction b as [|[k' v'] b IH]; intros Hin Hv; [destruct Hin|].
  rewrite wire_fields_cons. destruct Hin as [Heq|Hin].
  - injection Heq as -> ->. destruct v; try (now left). now contradiction Hv.
  - destruct v'; try (right; now apply IH). now apply IH.
Qed.

(** X6.  For an admin, with the store up, PUT /api/courses/:id lays the
    body as it is over the courses with that id and over no other: the
    answer is 200 "Updated", also when no course has that id and nothing
    changes; the table keeps its length and order; a course with another
    id is unchanged; and, the keys of the body being distinct,
    a course with that id reads under each key the value sent, [price]
    included, which is not coerced here.  The body must not name the
    columns the store assigns. *)
Theorem update_course_passes_through (E : Env) (id : string) (req : Request)
    (w : World) (u : User) :
  resolves E req u ->
  listed E u ->
  upstream w = None ->
  writable (wire_fields (body req)) = true ->
  let after := snd (app E (PUT_courses id) req w) in
  fst (app E (PUT_courses id) req w) = Sent (json (message "Updated")) /\
  courses after
  = List.map (fun r => if has_id id r then patched (wire_fields (body req)) r else r)
             (courses w) /\
  (forall r, In r (courses w) -> has_id id r = false -> In r (courses after)) /\
  ((forall r, In r (courses w) -> has_id id r = false) -> courses after = courses w) /\
  (NoDup (List.map fst (body req)) ->
   forall k v r, In (k, v) (body req) -> v <> JUndefined ->
                 In r (courses after) -> has_id id r = true ->
                 get (r_cols r) k = wire v).
Proof.
  intros Hres Hl Hup Hw after.
  assert (app E (PUT_courses id) req w
          = (Sent (json (message "Updated")),
             set_rows Courses
               (List.map (fun r => if has_id id r then patched (wire_fields (body req)) r else r)
                         (courses w)) (called w))) as Happ.
  { rewrite (admin_passes _ _ _ u) by (simpl; auto || assumption).
    cbn [handler]. rewrite put_course_run. cbn [body authed].
    rewrite await_unfold, Hup, (execute_course_update _ _ _ Hw). reflexivity. }
  subst after. rewrite Happ. cbn [fst snd set_rows courses].
  split; [reflexivity|]. split; [reflexivity|]. split; [|split].
  - intros r Hin Hid. apply in_map_iff. exists r. now rewrite Hid.
  - intros Hnone. rewrite <- (List.map_id (courses w)) at 2.
    apply List.map_ext_in. intros r Hr. now rewrite (Hnone r Hr).
  - intros Hnd k v r Hin Hv Hr Hid. apply in_map_iff in Hr.
    destruct Hr as (r0 & Hr0 & _). destruct (has_id id r0) eqn:H0.
    + subst r. apply get_patched.
      * now apply wire_fields_nodup.
      * now apply wire_fields_in.
    + subst r. congruence.
Qed.

(** X7.  For an admin, with the store up, DELETE /api/courses/:id is
    answered 200 "Deleted" and removes the courses with that id and no
    other: afterwards a course is in the table exactly when it was there
    and has another id.  When no course has that id the table is unchanged
    and the answer is the same 200. *)
Theorem delete_course_removes (E : Env) (id : string) (req : Request)
    (w : World) (u : User) :
  resolves E req u ->
  listed E u ->
  upstream w = None ->
  let after := snd (app E (DELETE_courses id) req w) in
  fst (app E (DELETE_courses id) req w) = Sent (json (message "Deleted")) /\
  (forall r, In r (courses after) <-> In r (courses w) /\ has_id id r = false) /\
  ((forall r, In r (courses w) -> has_id id r = false) -> courses after = courses w).
Proof.
  intros Hres Hl Hup after.
  assert (app E (DELETE_courses id) req w
          = (Sent (json (message "Deleted")),
             set_rows Courses (filter (fun r => negb (has_id id r)) (courses w))
                      (called w))) as Happ.
  { rewrite (admin_passes _ _ _ u) by (simpl; auto || assumption).
    cbn [handler]. rewrite delete_course_run.
    rewrite await_unfold, Hup, execute_course_removal. reflexivity. }
  subst after. rewrite Happ. cbn [fst snd set_rows courses].
  split; [reflexivity|]. split.
  - intros r. rewrite filter_In, negb_true_iff. reflexivity.
  - intros Hnone. apply forallb_filter_id. apply forallb_forall.
    intros r Hr. now rewrite (Hnone r Hr).
Qed.

End CourseAdmin.

(* ===================================================================== *)
(** * Who can change what *)
(* ===================================================================== *)

Module Access.

Import JsString JsNumber JsValue Store Express Server Gates StoreFacts.
Import Certificate Enrollment Courses Verification CourseAdmin.
Local Open Scope list_scope.

(** ** What a call changes *)

Lemma rows_set_rows_other t t' l w :
  t <> t' -> rows_of t (set_rows t' l w) = rows_of t w.
Proof. destruct t, t'; intros H; try reflexivity; now contradiction H. Qed.

Lemma rows_report t r w : rows_of t (report r w) = rows_of t w.
Proof. unfold report. now destruct (error r), t. Qed.

(** A query leaves the other table alone. *)
Lemma rows_execute_other t q w :
  t <> q_table q -> rows_of t (snd (execute q w)) = rows_of t w.
Proof.
  intros Ht. unfold execute.
  destruct (filters_ok (q_filters q)); cbn [negb]; [|reflexivity].
  destruct (q_verb q); cbn [snd]; try reflexivity.
  - destruct t, (q_table q); try reflexivity; now contradiction Ht.
  - destruct (writable (wire_fields patch)); cbn [negb snd]; [|reflexivity].
    now apply rows_set_rows_other.
  - now apply rows_set_rows_other.
Qed.

(** A select leaves both tables alone, and the next id. *)
Lemma rows_execute_select t q w :
  q_verb q = Select -> rows_of t (snd (execute q w)) = rows_of t w.
Proof.
  intros Hv. unfold execute. rewrite Hv.
  now destruct (filters_ok (q_filters q)).
Qed.

Lemma next_id_execute_select q w :
  q_verb q = Select -> next_id (snd (execute q w)) = next_id w.
Proof.
  intros Hv. unfold execute. rewrite Hv.
  now destruct (filters_ok (q_filters q)).
Qed.

Lemma rows_await_other t q w :
  t <> q_table q -> rows_of t (snd (await q w)) = rows_of t w.
Proof.
  intros Ht. rewrite await_unfold. destruct (upstream w); cbn [snd];
    rewrite rows_report; [now destruct t|].
  rewrite (rows_execute_other _ _ _ Ht). now destruct t.
Qed.

Lemma rows_await_select t q w :
  q_verb q = Select -> rows_of t (snd (await q w)) = rows_of t w.
Proof.
  intros Hv. rewrite await_unfold. destruct (upstream w); cbn [snd];
    rewrite rows_report; [now destruct t|].
  rewrite (rows_execute_select _ _ _ Hv). now destruct t.
Qed.

Lemma next_id_await_select q w :
  q_verb q = Select -> next_id (snd (await q w)) = next_id w.
Proof.
  intros Hv. rewrite await_unfold. destruct (upstream w); cbn [snd];
    unfold report.
  - now destruct (error _).
  - destruct (error _); cbn [next_id]; now rewrite (next_id_execute_select _ _ Hv).
Qed.

(** ** The world a handler leaves *)

(** The one call of a handler that makes one; the existence check for
    [POST /api/enroll], which may make a second. *)
Definition first_call (E : Env) (r : route) (req : Request) : option query :=
  match r with
  | GET_root => None
  | GET_courses => Some listing
  | POST_courses =>
      if raises (get (body req) "price") then None else Some (creation (body req))
  | PUT_courses id => Some (course_update id (body req))
  | DELETE_courses id => Some (course_removal id)
  | POST_enroll =>
      option_map (fun u => existing_enrollment (get (body req) "course_id") (email u))
                 (user req)
  | GET_my_enrollments =>
      option_map (fun u =>
        eq "user_email" (JStr (email u))
          (select [Col "course_id"; Col "status"; Embed "courses" ["title"]]
                  (from Enrollments))) (user req)
  | GET_enrollments =>
      Some (select [Col "id"; Col "user_email"; Col "status";
                    Embed "courses" ["title"]] (from Enrollments))
  | PUT_enrollments id => Some (status_update id (get (body req) "status"))
  | GET_certificates courseId =>
      option_map (fun u => enrollment_lookup courseId (email u)) (user req)
  end.

(** Every handler but that of [POST /api/enroll] leaves the world its
    one call leaves, or the world it found when it makes none. *)
Lemma handler_world E r req w :
  r <> POST_enroll ->
  snd (handler E r req w)
  = match first_call E r req with
    | Some q => snd (await q w)
    | None => w
    end.
Proof.
  intros Hr. destruct r; cbn [handler first_call]; try now contradiction Hr.
  - reflexivity.
  - unfold get_courses, bind. fold listing.
    destruct (await listing w) as [x w']. cbn [snd]. now destruct (error x).
  - unfold post_courses. rewrite coerce_price_value.
    destruct (raises _); [reflexivity|].
    unfold bind. fold (course_record (body req)).
    fold (creation (body req)).
    destruct (await _ w) as [x w']. cbn [snd]. now destruct (error x).
  - rewrite put_course_run. now destruct (error _).
  - rewrite delete_course_run. now destruct (error _).
  - unfold get_my_enrollments. destruct (user req) as [u|]; [|reflexivity].
    cbn [option_map]. unfold bind.
    destruct (await _ w) as [x w']. cbn [snd]. destruct (error x); [reflexivity|].
    now destruct (array_map _ _).
  - unfold get_enrollments, bind.
    destruct (await _ w) as [x w']. cbn [snd]. now destruct (array_map _ _).
  - now rewrite put_enrollment_run.
  - unfold get_certificate. destruct (user req) as [u|]; [|reflexivity].
    cbn [option_map]. unfold bind.
    destruct (await _ w) as [x w']. cbn [snd].
    destruct (_ || _ || _)%bool; reflexivity.
Qed.

(** The routes that only read. *)
Definition reads_only (r : route) : bool :=
  match r with
  | GET_root | GET_courses | GET_my_enrollments | GET_enrollments
  | GET_certificates _ => true
  | _ => false
  end.

Lemma first_call_of_reader E r req q :
  reads_only r = true -> first_call E r req = Some q -> q_verb q = Select.
Proof.
  destruct r; intros Hr Hq; try discriminate Hr; cbn [first_call] in Hq;
    try (destruct (user req); cbn [option_map] in Hq);
    try discriminate Hq; injection Hq as <-; reflexivity.
Qed.

(** How a request gets past the gates of its route, if it does. *)
Lemma requireAuth_resolved E req w :
  (exists res, requireAuth E req w = (Send res, w)) \/
  (exists u, resolves E req u /\ requireAuth E req w = (Next (authed req u), w)).
Proof.
  unfold requireAuth. destruct (getBearerToken req) as [[|c t]|] eqn:Ht.
  - left. eexists. reflexivity.
  - destruct (auth_error (getUser E (String c t))) eqn:He.
    + left. eexists. reflexivity.
    + destruct (data_user (getUser E (String c t))) as [u|] eqn:Hu.
      * right. exists u. split; [|reflexivity].
        exists (String c t). split; [split|split]; try assumption.
        -- unfold getBearerToken in Ht.
           destruct (authorization req) as [h|]; [|discriminate Ht].
           unfold startsWith in Ht.
           destruct (starts "Bearer " h) eqn:Hs; [|discriminate Ht].
           cbn [negb] in Ht. injection Ht as Ht. rewrite <- Ht. f_equal.
           exact (starts_app _ _ Hs).
        -- discriminate.
      * left. eexists. reflexivity.
  - left. eexists. reflexivity.
Qed.

Lemma app_cases E r req w :
  (exists res, app E r req w = (Sent res, w)) \/
  (gates r = [] /\
   app E r req w = (reply_of (fst (handler E r req w)), snd (handler E r req w))) \/
  (exists u,
     gates r <> [] /\ resolves E req u /\ (In Admin (gates r) -> listed E u) /\
     app E r req w
     = (reply_of (fst (handler E r (authed req u) w)),
        snd (handler E r (authed req u) w))).
Proof.
  destruct (gates r) as [|g gs] eqn:Hg.
  - right. left. split; [reflexivity|]. now apply public_passes.
  - destruct (requireAuth_resolved E req w) as [(res & Hr) | (u & Hres & Hr)].
    + left. exists res. unfold app, stack. rewrite Hg.
      assert (g = Auth) as -> by (destruct r; cbn in Hg; congruence).
      cbn [List.map Datatypes.app gate_middleware run]. unfold bind at 1.
      now rewrite Hr.
    + destruct (In_dec (fun a b : gate => ltac:(decide equality) : {a = b} + {a <> b})
                       Admin (g :: gs)) as [Hin|Hnot].
      * rewrite <- Hg in Hin.
        destruct (includes (admins E) (toLowerCase E (email u))) eqn:Hi.
        -- right. right. exists u. split; [discriminate|]. split; [assumption|].
           apply requireAdmin_listed in Hi. split; [auto|].
           now apply admin_passes.
        -- left. eexists. unfold app, stack. rewrite (gates_admin _ Hin).
           rewrite (run_auth_admin _ _ _ _ _ Hres), Hi. reflexivity.
      * right. right. exists u. split; [discriminate|]. split; [assumption|].
        split; [intros Hin; contradiction|].
        apply auth_passes; [|assumption].
        destruct r; cbn in Hg, Hnot |- *; try discriminate Hg; try reflexivity;
          injection Hg as <- <-; exfalso; apply Hnot; cbn; auto.
Qed.

(** X8.  The routes that only read (health, list courses,
    my-enrollments, admin list, certificate) change neither table nor the
    next id, whoever calls them and whatever the store does. *)
Theorem readers_change_nothing (E : Env) (r : route) (req : Request) (w : World) :
  reads_only r = true ->
  let after := snd (app E r req w) in
  courses after = courses w /\
  enrollments after = enrollments w /\
  next_id after = next_id w.
Proof.
  intros Hr after.
  assert (forall rq, courses (snd (handler E r rq w)) = courses w /\
                     enrollments (snd (handler E r rq w)) = enrollments w /\
                     next_id (snd (handler E r rq w)) = next_id w) as Hh.
  { intros rq. rewrite handler_world by (intros ->; discriminate Hr).
    destruct (first_call E r rq) as [q|] eqn:Hq; [|repeat split].
    pose proof (first_call_of_reader _ _ _ _ Hr Hq) as Hv.
    split; [exact (rows_await_select Courses q w Hv)|].
    split; [exact (rows_await_select Enrollments q w Hv)|].
    exact (next_id_await_select q w Hv). }
  subst after.
  destruct (app_cases E r req w) as [(res & ->) | [(_ & ->) | (u & _ & _ & _ & ->)]];
    cbn [snd]; [repeat split | apply Hh | apply Hh].
Qed.

(** ** Writers *)

Lemma first_call_table E r req q :
  first_call E r req = Some q ->
  q_table q = match r with
              | GET_courses | POST_courses | PUT_courses _ | DELETE_courses _ => Courses
              | _ => Enrollments
              end.
Proof.
  destruct r; cbn [first_call]; intros Hq;
    try (destruct (user req); cbn [option_map] in Hq);
    try (destruct (raises _));
    try discriminate Hq; injection Hq as <-; reflexivity.
Qed.

Lemma post_enroll_courses req u w :
  courses (snd (post_enroll (authed req u) w)) = courses w.
Proof.
  rewrite post_enroll_run. cbv zeta.
  assert (forall q w0, q_table q = Enrollments ->
            courses (snd (await q w0)) = courses w0) as Hc.
  { intros q w0 Hq. apply (rows_await_other Courses). rewrite Hq. discriminate. }
  destruct (raises _); [reflexivity|].
  destruct (ToBoolean _); cbn [snd]; [now apply Hc|].
  destruct (error _); cbn [snd]; rewrite Hc by reflexivity; now apply Hc.
Qed.

(** The handlers behind the auth gate alone never touch the courses. *)
Lemma learner_handler_courses E r req u w :
  gates r = [Auth] -> courses (snd (handler E r (authed req u) w)) = courses w.
Proof.
  intros Hg. destruct r; try discriminate Hg.
  - apply post_enroll_courses.
  - rewrite handler_world by discriminate. cbn [first_call user authed option_map].
    now apply (rows_await_select Courses).
  - rewrite handler_world by discriminate. cbn [first_call user authed option_map].
    now apply (rows_await_select Courses).
Qed.

(** The public handlers change neither table. *)
Lemma public_handler_tables E r req w :
  gates r = [] ->
  courses (snd (handler E r req w)) = courses w /\
  enrollments (snd (handler E r req w)) = enrollments w.
Proof.
  intros Hg.
  assert (reads_only r = true) as Hr by (destruct r; try discriminate Hg; reflexivity).
  rewrite handler_world by (intros ->; discriminate Hr).
  destruct (first_call E r req) as [q|] eqn:Hq; [|now split].
  pose proof (first_call_of_reader _ _ _ _ Hr Hq) as Hv.
  split; [exact (rows_await_select Courses q w Hv)
         | exact (rows_await_select Enrollments q w Hv)].
Qed.

Lemma gates_shape r :
  gates r = [] \/ gates r = [Auth] \/ gates r = [Auth; Admin].
Proof. destruct r; cbn; auto. Qed.

(** X9.  Only an admin changes the courses: whenever a request leaves
    the courses table different from what it found, the route is
    admin-only and the request carries a token resolved to a principal on
    the allowlist. *)
Theorem only_admins_change_courses (E : Env) (r : route) (req : Request) (w : World) :
  courses (snd (app E r req w)) <> courses w ->
  In Admin (gates r) /\ exists u, resolves E req u /\ listed E u.
Proof.
  intros Hch.
  destruct (app_cases E r req w) as [(res & Ha) | [(Hg & Ha) | (u & Hne & Hres & Hl & Ha)]];
    rewrite Ha in Hch; cbn [snd] in Hch.
  - now contradiction Hch.
  - exfalso. apply Hch. now apply public_handler_tables.
  - destruct (gates_shape r) as [Hg | [Hg | Hg]].
    + now contradiction Hne.
    + exfalso. apply Hch. now apply learner_handler_courses.
    + assert (In Admin (gates r)) as Hin by (rewrite Hg; cbn; auto).
      split; [assumption|]. exists u. split; [assumption | now apply Hl].
Qed.

Lemma await_insert_failed record w msg :
  error (fst (await (insert record (from Enrollments)) w)) = Some msg ->
  enrollments (snd (await (insert record (from Enrollments)) w)) = enrollments w.
Proof.
  rewrite await_unfold. destruct (upstream w); cbn [fst snd].
  - intros _. now rewrite enrollments_report.
  - intros H. discriminate H.
Qed.

Lemma email_of_any_enrollment v e :
  get (wire_fields (new_enrollment v e)) "user_email" = JStr e.
Proof. destruct v; reflexivity. Qed.

(** What [POST /api/enroll] does to the enrollments: nothing, or one
    record more, for the caller. *)
Lemma post_enroll_enrollments req u w :
  enrollments (snd (post_enroll (authed req u) w)) = enrollments w \/
  exists row,
    enrollments (snd (post_enroll (authed req u) w)) = enrollments w ++ [row] /\
    get (r_cols row) "user_email" = JStr (email u) /\
    get (r_cols row) "status" = JStr "terdaftar".
Proof.
  rewrite post_enroll_run. cbv zeta.
  destruct (raises _); [now left|].
  destruct (ToBoolean _); cbn [snd].
  - left. apply enrollments_await_existing.
  - destruct (error _) eqn:He; cbn [snd].
    + left. rewrite (await_insert_failed _ _ _ He). apply enrollments_await_existing.
    + right. eexists. split; [|split].
      * rewrite (await_insert_ok _ _ He), enrollments_await_existing. reflexivity.
      * apply email_of_any_enrollment.
      * apply status_of_new_enrollment.
Qed.

(** X10.  A request that does not come from an admin changes no course,
    and changes the enrollments in one way only: through POST /api/enroll,
    by one record added at the end, carrying the email of the principal
    the token resolved to (never one named in the body) and the status
    "terdaftar". *)
Theorem non_admins_only_enrol_themselves (E : Env) (r : route) (req : Request)
    (w : World) :
  (forall u, resolves E req u -> ~ listed E u) ->
  let after := snd (app E r req w) in
  courses after = courses w /\
  (enrollments after = enrollments w \/
   r = POST_enroll /\
   exists u row,
     resolves E req u /\
     enrollments after = enrollments w ++ [row] /\
     get (r_cols row) "user_email" = JStr (email u) /\
     get (r_cols row) "status" = JStr "terdaftar").
Proof.
  intros Hnot after. subst after.
  destruct (app_cases E r req w) as [(res & ->) | [(Hg & ->) | (u & Hne & Hres & Hl & ->)]];
    cbn [snd].
  - split; [reflexivity | now left].
  - destruct (public_handler_tables E r req w Hg) as [Hc He]. split; [exact Hc | now left].
  - destruct (gates_shape r) as [Hg | [Hg | Hg]].
    + now contradiction Hne.
    + split; [now apply learner_handler_courses|].
      destruct r; try discriminate Hg.
      * destruct (post_enroll_enrollments req u w) as [H | (row & H1 & H2 & H3)].
        -- now left.
        -- right. split; [reflexivity|]. exists u, row. auto.
      * left. rewrite handler_world by discriminate.
        cbn [first_call user authed option_map].
        now apply (rows_await_select Enrollments).
      * left. rewrite handler_world by discriminate.
        cbn [first_call user authed option_map].
        now apply (rows_await_select Enrollments).
    + exfalso. apply (Hnot u Hres). apply Hl. rewrite Hg. cbn. auto.
Qed.

End Access.

(* ===================================================================== *)
(** * More on enrollment *)
(* ===================================================================== *)

Module EnrollmentMore.

Import JsString JsNumber JsValue Store Express Server Gates StoreFacts.
Import Certificate Enrollment Courses Verification CourseAdmin Access.
Local Open Scope list_scope.

Lemma app_enroll E req u w :
  resolves E req u ->
  app E POST_enroll req w
  = (reply_of (fst (post_enroll (authed req u) w)),
     snd (post_enroll (authed req u) w)).
Proof. intros Hres. now apply (auth_passes E POST_enroll). Qed.

Lemma upstream_report r w : upstream (report r w) = upstream w.
Proof. unfold report, upstream, next_fault. now destruct (error r). Qed.

(** A check that reports an error returns nothing. *)
Lemma failed_check_returns_null v e w msg :
  error (fst (await (existing_enrollment v e) w)) = Some msg ->
  data (fst (await (existing_enrollment v e) w)) = JNull.
Proof.
  rewrite await_unfold. destruct (upstream w); cbn [fst]; [reflexivity|].
  rewrite execute_existing. destruct (filters_ok _); cbn [fst]; [|reflexivity].
  destruct (List.map _ _) as [|x [|y l]]; cbn; intros H;
    try discriminate H; reflexivity.
Qed.

Lemma await_insert_up record w :
  upstream w = None ->
  await (insert record (from Enrollments)) w
  = (ok JNull,
     bump_id (set_rows Enrollments (enrollments w ++ [inserted record w]) (called w))).
Proof. intros Hup. rewrite await_unfold, Hup. reflexivity. Qed.

(** X11.  POST /api/enroll does not test the error of its existence
    check: when the course identifier has a text to filter on, the check
    reports an error (the store failing, or more than one record found)
    and the insert goes through, the answer is the 200 of a new enrollment
    and one more record is added for the principal, whatever the table
    already holds for that course and email. *)
Theorem failed_check_lets_enrollment_in (E : Env) (req : Request) (u : User)
    (w : World) (t msg : string) :
  resolves E req u ->
  scalar_text (get (body req) "course_id") = Some t ->
  let check := existing_enrollment (get (body req) "course_id") (email u) in
  error (fst (await check w)) = Some msg ->
  upstream (snd (await check w)) = None ->
  let after := snd (app E POST_enroll req w) in
  fst (app E POST_enroll req w) = Sent enroll_success /\
  exists row,
    enrollments after = enrollments w ++ [row] /\
    get (r_cols row) "user_email" = JStr (email u) /\
    get (r_cols row) "status" = JStr "terdaftar".
Proof.
  intros Hres Ht check Herr Hup after. subst after check.
  rewrite (app_enroll _ _ _ _ Hres), post_enroll_run. cbv zeta.
  rewrite (text_never_raises _ _ Ht).
  rewrite (failed_check_returns_null _ _ _ _ Herr). cbn [ToBoolean].
  rewrite (await_insert_up _ _ Hup). cbn [fst snd error ok reply_of].
  split; [reflexivity|]. eexists. split; [|split].
  - cbn [enrollments bump_id set_rows].
    rewrite enrollments_await_existing. reflexivity.
  - apply email_of_any_enrollment.
  - apply status_of_new_enrollment.
Qed.

(** X12.  When the course identifier has a text to filter on, the
    existence check of POST /api/enroll returns nothing and the insert
    fails upstream, the answer is 500 with the message of the store and no
    enrollment is added. *)
Theorem failed_insert_answered_500 (E : Env) (req : Request) (u : User)
    (w : World) (t msg : string) :
  resolves E req u ->
  scalar_text (get (body req) "course_id") = Some t ->
  let check := existing_enrollment (get (body req) "course_id") (email u) in
  ToBoolean (data (fst (await check w))) = false ->
  upstream (snd (await check w)) = Some msg ->
  let after := snd (app E POST_enroll req w) in
  fst (app E POST_enroll req w) = Sent (status_json 500 (message msg)) /\
  enrollments after = enrollments w.
Proof.
  intros Hres Ht check Hnone Hup after. subst after check.
  rewrite (app_enroll _ _ _ _ Hres), post_enroll_run. cbv zeta.
  rewrite (text_never_raises _ _ Ht), Hnone, (await_upstream_failure _ _ _ Hup).
  cbn [fst snd error failed reply_of]. split; [reflexivity|].
  now rewrite enrollments_report, enrollments_called, enrollments_await_existing.
Qed.

(** ** One enrollment per course and email *)

(** No course and email have more than one enrollment. *)
Definition unique_enrollments (w : World) : Prop :=
  forall c e, (List.length (found c e w) <= 1)%nat.

Lemma unique_same_rows w w' :
  enrollments w' = enrollments w -> unique_enrollments w -> unique_enrollments w'.
Proof. intros H Hu c e. unfold found. rewrite H. apply Hu. Qed.

(** A filter on a course reads the text of the identifier only. *)
Lemma matches_text v t e r :
  scalar_text v = Some t ->
  matches (pair_filters v e) r = matches (pair_filters (JStr t) e) r.
Proof.
  intros H. unfold matches, pair_filters, satisfies. cbn [forallb fst snd].
  now rewrite H.
Qed.

Lemma status_patch_keys v k :
  In k (List.map fst (wire_fields [("status", v)])) -> k = "status".
Proof.
  intros H. apply wire_fields_keys in H. cbn in H. destruct H as [H|[]]. now subst.
Qed.

(** Setting the status of a record leaves its course and its email. *)
Lemma matches_status_patch v e s r :
  matches (pair_filters v e) (patched (wire_fields [("status", s)]) r)
  = matches (pair_filters v e) r.
Proof.
  assert (forall col, String.eqb col "status" = false ->
            get (r_cols (patched (wire_fields [("status", s)]) r)) col
            = get (r_cols r) col) as Hget.
  { intros col Hc. unfold patched. cbn [r_cols]. fold lay.
    apply get_fold_other. intros Hin. apply status_patch_keys in Hin.
    subst col. discriminate Hc. }
  unfold matches, pair_filters, satisfies, cell_text. cbn [forallb fst snd].
  cbn [String.eqb Ascii.eqb Bool.eqb]. now rewrite !Hget by reflexivity.
Qed.

Lemma length_filter_map {A} (p : A -> bool) (f : A -> A) (l : list A) :
  (forall x, p (f x) = p x) ->
  List.length (filter p (List.map f l)) = List.length (filter p l).
Proof.
  intros H. induction l as [|x l IH]; [reflexivity|].
  cbn [List.map filter]. rewrite H. destruct (p x); cbn; now rewrite IH.
Qed.

(** What the status update leaves in the table. *)
Lemma status_update_rows id v w :
  enrollments (snd (await (status_update id v) w)) = enrollments w \/
  enrollments (snd (await (status_update id v) w))
  = List.map (fun r => if has_id id r
                       then patched (wire_fields [("status", v)]) r else r)
             (enrollments w).
Proof.
  rewrite await_unfold. destruct (upstream w); cbn [snd];
    rewrite enrollments_report; [now left|].
  unfold execute, status_update. cbn [q_filters q_verb q_table q_order
    q_columns q_shape eq update with_verb from Datatypes.app filters_ok forallb
    snd scalar_text negb andb].
  destruct (writable _); cbn [negb snd]; [|now left].
  right. cbn [set_rows enrollments rows_of]. apply List.map_ext.
  intros r. now rewrite matches_id.
Qed.

(** The routes that write no enrollment. *)
Lemma other_routes_keep_enrollments E r req w :
  r <> POST_enroll -> (forall id, r <> PUT_enrollments id) ->
  enrollments (snd (handler E r req w)) = enrollments w.
Proof.
  intros H1 H2. rewrite handler_world by assumption.
  destruct (first_call E r req) as [q|] eqn:Hq; [|reflexivity].
  pose proof (first_call_table _ _ _ _ Hq) as Ht.
  destruct r; try (now contradiction H1); try (now contradiction (H2 id));
    try (apply (rows_await_other Enrollments); rewrite Ht; discriminate);
    apply (rows_await_select Enrollments);
    (eapply first_call_of_reader; [|exact Hq]; reflexivity).
Qed.

(** X13.  Whatever the route and the caller, a request during which the
    store reports no error keeps the enrollments unique: if no course and
    email had more than one enrollment before, none has after. *)
Theorem quiet_requests_keep_enrollments_unique (E : Env) (r : route)
    (req : Request) (w : World) :
  unique_enrollments w ->
  errors (snd (app E r req w)) = errors w ->
  unique_enrollments (snd (app E r req w)).
Proof.
  intros Hu Hq.
  destruct (app_cases E r req w) as [(res & Ha) | [(Hg & Ha) | (u & _ & Hres & _ & Ha)]];
    rewrite Ha in *; cbn [snd] in *.
  - assumption.
  - apply (unique_same_rows w); [|assumption].
    now apply public_handler_tables.
  - destruct r;
      try (apply (unique_same_rows w); [|assumption];
           apply other_routes_keep_enrollments; [discriminate | intros id0; discriminate]).
    + (* POST /api/enroll *)
      cbn [handler] in *. rewrite post_enroll_run in *. cbv zeta in *.
      set (v := get (body req) "course_id") in *.
      set (e := email u) in *.
      set (wa := snd (await (existing_enrollment v e) w)) in *.
      destruct (raises v); cbn [snd] in *; [assumption|].
      destruct (ToBoolean (data (fst (await (existing_enrollment v e) w)))) eqn:Hfalsy;
        cbn [snd] in *.
      { apply (unique_same_rows w); [|assumption]. apply enrollments_await_existing. }
      set (q := insert (new_enrollment v e) (from Enrollments)) in *.
      destruct (error (fst (await q wa))) eqn:Hins; cbn [snd] in *.
      { apply (unique_same_rows w); [|assumption].
        unfold q. rewrite (await_insert_failed _ _ _ Hins).
        apply enrollments_await_existing. }
      assert (error (fst (await (existing_enrollment v e) w)) = None) as Hcheck.
      { apply quiet_await. fold wa. apply quiet_await in Hins. congruence. }
      destruct (check_found_nothing _ _ _ Hcheck Hfalsy) as [(t & Ht) Hnone].
      intros c e'. unfold found, q. rewrite (await_insert_ok _ _ Hins).
      unfold wa. rewrite enrollments_await_existing, filter_app, length_app.
      fold (found c e' w). cbn [filter].
      destruct (matches (pair_filters (JStr c) e') (inserted (new_enrollment v e) _)) eqn:Hm;
        cbn [List.length]; [|specialize (Hu c e'); lia].
      apply matches_pair in Hm. destruct Hm as [(t' & Ht' & Hc) He].
      cbn [scalar_text] in Ht'. injection Ht' as <-.
      unfold cell_text in Hc, He. cbn [String.eqb Ascii.eqb Bool.eqb inserted r_cols] in Hc, He.
      rewrite (course_of_new_enrollment v e t Ht) in Hc. injection Hc as <-.
      rewrite email_of_any_enrollment in He. cbn [scalar_text] in He. injection He as <-.
      assert (found t e w = []) as ->; [|cbn; lia].
      rewrite <- Hnone. unfold found, existing. apply filter_ext.
      intros x. symmetry. now apply matches_text.
    + (* PUT /api/enrollments/:id *)
      cbn [handler] in *. rewrite put_enrollment_run in *. cbn [snd] in *.
      destruct (status_update_rows id (get (body (authed req u)) "status") w) as [H|H].
      * now apply (unique_same_rows w).
      * intros c e. unfold found. rewrite H, length_filter_map; [apply Hu|].
        intros x. destruct (has_id id x); [apply matches_status_patch | reflexivity].
Qed.

End EnrollmentMore.

(* ===================================================================== *)
(** * The enrollment listings *)
(* ===================================================================== *)

Module Listings.

Import JsString JsNumber JsValue Store Express Server Gates StoreFacts.
Import Certificate Enrollment Courses Verification CourseAdmin Access.
Local Open Scope list_scope.

(** The enrollments of an email. *)
Definition own (e : string) (w : World) : list row :=
  filter (fun r => match cell_text r "user_email" with
                   | Some t => String.eqb t e
                   | None => false
                   end) (enrollments w).

(** An enrollment as my-enrollments shows it, [c] being its course. *)
Definition my_item (r c : row) : jsval :=
  JObj [ ("course_id", cell r "course_id");
         ("course_title", cell c "title");
         ("status", cell r "status") ].

(** An enrollment as the admin listing shows it. *)
Definition admin_item (r c : row) : jsval :=
  JObj [ ("id", cell r "id");
         ("user_email", cell r "user_email");
         ("course_title", cell c "title");
         ("status", cell r "status") ].

Definition my_columns : list column :=
  [Col "course_id"; Col "status"; Embed "courses" ["title"]].

Definition admin_columns : list column :=
  [Col "id"; Col "user_email"; Col "status"; Embed "courses" ["title"]].

Definition my_query (e : string) : query :=
  eq "user_email" (JStr e) (select my_columns (from Enrollments)).

Definition admin_query : query := select admin_columns (from Enrollments).

(** The arrow functions of the two [data.map] calls. *)
Definition my_view (e : jsval) : option jsval :=
  option_map (fun t =>
    JObj [ ("course_id", prop e "course_id");
           ("course_title", t);
           ("status", prop e "status") ])
    (member (prop e "courses") "title").

Definition admin_view (e : jsval) : option jsval :=
  option_map (fun t =>
    JObj [ ("id", prop e "id");
           ("user_email", prop e "user_email");
           ("course_title", t);
           ("status", prop e "status") ])
    (member (prop e "courses") "title").

Lemma my_view_project w r :
  my_view (project w my_columns r) = option_map (my_item r) (related_course w r).
Proof.
  unfold my_view, project, my_columns. cbn [flat_map project_column Datatypes.app].
  cbn [prop get String.eqb Ascii.eqb Bool.eqb].
  now destruct (related_course w r).
Qed.

Lemma admin_view_project w r :
  admin_view (project w admin_columns r) = option_map (admin_item r) (related_course w r).
Proof.
  unfold admin_view, project, admin_columns. cbn [flat_map project_column Datatypes.app].
  cbn [prop get String.eqb Ascii.eqb Bool.eqb].
  now destruct (related_course w r).
Qed.

(** The items a view gives for each record, when it gives one for all. *)
Fixpoint collect (view : row -> option jsval) (l : list row) : option (list jsval) :=
  match l with
  | [] => Some []
  | r :: rest =>
      match view r with
      | Some y => option_map (cons y) (collect view rest)
      | None => None
      end
  end.

Lemma map_items_map f (g : row -> jsval) l :
  map_items f (List.map g l) = collect (fun r => f (g r)) l.
Proof.
  induction l as [|x l IH]; [reflexivity|].
  cbn [List.map map_items collect]. now rewrite IH.
Qed.

Lemma collect_ext f g l : (forall r, f r = g r) -> collect f l = collect g l.
Proof.
  intros H. induction l as [|x l IH]; [reflexivity|].
  cbn [collect]. now rewrite H, IH.
Qed.

(** [data.map] over records that all have their course. *)
Lemma collect_all (item : row -> row -> jsval) (rel : row -> option row) l :
  (forall r, In r l -> rel r <> None) ->
  exists items,
    collect (fun r => option_map (item r) (rel r)) l = Some items /\
    Forall2 (fun r i => exists c, rel r = Some c /\ i = item r c) l items.
Proof.
  induction l as [|x l IH]; intros H.
  - exists []. split; [reflexivity | constructor].
  - destruct IH as (items & Hm & HF); [intros r Hr; apply H; now right|].
    destruct (rel x) as [c|] eqn:Hc; [|exfalso; apply (H x); [now left | assumption]].
    exists (item x c :: items). split.
    + cbn [collect]. now rewrite Hc, Hm.
    + constructor; [now exists c | assumption].
Qed.

(** [data.map] over records one of which has lost its course. *)
Lemma collect_orphan (item : row -> row -> jsval) (rel : row -> option row) l x :
  In x l -> rel x = None ->
  collect (fun r => option_map (item r) (rel r)) l = None.
Proof.
  induction l as [|y l IH]; intros Hin Hx; [destruct Hin|].
  cbn [collect]. destruct Hin as [->|Hin].
  - now rewrite Hx.
  - destruct (rel y); [|reflexivity]. cbn [option_map]. now rewrite IH.
Qed.

Lemma matches_email e r :
  matches [("user_email", JStr e)] r
  = match cell_text r "user_email" with
    | Some t => String.eqb t e
    | None => false
    end.
Proof.
  unfold matches, satisfies. cbn [forallb fst snd scalar_text].
  destruct (cell_text r "user_email"); [apply andb_true_r | reflexivity].
Qed.

Lemma await_my_query e w :
  upstream w = None ->
  await (my_query e) w
  = (ok (JArr (List.map (project (called w) my_columns) (own e w))), called w).
Proof.
  intros Hup. rewrite await_unfold, Hup.
  unfold execute, my_query. cbn [q_filters q_verb q_table q_order q_columns
    q_shape eq select from Datatypes.app filters_ok forallb snd scalar_text
    negb andb rows_of ordered shaped fst].
  unfold own. rewrite (filter_ext _ _ (matches_email e)). reflexivity.
Qed.

Lemma await_admin_query w :
  upstream w = None ->
  await admin_query w
  = (ok (JArr (List.map (project (called w) admin_columns) (enrollments w))), called w).
Proof.
  intros Hup. rewrite await_unfold, Hup.
  unfold execute, admin_query. cbn [q_filters q_verb q_table q_order q_columns
    q_shape select from filters_ok forallb negb rows_of ordered shaped fst snd].
  unfold matches. cbn [forallb]. now rewrite Courses.filter_all.
Qed.

Lemma my_enrollments_run req u w :
  upstream w = None ->
  get_my_enrollments (authed req u) w
  = (match collect (fun r => option_map (my_item r) (related_course w r))
                   (own (email u) w) with
     | Some items => Send (json (JArr items))
     | None => Throw type_error
     end, called w).
Proof.
  intros Hup. unfold get_my_enrollments. cbn [user authed]. unfold bind.
  fold my_columns. fold (my_query (email u)). rewrite (await_my_query _ _ Hup).
  cbn [error ok data]. fold my_view. unfold array_map.
  rewrite map_items_map.
  rewrite (collect_ext _ (fun r => option_map (my_item r) (related_course w r)))
    by (intros r; rewrite my_view_project; reflexivity).
  now destruct (collect _ _).
Qed.

Lemma admin_listing_run req w :
  upstream w = None ->
  get_enrollments req w
  = (match collect (fun r => option_map (admin_item r) (related_course w r))
                   (enrollments w) with
     | Some items => Send (json (JArr items))
     | None => Throw type_error
     end, called w).
Proof.
  intros Hup. unfold get_enrollments, bind.
  fold admin_columns. fold admin_query. rewrite (await_admin_query _ Hup).
  cbn [error ok data]. fold admin_view. unfold array_map.
  rewrite map_items_map.
  rewrite (collect_ext _ (fun r => option_map (admin_item r) (related_course w r)))
    by (intros r; rewrite admin_view_project; reflexivity).
  now destruct (collect _ _).
Qed.

(** X14.  With the store up, and every enrollment of the principal
    referring to a course that exists, GET /api/my-enrollments answers 200
    with one item per enrollment of the principal's email, in table order,
    showing its course id, the title of its course and its status;
    enrollments of other emails do not appear. *)
Theorem my_enrollments_lists_own (E : Env) (req : Request) (u : User) (w : World) :
  resolves E req u ->
  upstream w = None ->
  (forall r, In r (own (email u) w) -> related_course w r <> None) ->
  exists items,
    fst (app E GET_my_enrollments req w) = Sent (json (JArr items)) /\
    Forall2 (fun r i => exists c, related_course w r = Some c /\ i = my_item r c)
            (own (email u) w) items.
Proof.
  intros Hres Hup Hall.
  destruct (collect_all my_item (related_course w) _ Hall) as (items & Hc & HF).
  exists items. split; [|exact HF].
  rewrite (auth_passes _ _ _ u) by (reflexivity || assumption).
  cbn [handler]. rewrite (my_enrollments_run _ _ _ Hup), Hc. reflexivity.
Qed.

(** X15.  The listings read [e.courses.title] unguarded: with the store
    up, when one enrollment of the principal (for my-enrollments) or one
    enrollment at all (for the admin listing) refers to no course, the
    handler throws and sends no answer; no table changes. *)
Theorem listings_throw_on_orphan (E : Env) (req : Request) (u : User)
    (w : World) (x : row) :
  resolves E req u ->
  upstream w = None ->
  related_course w x = None ->
  (In x (own (email u) w) ->
   app E GET_my_enrollments req w = (Thrown type_error, called w)) /\
  (In x (enrollments w) -> listed E u ->
   app E GET_enrollments req w = (Thrown type_error, called w)).
Proof.
  intros Hres Hup Hx. split.
  - intros Hin. rewrite (auth_passes _ _ _ u) by (reflexivity || assumption).
    cbn [handler]. rewrite (my_enrollments_run _ _ _ Hup).
    now rewrite (collect_orphan my_item (related_course w) _ x Hin Hx).
  - intros Hin Hl. rewrite (admin_passes _ _ _ u) by (simpl; auto || assumption).
    cbn [handler]. rewrite (admin_listing_run _ _ Hup).
    now rewrite (collect_orphan admin_item (related_course w) _ x Hin Hx).
Qed.

(** X16.  GET /api/enrollments does not test the error of its call: when
    the call fails upstream, [data] is null and the handler throws instead
    of answering 500; with the store up and every enrollment referring to a
    course that exists, the answer is 200 with one item per enrollment of
    the table, of every email, in table order. *)
Theorem admin_listing (E : Env) (req : Request) (u : User) (w : World) :
  resolves E req u ->
  listed E u ->
  (forall msg, upstream w = Some msg ->
     fst (app E GET_enrollments req w) = Thrown type_error) /\
  (upstream w = None ->
   (forall r, In r (enrollments w) -> related_course w r <> None) ->
   exists items,
     fst (app E GET_enrollments req w) = Sent (json (JArr items)) /\
     Forall2 (fun r i => exists c, related_course w r = Some c /\ i = admin_item r c)
             (enrollments w) items).
Proof.
  intros Hres Hl.
  rewrite (admin_passes _ _ _ u) by (simpl; auto || assumption).
  cbn [handler fst]. split.
  - intros msg Hup. unfold get_enrollments, bind.
    now rewrite (await_upstream_failure _ _ _ Hup).
  - intros Hup Hall.
    destruct (collect_all admin_item (related_course w) _ Hall) as (items & Hc & HF).
    exists items. split; [|exact HF].
    rewrite (admin_listing_run _ _ Hup), Hc. reflexivity.
Qed.

End Listings.

(* ===================================================================== *)
(** * More on certificates *)
(* ===================================================================== *)

Module CertificateMore.

Import JsString JsNumber JsValue Store Express Server Gates StoreFacts.
Import Certificate Enrollment Courses Verification CourseAdmin Access EnrollmentMore.
Local Open Scope list_scope.

(** The title printed for an enrollment: that of its course, or "Kursus"
    when the course is gone or its title is falsy. *)
Definition printed_title (w : World) (r : row) : jsval :=
  match related_course w r with
  | Some c => or (cell c "title") (JStr "Kursus")
  | None => JStr "Kursus"
  end.

Lemma project_title w r :
  or (prop (prop (project w lookup_columns r) "courses") "title") (JStr "Kursus")
  = printed_title w r.
Proof.
  unfold project, lookup_columns, printed_title.
  cbn [flat_map project_column Datatypes.app prop get String.eqb Ascii.eqb Bool.eqb].
  now destruct (related_course w r).
Qed.

Lemma await_lookup_one c e w r :
  upstream w = None -> found c e w = [r] ->
  await (enrollment_lookup c e) w = (ok (project (called w) lookup_columns r), called w).
Proof.
  intros Hup Hf. rewrite await_unfold, Hup, execute_lookup.
  change (found c e (called w)) with (found c e w). now rewrite Hf.
Qed.

(** X17.  What the certificate shows.  With the store up and the lookup
    finding one enrollment, in status "lulus", the answer is the PDF of the
    document drawn for: the recipient name of the principal; the title of
    the course, or "Kursus" when the course is gone or has no title (the
    route still answers, where the listings throw); the date and the number
    made from the clock at the request.  The store is not written. *)
Theorem certificate_contents (E : Env) (courseId : string) (req : Request)
    (w : World) (u : User) (r : row) :
  resolves E req u ->
  upstream w = None ->
  found courseId (email u) w = [r] ->
  has_status r "lulus" ->
  app E (GET_certificates courseId) req w
  = (Sent (pdf_response (pdfkit E
       (certificate_doc (recipient u) (printed_title w r)
                        (toLocaleDateString E (now w))
                        (certificate_number (now w))))),
     called w).
Proof.
  intros Hres Hup Hf Hs.
  rewrite (app_certificate _ _ _ _ _ Hres), get_certificate_run. cbv zeta.
  assert (eligible (fst (await (enrollment_lookup courseId (email u)) w)) = true) as ->.
  { apply eligible_iff. split; [assumption|]. now exists r. }
  rewrite (await_lookup_one _ _ _ _ Hup Hf). cbn [fst snd reply_of data ok].
  rewrite project_title. reflexivity.
Qed.

(** The display name of a principal, when the metadata has one. *)
Definition display_name (u : User) : option string :=
  match user_metadata u with
  | Some m => full_name m
  | None => None
  end.

(** X18.  The name on a certificate is never empty: it is the full name
    of the metadata, trimmed, unless that is missing or blank; then the
    email, unless that is empty; then "Peserta". *)
Theorem recipient_fallback (u : User) :
  recipient u <> "" /\
  (forall n, display_name u = Some n -> trim n <> "" -> recipient u = trim n) /\
  ((display_name u = None \/ exists n, display_name u = Some n /\ trim n = "") ->
   (email u <> "" -> recipient u = email u) /\
   (email u = "" -> recipient u = "Peserta")).
Proof.
  unfold recipient, display_name.
  destruct (user_metadata u) as [[fn]|]; cbn [full_name option_map or_string].
  - destruct fn as [n|]; cbn [option_map or_string].
    + destruct (String.eqb (trim n) "") eqn:Hn.
      * apply String.eqb_eq in Hn.
        destruct (String.eqb (email u) "") eqn:He.
        -- apply String.eqb_eq in He. split; [discriminate|]. split.
           ++ intros n0 H0 Hne. injection H0 as <-. now contradiction Hne.
           ++ intros _. split; [intros Hc; now contradiction Hc | reflexivity].
        -- apply String.eqb_neq in He. split; [assumption|]. split.
           ++ intros n0 H0 Hne. injection H0 as <-. now contradiction Hne.
           ++ intros _. split; [reflexivity | intros Hc; now contradiction He].
      * apply String.eqb_neq in Hn. split; [assumption|]. split.
        -- intros n0 H0 _. now injection H0 as <-.
        -- intros [H|(n0 & H0 & Hb)]; [discriminate H|].
           injection H0 as <-. now contradiction Hn.
    + destruct (String.eqb (email u) "") eqn:He.
      * apply String.eqb_eq in He. split; [discriminate|]. split.
        -- intros n0 H0. discriminate H0.
        -- intros _. split; [intros Hc; now contradiction Hc | reflexivity].
      * apply String.eqb_neq in He. split; [assumption|]. split.
        -- intros n0 H0. discriminate H0.
        -- intros _. split; [reflexivity | intros Hc; now contradiction He].
  - destruct (String.eqb (email u) "") eqn:He.
    + apply String.eqb_eq in He. split; [discriminate|]. split.
      * intros n0 H0. discriminate H0.
      * intros _. split; [intros Hc; now contradiction Hc | reflexivity].
    + apply String.eqb_neq in He. split; [assumption|]. split.
      * intros n0 H0. discriminate H0.
      * intros _. split; [reflexivity | intros Hc; now contradiction He].
Qed.

Lemma filter_map_commute {A} (p : A -> bool) (f : A -> A) (l : list A) :
  (forall x, p (f x) = p x) ->
  filter p (List.map f l) = List.map f (filter p l).
Proof.
  intros H. induction l as [|x l IH]; [reflexivity|].
  cbn [List.map filter]. rewrite H. destruct (p x); cbn [List.map]; now rewrite IH.
Qed.

(** X19.  The admin's status update decides the certificate.  When the
    lookup finds one enrollment for the course and the learner, and an
    admin sets the status of the enrollments with its id to the string [s],
    the store up, then the learner's next certificate request, the store
    still up, is answered with the PDF when [s] is "lulus" and with the 403
    "Belum lulus" for every other [s]. *)
Theorem status_update_decides_certificate (E : Env) (id courseId s : string)
    (reqA reqU : Request) (w : World) (a u : User) (r : row) :
  resolves E reqA a ->
  listed E a ->
  get (body reqA) "status" = JStr s ->
  upstream w = None ->
  found courseId (email u) w = [r] ->
  has_id id r = true ->
  let w1 := snd (app E (PUT_enrollments id) reqA w) in
  resolves E reqU u ->
  upstream w1 = None ->
  fst (app E (GET_certificates courseId) reqU w1)
  = if String.eqb s "lulus"
    then Sent (pdf_response (pdfkit E
           (certificate_doc (recipient u) (printed_title w1 (with_status (JStr s) r))
                            (toLocaleDateString E (now w1))
                            (certificate_number (now w1)))))
    else Sent not_eligible.
Proof.
  intros HresA Hl Hs Hup Hf Hid w1 HresU Hup1.
  assert (enrollments w1
          = List.map (fun x => if has_id id x then with_status (JStr s) x else x)
                     (enrollments w)) as Hrows.
  { subst w1. rewrite (admin_passes _ _ _ a) by (simpl; auto || assumption).
    cbn [handler snd]. rewrite put_enrollment_run. cbn [snd body authed].
    rewrite Hs, await_unfold, Hup, execute_status_update. cbn [fst snd].
    now rewrite enrollments_report. }
  assert (found courseId (email u) w1 = [with_status (JStr s) r]) as Hf1.
  { unfold found in *. rewrite Hrows, filter_map_commute, Hf.
    - cbn [List.map]. now rewrite Hid.
    - intros x. destruct (has_id id x); [|reflexivity].
      exact (matches_status_patch (JStr courseId) (email u) (JStr s) x). }
  destruct (String.eqb s "lulus") eqn:Hlulus.
  - apply String.eqb_eq in Hlulus. subst s.
    rewrite (app_certificate _ _ _ _ _ HresU), get_certificate_run. cbv zeta.
    assert (eligible (fst (await (enrollment_lookup courseId (email u)) w1)) = true) as ->.
    { apply eligible_iff. split; [assumption|]. eexists. split; [exact Hf1|].
      apply status_with_status. }
    rewrite (await_lookup_one _ _ _ _ Hup1 Hf1). cbn [fst snd reply_of data ok].
    rewrite project_title. reflexivity.
  - rewrite (app_certificate _ _ _ _ _ HresU), get_certificate_run. cbv zeta.
    destruct (eligible _) eqn:Hel; [|reflexivity].
    exfalso. apply eligible_iff in Hel. destruct Hel as [_ (x & Hx & Hst)].
    rewrite Hf1 in Hx. injection Hx as <-. unfold has_status in Hst.
    rewrite status_with_status in Hst. injection Hst as ->.
    now rewrite String.eqb_refl in Hlulus.
Qed.

(** X20.  The lookup asks for a single record: as soon as the table
    holds two enrollments or more for the course and the principal, the
    certificate is refused with the 403 "Belum lulus", even when every one
    of them is in status "lulus"; the same when it holds none. *)
Theorem duplicates_block_certificate (E : Env) (courseId : string) (req : Request)
    (w : World) (u : User) :
  resolves E req u ->
  List.length (found courseId (email u) w) <> 1%nat ->
  fst (app E (GET_certificates courseId) req w) = Sent not_eligible.
Proof.
  intros Hres Hlen.
  rewrite (app_certificate _ _ _ _ _ Hres), get_certificate_run. cbv zeta.
  destruct (eligible _) eqn:Hel; [|reflexivity].
  exfalso. apply eligible_iff in Hel. destruct Hel as [_ (x & Hx & _)].
  apply Hlen. now rewrite Hx.
Qed.

End CertificateMore.

(* ===================================================================== *)
(** * Enroll, then list *)
(* ===================================================================== *)

Module RoundTrips.

Import JsString JsNumber JsValue Store Express Server Gates StoreFacts.
Import Certificate Enrollment Courses Verification CourseAdmin Access EnrollmentMore.
Import Listings.
Local Open Scope list_scope.

Lemma own_app e w w' row :
  enrollments w' = enrollments w ++ [row] ->
  cell_text row "user_email" = Some e ->
  own e w' = own e w ++ [row].
Proof.
  intros Hrows He. unfold own. rewrite Hrows, filter_app. cbn [filter].
  now rewrite He, String.eqb_refl.
Qed.

(** X21.  After a successful POST /api/enroll, the principal's
    my-enrollments (the store up, the courses of their enrollments
    existing) ends with the new enrollment, in status "terdaftar", after
    the items of the enrollments they had. *)
Theorem enroll_then_listed (E : Env) (req req' : Request) (u : User) (w w1 : World) :
  resolves E req u ->
  resolves E req' u ->
  app E POST_enroll req w = (Sent enroll_success, w1) ->
  upstream w1 = None ->
  (forall r, In r (own (email u) w1) -> related_course w1 r <> None) ->
  exists items row c,
    fst (app E GET_my_enrollments req' w1) = Sent (json (JArr (items ++ [my_item row c]))) /\
    List.length items = List.length (own (email u) w) /\
    enrollments w1 = enrollments w ++ [row] /\
    related_course w1 row = Some c /\
    cell row "status" = JStr "terdaftar".
Proof.
  intros Hres Hres' Happ Hup Hall.
  rewrite (app_enroll _ _ _ _ Hres), post_enroll_run in Happ. cbv zeta in Happ.
  destruct (raises _); [discriminate Happ|].
  destruct (ToBoolean _); [discriminate Happ|].
  destruct (error _) eqn:Hins; [discriminate Happ|].
  cbn [fst snd reply_of] in Happ. injection Happ as Hw1.
  set (row := inserted (new_enrollment (get (body req) "course_id") (email u))
                (snd (await (existing_enrollment (get (body req) "course_id") (email u)) w))) in *.
  assert (enrollments w1 = enrollments w ++ [row]) as Hrows.
  { rewrite <- Hw1, (await_insert_ok _ _ Hins), enrollments_await_existing. reflexivity. }
  assert (own (email u) w1 = own (email u) w ++ [row]) as Hown.
  { apply own_app; [assumption|]. unfold cell_text.
    cbn [String.eqb Ascii.eqb Bool.eqb]. unfold row. cbn [inserted r_cols].
    now rewrite email_of_any_enrollment. }
  destruct (collect_all my_item (related_course w1) _ Hall) as (all & Hc & HF).
  rewrite Hown in HF. apply Forall2_app_inv_l in HF.
  destruct HF as (items & last & HF1 & HF2 & ->).
  inversion HF2 as [|? i ? rest (c & Hrel & ->) Hnil]; subst.
  inversion Hnil; subst.
  exists items, row, c. split; [|split; [|split; [|split]]].
  - rewrite (auth_passes _ _ _ u) by (reflexivity || assumption).
    cbn [handler]. rewrite (my_enrollments_run _ _ _ Hup), Hc. reflexivity.
  - symmetry. exact (Forall2_length HF1).
  - exact Hrows.
  - exact Hrel.
  - apply cell_status. unfold row. cbn [inserted r_cols]. apply status_of_new_enrollment.
Qed.

End RoundTrips.

(* ===================================================================== *)
(** * More scenarios *)
(* ===================================================================== *)

(** The statements of the later sections, run on the deployment of
    [Scenario]. *)
Module MoreScenarios.

Import JsString JsNumber JsValue Store Express Server Gates StoreFacts.
Import Certificate Enrollment Courses Verification Scenario.
Import Tokens CourseAdmin Access EnrollmentMore Listings CertificateMore RoundTrips.
Local Open Scope list_scope.

(** The same deployment with ADMIN_EMAILS unset. *)
Definition env_unconfigured : Env :=
  {| getUser := getUser env; ADMIN_EMAILS := None;
     toLowerCase := toLowerCase env; toLowerCase_empty := toLowerCase_empty env;
     toLocaleDateString := toLocaleDateString env; pdfkit := pdfkit env |}.

Definition timeout : string := "upstream timeout".

(** An enrollment of the learner in a course that is gone. *)
Definition orphan : row :=
  {| r_id := 8; r_created_at := 1762128180000;
     r_cols := [ ("course_id", JNum (of_Z 9));
                 ("user_email", JStr "siti@example.com");
                 ("status", JStr "lulus") ] |}.

Definition orphaned_world : World :=
  {| courses := [course5]; enrollments := [orphan]; next_id := 9;
     now := 1762128240000; faults := []; errors := [] |}.

(** The learner enrolled twice in course 5, passed both times. *)
Definition second_enrollment : row :=
  {| r_id := 7; r_created_at := 1762128120000;
     r_cols := [ ("course_id", JNum (of_Z 5));
                 ("user_email", JStr "siti@example.com");
                 ("status", JStr "lulus") ] |}.

Definition doubled_world : World :=
  {| courses := [course5];
     enrollments := [enrollment_of_siti "lulus"; second_enrollment];
     next_id := 8; now := 1762128180000; faults := []; errors := [] |}.

Lemma only_siti_resolves b u : resolves env (as_siti b) u -> u = siti.
Proof.
  intros (t & [Hb _] & He & Hu). cbn in Hb. injection Hb as <-.
  cbn in Hu. now injection Hu as <-.
Qed.

Lemma auth_gate_admits_witness :
  requireAuth env (as_siti []) open_course
  = (Next (authed (as_siti []) siti), open_course) /\
  exists u, resolves env (as_siti []) u /\
            authed (as_siti []) siti = authed (as_siti []) u.
Proof.
  assert (requireAuth env (as_siti []) open_course
          = (Next (authed (as_siti []) siti), open_course)) as H by reflexivity.
  split; [exact H|].
  exact (proj2 (auth_gate_admits env (as_siti []) _ open_course _ H)).
Defined.

Lemma admin_gate_unconfigured_witness :
  admin_config env_unconfigured = "" /\
  requireAdmin env_unconfigured (authed (as_admin []) admin) open_course
  = (Send (status_json 403 (message "Admin only")), open_course).
Proof.
  assert (admin_config env_unconfigured = "") as H by reflexivity.
  split; [exact H|].
  exact (admin_gate_unconfigured env_unconfigured (as_admin []) admin open_course H).
Defined.

Lemma upstream_failure_answered_500_witness :
  upstream (enrolled_world "lulus" [Some timeout]) = Some timeout /\
  fst (app env (DELETE_courses "5") (as_admin []) (enrolled_world "lulus" [Some timeout]))
  = Sent (status_json 500 (message timeout)) /\
  courses (snd (app env (DELETE_courses "5") (as_admin [])
                    (enrolled_world "lulus" [Some timeout])))
  = [course5].
Proof.
  assert (upstream (enrolled_world "lulus" [Some timeout]) = Some timeout) as H
    by reflexivity.
  split; [exact H|].
  pose proof (upstream_failure_answered_500 env (DELETE_courses "5") (as_admin [])
                (enrolled_world "lulus" [Some timeout]) admin timeout
                eq_refl (fun _ => admin_resolves []) (fun _ => admin_listed)
                (fun _ => eq_refl) H) as T.
  cbv zeta in T. destruct T as (T1 & T2 & _). split; [exact T1 | exact T2].
Defined.

Lemma create_then_list_witness :
  upstream open_course = None /\
  exists r,
    fst (app env POST_courses (create_course (JStr "25000")) open_course)
    = Sent (json (course_json r)) /\
    r_id r = 6 /\
    exists rows,
      fst (app env GET_courses (incoming None [])
               (snd (app env POST_courses (create_course (JStr "25000")) open_course)))
      = Sent (json (JArr (List.map course_json rows))) /\
      In r rows.
Proof.
  split; [reflexivity|].
  pose proof (create_then_list env (create_course (JStr "25000")) (incoming None [])
                open_course admin (admin_resolves _) admin_listed eq_refl eq_refl) as T.
  cbv zeta in T. destruct T as (T1 & T2 & _ & _ & T5).
  eexists. split; [exact T2|]. split; [exact T1|].
  destruct (T5 eq_refl) as (rows & R1 & R2 & _).
  exists rows. split; [exact R1 | exact R2].
Defined.

Lemma update_course_passes_through_witness :
  writable (wire_fields [("price", JStr "abc")]) = true /\
  fst (app env (PUT_courses "5") (as_admin [("price", JStr "abc")]) open_course)
  = Sent (json (message "Updated")) /\
  forall r,
    In r (courses (snd (app env (PUT_courses "5") (as_admin [("price", JStr "abc")])
                            open_course))) ->
    has_id "5" r = true -> get (r_cols r) "price" = JStr "abc".
Proof.
  split; [reflexivity|].
  pose proof (update_course_passes_through env "5" (as_admin [("price", JStr "abc")])
                open_course admin (admin_resolves _) admin_listed eq_refl eq_refl) as T.
  cbv zeta in T. destruct T as (T1 & _ & _ & _ & T5).
  split; [exact T1|]. intros r Hr Hid.
  refine (T5 _ "price" (JStr "abc") r _ _ Hr Hid).
  - cbn. repeat constructor. intros [].
  - now left.
  - discriminate.
Defined.

Lemma delete_course_removes_witness :
  upstream open_course = None /\
  fst (app env (DELETE_courses "5") (as_admin []) open_course)
  = Sent (json (message "Deleted")) /\
  ~ In course5 (courses (snd (app env (DELETE_courses "5") (as_admin []) open_course))).
Proof.
  split; [reflexivity|].
  pose proof (delete_course_removes env "5" (as_admin []) open_course admin
                (admin_resolves _) admin_listed eq_refl) as T.
  cbv zeta in T. destruct T as (T1 & T2 & _).
  split; [exact T1|]. intros Hin. apply T2 in Hin. destruct Hin as [_ H].
  discriminate H.
Defined.

Lemma readers_change_nothing_witness :
  reads_only (GET_certificates "5") = true /\
  enrollments (snd (app env (GET_certificates "5") (as_siti []) (enrolled_world "lulus" [])))
  = [enrollment_of_siti "lulus"].
Proof.
  split; [reflexivity|].
  exact (proj1 (proj2 (readers_change_nothing env (GET_certificates "5") (as_siti [])
                         (enrolled_world "lulus" []) eq_refl))).
Defined.

Lemma only_admins_change_courses_witness :
  courses (snd (app env POST_courses (create_course (JStr "25000")) open_course))
  <> courses open_course /\
  In Admin (gates POST_courses) /\
  exists u, resolves env (create_course (JStr "25000")) u /\ listed env u.
Proof.
  assert (courses (snd (app env POST_courses (create_course (JStr "25000")) open_course))
          <> courses open_course) as H.
  { vm_compute. intros H. discriminate H. }
  split; [exact H|].
  exact (only_admins_change_courses env POST_courses (create_course (JStr "25000"))
           open_course H).
Defined.

Lemma siti_is_no_admin b u : resolves env (as_siti b) u -> ~ listed env u.
Proof. intros H. rewrite (only_siti_resolves _ _ H). apply siti_not_listed. Qed.

Lemma non_admins_only_enrol_themselves_witness :
  (forall u, resolves env enroll_in_5 u -> ~ listed env u) /\
  courses (snd (app env POST_enroll enroll_in_5 open_course)) = courses open_course.
Proof.
  split; [apply siti_is_no_admin|].
  exact (proj1 (non_admins_only_enrol_themselves env POST_enroll enroll_in_5 open_course
                  (siti_is_no_admin _))).
Defined.

(** The learner is enrolled already; the check fails upstream, the insert
    goes through: a second enrollment is added. *)
Lemma failed_check_lets_enrollment_in_witness :
  error (fst (await (existing_enrollment (get (body enroll_in_5) "course_id") (email siti))
                    (enrolled_world "terdaftar" [Some timeout])))
  = Some timeout /\
  fst (app env POST_enroll enroll_in_5 (enrolled_world "terdaftar" [Some timeout]))
  = Sent enroll_success /\
  exists row,
    enrollments (snd (app env POST_enroll enroll_in_5
                          (enrolled_world "terdaftar" [Some timeout])))
    = [enrollment_of_siti "terdaftar"; row].
Proof.
  split; [reflexivity|].
  pose proof (failed_check_lets_enrollment_in env enroll_in_5 siti
                (enrolled_world "terdaftar" [Some timeout]) "5" timeout
                (siti_resolves _) eq_refl eq_refl eq_refl) as T.
  cbv zeta in T. destruct T as (T1 & row & T2 & _).
  split; [exact T1|]. exists row. exact T2.
Defined.

Definition enroll_in_9 : Request := as_siti [("course_id", JNum (of_Z 9))].

Lemma failed_insert_answered_500_witness :
  ToBoolean (data (fst (await (existing_enrollment (get (body enroll_in_9) "course_id")
                                                   (email siti))
                              (enrolled_world "lulus" [None; Some timeout]))))
  = false /\
  upstream (snd (await (existing_enrollment (get (body enroll_in_9) "course_id") (email siti))
                       (enrolled_world "lulus" [None; Some timeout])))
  = Some timeout /\
  fst (app env POST_enroll enroll_in_9 (enrolled_world "lulus" [None; Some timeout]))
  = Sent (status_json 500 (message timeout)).
Proof.
  split; [reflexivity|]. split; [reflexivity|].
  exact (proj1 (failed_insert_answered_500 env enroll_in_9 siti
                  (enrolled_world "lulus" [None; Some timeout]) "9" timeout
                  (siti_resolves _) eq_refl eq_refl eq_refl)).
Defined.

Lemma open_course_unique : unique_enrollments open_course.
Proof. intros c e. cbn. lia. Qed.

Lemma quiet_requests_keep_enrollments_unique_witness :
  unique_enrollments open_course /\
  errors (snd (app env POST_enroll enroll_in_5 open_course)) = errors open_course /\
  unique_enrollments (snd (app env POST_enroll enroll_in_5 open_course)).
Proof.
  split; [apply open_course_unique|]. split; [reflexivity|].
  exact (quiet_requests_keep_enrollments_unique env POST_enroll enroll_in_5 open_course
           open_course_unique eq_refl).
Defined.

Lemma siti_courses_exist :
  forall r, In r (own (email siti) (enrolled_world "terdaftar" [])) ->
            related_course (enrolled_world "terdaftar" []) r <> None.
Proof.
  intros r Hin. vm_compute in Hin. destruct Hin as [<-|[]].
  vm_compute. intros H. discriminate H.
Qed.

Lemma my_enrollments_lists_own_witness :
  upstream (enrolled_world "terdaftar" []) = None /\
  exists items,
    fst (app env GET_my_enrollments (as_siti []) (enrolled_world "terdaftar" []))
    = Sent (json (JArr items)) /\
    Forall2 (fun r i => exists c, related_course (enrolled_world "terdaftar" []) r = Some c /\
                                  i = my_item r c)
            [enrollment_of_siti "terdaftar"] items.
Proof.
  split; [reflexivity|].
  exact (my_enrollments_lists_own env (as_siti []) siti (enrolled_world "terdaftar" [])
           (siti_resolves _) eq_refl siti_courses_exist).
Defined.

Example my_enrollments_of_siti :
  fst (app env GET_my_enrollments (as_siti []) (enrolled_world "terdaftar" []))
  = Sent (json (JArr [my_item (enrollment_of_siti "terdaftar") course5])).
Proof. reflexivity. Qed.

Lemma listings_throw_on_orphan_witness :
  related_course orphaned_world orphan = None /\
  In orphan (own (email siti) orphaned_world) /\
  fst (app env GET_my_enrollments (as_siti []) orphaned_world) = Thrown type_error.
Proof.
  assert (related_course orphaned_world orphan = None) as H by reflexivity.
  assert (In orphan (own (email siti) orphaned_world)) as Hin by (vm_compute; auto).
  split; [exact H|]. split; [exact Hin|].
  rewrite (proj1 (listings_throw_on_orphan env (as_siti []) siti orphaned_world orphan
                    (siti_resolves _) eq_refl H) Hin).
  reflexivity.
Defined.

Lemma admin_listing_witness :
  resolves env (as_admin []) admin /\
  listed env admin /\
  fst (app env GET_enrollments (as_admin []) (enrolled_world "lulus" [Some timeout]))
  = Thrown type_error.
Proof.
  split; [apply admin_resolves|]. split; [apply admin_listed|].
  exact (proj1 (admin_listing env (as_admin []) admin
                  (enrolled_world "lulus" [Some timeout])
                  (admin_resolves _) admin_listed) timeout eq_refl).
Defined.

(** The course is gone: the certificate is served all the same, under
    the title "Kursus". *)
Lemma certificate_contents_witness :
  found "9" (email siti) orphaned_world = [orphan] /\
  has_status orphan "lulus" /\
  fst (app env (GET_certificates "9") (as_siti []) orphaned_world)
  = Sent (pdf_response (pdfkit env
            (certificate_doc "Siti Rahma" (JStr "Kursus") "3 November 2026" "KK-240000"))).
Proof.
  assert (found "9" (email siti) orphaned_world = [orphan]) as Hf by reflexivity.
  assert (has_status orphan "lulus") as Hs by reflexivity.
  split; [exact Hf|]. split; [exact Hs|].
  rewrite (certificate_contents env "9" (as_siti []) orphaned_world siti orphan
             (siti_resolves _) eq_refl Hf Hs).
  reflexivity.
Defined.

Lemma status_update_decides_certificate_witness :
  found "5" (email siti) (enrolled_world "terdaftar" []) = [enrollment_of_siti "terdaftar"] /\
  has_id "6" (enrollment_of_siti "terdaftar") = true /\
  exists res,
    fst (app env (GET_certificates "5") (as_siti [])
             (snd (app env (PUT_enrollments "6") (as_admin [("status", JStr "lulus")])
                       (enrolled_world "terdaftar" []))))
    = Sent res /\
    In ("Content-Type", "application/pdf") (headers res).
Proof.
  assert (found "5" (email siti) (enrolled_world "terdaftar" [])
          = [enrollment_of_siti "terdaftar"]) as Hf by reflexivity.
  split; [exact Hf|]. split; [reflexivity|].
  pose proof (status_update_decides_certificate env "6" "5" "lulus"
                (as_admin [("status", JStr "lulus")]) (as_siti [])
                (enrolled_world "terdaftar" []) admin siti (enrollment_of_siti "terdaftar")
                (admin_resolves _) admin_listed eq_refl eq_refl Hf eq_refl) as T.
  cbv zeta in T. specialize (T (siti_resolves _) eq_refl).
  eexists. split; [exact T|]. now left.
Defined.

Lemma duplicates_block_certificate_witness :
  List.length (found "5" (email siti) doubled_world) <> 1%nat /\
  fst (app env (GET_certificates "5") (as_siti []) doubled_world) = Sent not_eligible.
Proof.
  assert (List.length (found "5" (email siti) doubled_world) <> 1%nat) as H.
  { vm_compute. intros H. discriminate H. }
  split; [exact H|].
  exact (duplicates_block_certificate env "5" (as_siti []) doubled_world siti
           (siti_resolves _) H).
Defined.

Lemma after_enroll_courses_exist :
  forall r, In r (own (email siti) after_first_enroll) ->
            related_course after_first_enroll r <> None.
Proof.
  intros r Hin. vm_compute in Hin. destruct Hin as [<-|[]].
  vm_compute. intros H. discriminate H.
Qed.

Lemma enroll_then_listed_witness :
  app env POST_enroll enroll_in_5 open_course = (Sent enroll_success, after_first_enroll) /\
  exists items row c,
    fst (app env GET_my_enrollments (as_siti []) after_first_enroll)
    = Sent (json (JArr (items ++ [my_item row c]))) /\
    cell row "status" = JStr "terdaftar".
Proof.
  assert (app env POST_enroll enroll_in_5 open_course
          = (Sent enroll_success, after_first_enroll)) as H by reflexivity.
  split; [exact H|].
  destruct (enroll_then_listed env enroll_in_5 (as_siti []) siti open_course
              after_first_enroll (siti_resolves _) (siti_resolves _) H eq_refl
              after_enroll_courses_exist) as (items & row & c & T1 & _ & _ & _ & T5).
  exists items, row, c. split; [exact T1 | exact T5].
Defined.

End MoreScenarios.
